(** * chargeoff: the credit-card rates dashboard (app.py)

    A shallow embedding of the data pipeline of [app.py]:

    - [fetch_fred_data_api]  the remote fetcher (one HTTP GET per series,
      the JSON observation list turned into a date-indexed column);
    - [create_sample_data]   the synthetic generator (seeded Gaussian noise
      around two bases, stress windows, floor at 0.5);
    - [dashboard]            the script body that selects the source, merges
      the fetched columns and renders the page.

    Numbers are IEEE-754 binary64 values, computed with the executable
    specification of the Standard Library ([SpecFloat]).  The user
    interface, the network and the global random generator are effects:
    the program runs in a small state-and-exception monad whose state holds
    the generator and the trace of emitted events.

    What the code gets from [requests], [numpy] and [pandas] is modelled on
    the shapes the FRED endpoint documents (arrays of flat objects, ISO
    dates, plain decimal tokens); outside these shapes the libraries are
    left uninterpreted, as fields of the [Platform] class, so that every
    statement below holds whatever they do there.

    The [st.cache_data] memoisation is not modelled: [fetch_fred_data_api]
    and [create_sample_data] are the bodies of the decorated functions,
    which is what a call runs when the cache does not answer it.  A call
    the cache answers runs nothing, sends nothing and draws nothing: the
    statements below say what the bodies return and show, and what a run
    never does. *)

From Stdlib Require Import ZArith List String Ascii Bool Lia.
From Stdlib Require Import Floats.SpecFloat.
Import ListNotations.

Set Implicit Arguments.
Set Warnings "-register-all".
Local Open Scope Z_scope.

(* ================================================================== *)
(** * Binary64 arithmetic *)
(* ================================================================== *)

Module Float64.

Definition float64 := spec_float.

Definition prec : Z := 53.
Definition emax : Z := 1024.

Definition nan : float64 := S754_nan.

Definition add (x y : float64) : float64 := SFadd prec emax x y.
Definition div (x y : float64) : float64 := SFdiv prec emax x y.

Definition leb (x y : float64) : bool := SFleb x y.
Definition ltb (x y : float64) : bool := SFltb x y.

Definition is_nan (x : float64) : bool :=
  match x with S754_nan => true | _ => false end.

Definition is_finite (x : float64) : bool :=
  match x with
  | S754_zero _ | S754_finite _ _ _ => true
  | _ => false
  end.

(** The nearest binary64 value of an integer. *)
Definition of_Z (n : Z) : float64 := binary_normalize prec emax n 0 false.

(** The decimal literal [m / 10^k], correctly rounded when [m] and
    [10^k] are below [2^53] (one division of two exact values). *)
Definition decimal (m : Z) (k : nat) : float64 :=
  div (of_Z m) (of_Z (10 ^ Z.of_nat k)).

(** [np.maximum(x, y)]: [x] when [x >= y] or [x] is NaN, else [y]
    (so a NaN on either side is propagated). *)
Definition maximum (x y : float64) : float64 :=
  if leb y x || is_nan x then x else y.

End Float64.
Export Float64.

(* ================================================================== *)
(** * Calendar dates *)
(* ================================================================== *)

Module Calendar.

Record date := Date { year : Z; month : Z; day : Z }.

Definition date_compare (a b : date) : comparison :=
  match Z.compare (year a) (year b) with
  | Eq => match Z.compare (month a) (month b) with
          | Eq => Z.compare (day a) (day b)
          | c => c
          end
  | c => c
  end.

Definition date_eqb (a b : date) : bool :=
  match date_compare a b with Eq => true | _ => false end.

(** [a <= b] on [datetime.date] and on timestamps. *)
Definition date_leb (a b : date) : bool :=
  match date_compare a b with Gt => false | _ => true end.

Definition date_ltb (a b : date) : bool :=
  match date_compare a b with Lt => true | _ => false end.

Definition is_leap (y : Z) : bool :=
  ((y mod 4 =? 0) && negb (y mod 100 =? 0)) || (y mod 400 =? 0).

Definition days_in_month (y m : Z) : Z :=
  if m =? 2 then (if is_leap y then 29 else 28)
  else if (m =? 4) || (m =? 6) || (m =? 9) || (m =? 11) then 30
  else 31.

Definition valid_date (d : date) : bool :=
  (1 <=? month d) && (month d <=? 12) &&
  (1 <=? day d) && (day d <=? days_in_month (year d) (month d)).

(** Months are counted from year 0: [month_index] of January of year [y]
    is [12 * y]. *)
Definition month_index (d : date) : Z := 12 * year d + (month d - 1).

Definition month_end (k : Z) : date :=
  let y := k / 12 in
  let m := k mod 12 + 1 in
  Date y m (days_in_month y m).

(** [pd.date_range(start=s, end=e, freq='M')]: the month ends lying in
    [[s, e]], in increasing order.  This is what pandas returns for dates
    that nanosecond timestamps can hold, as all dates of the years 1678 to
    2261 are.  For a date before 1677-09-21 or after 2262-04-11 pandas
    raises [OutOfBoundsDatetime]; that error is not part of this function,
    which lists the month ends of any range.  What is stated of the rows
    and values of the synthetic table is stated of the table pandas
    returns; the statements whose point is that a table is there, or that
    a run ends normally, ask for dates of these years. *)
Definition date_range_M (s e : date) : list date :=
  let first := month_index s in
  let count := Z.to_nat (month_index e - first + 1) in
  filter (fun d => date_leb s d && date_leb d e)
         (map (fun i => month_end (first + Z.of_nat i)) (seq 0 count)).

(** Decimal digits. *)
Definition digit_char (n : Z) : ascii :=
  ascii_of_nat (48 + Z.to_nat (n mod 10))%nat.

(** The last [width] decimal digits of [n], zero padded. *)
Fixpoint zero_pad (width : nat) (n : Z) : string :=
  match width with
  | O => EmptyString
  | S w => (zero_pad w (n / 10) ++ String (digit_char n) EmptyString)%string
  end.

(** [d.strftime('%Y-%m-%d')], for years in [0, 9999]. *)
Definition strftime_ymd (d : date) : string :=
  (zero_pad 4 (year d) ++ "-" ++ zero_pad 2 (month d) ++ "-"
     ++ zero_pad 2 (day d))%string.

Definition digit_value (c : ascii) : option Z :=
  let n := nat_of_ascii c in
  if (48 <=? n)%nat && (n <=? 57)%nat then Some (Z.of_nat (n - 48)) else None.

(** The value of a non-empty string of decimal digits, with the number
    of digits read. *)
Fixpoint digits_value (acc : Z) (s : string) : option Z :=
  match s with
  | EmptyString => Some acc
  | String c rest =>
      match digit_value c with
      | Some v => digits_value (10 * acc + v) rest
      | None => None
      end
  end.

Definition number_of_digits (s : string) : option Z :=
  match s with
  | EmptyString => None
  | _ => digits_value 0 s
  end.

(** An ISO calendar date [YYYY-MM-DD]: ten characters, a valid day of a
    valid month, and a year within the nanosecond timestamp range. *)
Definition parse_iso_date (s : string) : option date :=
  if (String.length s =? 10)%nat then
    match number_of_digits (substring 0 4 s),
          get 4 s,
          number_of_digits (substring 5 2 s),
          get 7 s,
          number_of_digits (substring 8 2 s) with
    | Some y, Some "-"%char, Some m, Some "-"%char, Some d =>
        let r := Date y m d in
        if valid_date r && (1678 <=? y) && (y <=? 2261) then Some r else None
    | _, _, _, _, _ => None
    end
  else None.

End Calendar.
Export Calendar.

(* ================================================================== *)
(** * Python values: exceptions and decoded JSON *)
(* ================================================================== *)

Module Python.

(** An exception of class [Exception]: what [except Exception] catches.
    [exn_text] is [str(e)]. *)
Record exn := Exn { exn_class : string; exn_text : string }.

Definition KeyError (key : string) : exn :=
  Exn "KeyError" ("'" ++ key ++ "'")%string.
Definition TypeError (text : string) : exn := Exn "TypeError" text.
Definition IndexError (text : string) : exn := Exn "IndexError" text.
Definition ValueError (text : string) : exn := Exn "ValueError" text.

(** A computation that returns or raises. *)
Definition result (A : Type) : Type := (exn + A)%type.

(** What [json.loads] builds: [JObject] is the decoded [dict], its keys
    in insertion order. *)
Inductive json :=
| JNull
| JBool (b : bool)
| JInt (n : Z)
| JFloat (x : float64)
| JString (s : string)
| JArray (items : list json)
| JObject (members : list (string * json)).

(** [needle in hay] on two [str]. *)
Fixpoint str_contains (needle hay : string) : bool :=
  prefix needle hay ||
  match hay with
  | EmptyString => false
  | String _ rest => str_contains needle rest
  end.

Definition dict_has (key : string) (members : list (string * json)) : bool :=
  existsb (fun kv => String.eqb (fst kv) key) members.

Definition dict_get (key : string) (members : list (string * json))
  : option json :=
  option_map snd (find (fun kv => String.eqb (fst kv) key) members).

(** [key in data] for a [str] key: membership in a dict, equality with an
    element of a list, substring of a string, [TypeError] on the scalars. *)
Definition py_contains (key : string) (data : json) : result bool :=
  match data with
  | JObject members => inr (dict_has key members)
  | JArray items =>
      inr (existsb (fun j => match j with
                             | JString s => String.eqb s key
                             | _ => false
                             end) items)
  | JString s => inr (str_contains key s)
  | JNull => inl (TypeError "argument of type 'NoneType' is not iterable")
  | JBool _ => inl (TypeError "argument of type 'bool' is not iterable")
  | JInt _ => inl (TypeError "argument of type 'int' is not iterable")
  | JFloat _ => inl (TypeError "argument of type 'float' is not iterable")
  end.

(** [data[key]] for a [str] key. *)
Definition py_getitem (data : json) (key : string) : result json :=
  match data with
  | JObject members =>
      match dict_get key members with
      | Some v => inr v
      | None => inl (KeyError key)
      end
  | JArray _ =>
      inl (TypeError "list indices must be integers or slices, not str")
  | JString _ => inl (TypeError "string indices must be integers")
  | JNull => inl (TypeError "'NoneType' object is not subscriptable")
  | JBool _ => inl (TypeError "'bool' object is not subscriptable")
  | JInt _ => inl (TypeError "'int' object is not subscriptable")
  | JFloat _ => inl (TypeError "'float' object is not subscriptable")
  end.

(** Truth value of an optional string: [None] and [''] are false. *)
Definition truthy (s : option string) : bool :=
  match s with
  | Some (String _ _) => true
  | _ => false
  end.

(** [f"{s}"] of an optional string. *)
Definition format_str (s : option string) : string :=
  match s with
  | Some t => t
  | None => "None"
  end.

(** [enumerate(l)]. *)
Definition enumerate {A : Type} (l : list A) : list (nat * A) :=
  combine (seq 0 (List.length l)) l.

(** [d[key] = value] on a dict kept as an association list in insertion
    order. *)
Fixpoint dict_set {V : Type} (d : list (string * V)) (key : string) (value : V)
  : list (string * V) :=
  match d with
  | [] => [(key, value)]
  | (k, v) :: rest =>
      if String.eqb k key then (k, value) :: rest
      else (k, v) :: dict_set rest key value
  end.

(** The response object of [requests.get]: its status code and what its
    [json()] method returns or raises. *)
Record Response := { status_code : Z; response_json : result json }.

End Python.
Export Python.

(* ================================================================== *)
(** * Data frames *)
(* ================================================================== *)

Module Pandas.

(** A frame with a date index and float columns, kept row by row: every
    row carries its index label and one cell per column.  NaN is the
    missing value. *)
Record DataFrame := { columns : list string; rows : list (date * list float64) }.

(** A column with its index. *)
Definition Series := list (date * float64).

(** A frame of Python objects under the default integer index, as
    [pd.DataFrame(records)] builds it: one list of cells per column,
    [None] where the record has no such key. *)
Definition ObjectFrame := list (string * list (option json)).

(** [pd.DataFrame()] *)
Definition DataFrame_empty : DataFrame := {| columns := []; rows := [] |}.

(** [df.empty]: no column or no row. *)
Definition empty (df : DataFrame) : bool :=
  match columns df, rows df with
  | [], _ => true
  | _, [] => true
  | _, _ => false
  end.

Definition index (df : DataFrame) : list date := map fst (rows df).
Definition len (df : DataFrame) : nat := List.length (rows df).

Definition series_index (s : Series) : list date := map fst s.
Definition series_values (s : Series) : list float64 := map snd s.

Fixpoint column_position (name : string) (cols : list string) : option nat :=
  match cols with
  | [] => None
  | c :: rest =>
      if String.eqb c name then Some O
      else option_map S (column_position name rest)
  end.

(** [name in df.columns] *)
Definition has_column (name : string) (df : DataFrame) : bool :=
  existsb (String.eqb name) (columns df).

(** The cells of the column at position [j]. *)
Definition column_at (j : nat) (df : DataFrame) : Series :=
  map (fun r => (fst r, nth j (snd r) nan)) (rows df).

(** [df[name]] *)
Definition getitem (df : DataFrame) (name : string) : result Series :=
  match column_position name (columns df) with
  | Some j => inr (column_at j df)
  | None => inl (KeyError name)
  end.

(** The cell of row [d] (the first row so labelled) in column [name]. *)
Definition cell (df : DataFrame) (d : date) (name : string) : option float64 :=
  match column_position name (columns df),
        find (fun r => date_eqb (fst r) d) (rows df) with
  | Some j, Some r => Some (nth j (snd r) nan)
  | _, _ => None
  end.

(** [s.dropna()] *)
Definition dropna (s : Series) : Series :=
  filter (fun p => negb (is_nan (snd p))) s.

(** [s.iloc[-1]] *)
Definition iloc_last (s : Series) : result float64 :=
  match rev s with
  | p :: _ => inr (snd p)
  | [] => inl (IndexError "single positional indexer is out-of-bounds")
  end.

Definition lastn {A : Type} (n : nat) (l : list A) : list A :=
  skipn (List.length l - n) l.

(** [df.tail(n)], [df.head(n)], [df.iloc[-24:-12]] *)
Definition tail (n : nat) (df : DataFrame) : DataFrame :=
  {| columns := columns df; rows := lastn n (rows df) |}.
Definition head (n : nat) (df : DataFrame) : DataFrame :=
  {| columns := columns df; rows := firstn n (rows df) |}.
Definition iloc_24_12 (df : DataFrame) : DataFrame :=
  {| columns := columns df; rows := firstn 12 (lastn 24 (rows df)) |}.

Fixpoint insert_desc (r : date * list float64) (l : list (date * list float64))
  : list (date * list float64) :=
  match l with
  | [] => [r]
  | x :: rest =>
      if date_ltb (fst r) (fst x) then x :: insert_desc r rest
      else r :: l
  end.

(** [df.sort_index(ascending=False)] (rows with the same label are kept
    in some order; here, their order of appearance). *)
Definition sort_index_desc (df : DataFrame) : DataFrame :=
  {| columns := columns df; rows := fold_right insert_desc [] (rows df) |}.

(** A frame from an index and one array of cells per column: row [i]
    takes the [i]-th cell of every array. *)
Definition frame_of_columns (idx : list date) (cols : list (string * list float64))
  : DataFrame :=
  {| columns := map fst cols;
     rows := map (fun id => (snd id, map (fun c => nth (fst id) (snd c) nan) cols))
                 (enumerate idx) |}.

(** [pd.DataFrame({name: array, ...}, index=idx)]: the arrays must have
    the length of the index. *)
Definition DataFrame_of_arrays (cols : list (string * list float64))
           (idx : list date) : result DataFrame :=
  if forallb (fun c => (List.length (snd c) =? List.length idx)%nat) cols
  then inr (frame_of_columns idx cols)
  else inl (ValueError "Length of values does not match length of index").

(** ** Alignment of labelled columns *)

Fixpoint index_equals (a b : list date) : bool :=
  match a, b with
  | [], [] => true
  | x :: a', y :: b' => date_eqb x y && index_equals a' b'
  | _, _ => false
  end.

Fixpoint is_unique (l : list date) : bool :=
  match l with
  | [] => true
  | x :: rest => negb (existsb (date_eqb x) rest) && is_unique rest
  end.

Fixpoint insert_sorted (d : date) (l : list date) : list date :=
  match l with
  | [] => [d]
  | x :: rest =>
      match date_compare d x with
      | Lt => d :: l
      | Eq => l
      | Gt => x :: insert_sorted d rest
      end
  end.

(** The sorted union of the labels of several indexes. *)
Definition union_sorted (indexes : list (list date)) : list date :=
  fold_right insert_sorted [] (List.concat indexes).

(** [s] repeats a label and lacks a label of one of [others]: its index
    is not the union of the indexes, so it has to be reindexed on the
    union, which pandas refuses for an index with repeated labels. *)
Definition reindexes_repeated (s : list date) (others : list (list date)) : bool :=
  negb (is_unique s) &&
  existsb (fun o => existsb (fun d => negb (existsb (date_eqb d) s)) o) others.

(** The value of [s] at label [d], NaN when [s] has no such label. *)
Definition lookup_label (d : date) (s : Series) : float64 :=
  match find (fun p => date_eqb (fst p) d) s with
  | Some p => snd p
  | None => nan
  end.

(** [s.reindex(idx)] for a series with unique labels. *)
Definition reindex (idx : list date) (s : Series) : list float64 :=
  map (fun d => lookup_label d s) idx.

(** ** Frames of decoded JSON *)

(** The payload as a list of dicts, when every element is an object. *)
Fixpoint as_records (items : list json) : option (list (list (string * json))) :=
  match items with
  | [] => Some []
  | JObject members :: rest => option_map (cons members) (as_records rest)
  | _ :: _ => None
  end.

Fixpoint add_keys (seen keys : list string) : list string :=
  match keys with
  | [] => seen
  | k :: rest =>
      if existsb (String.eqb k) seen then add_keys seen rest
      else add_keys (seen ++ [k]) rest
  end.

(** The keys of the records, each once, in order of first appearance. *)
Definition record_keys (records : list (list (string * json))) : list string :=
  fold_left (fun seen r => add_keys seen (map fst r)) records [].

(** [pd.DataFrame(records)] for a list of dicts. *)
Definition ObjectFrame_of_records (records : list (list (string * json)))
  : ObjectFrame :=
  map (fun k => (k, map (dict_get k) records)) (record_keys records).

(** [df[name]] on an object frame. *)
Definition getitem_object (df : ObjectFrame) (name : string)
  : result (list (option json)) :=
  match find (fun c => String.eqb (fst c) name) df with
  | Some c => inr (snd c)
  | None => inl (KeyError name)
  end.

(** The dates of a column whose cells are all ISO date strings. *)
Fixpoint iso_dates (cells : list (option json)) : option (list date) :=
  match cells with
  | [] => Some []
  | Some (JString s) :: rest =>
      match parse_iso_date s, iso_dates rest with
      | Some d, Some ds => Some (d :: ds)
      | _, _ => None
      end
  | _ :: _ => None
  end.

(** A plain decimal token, [digits] or [digits.digits] with at most 15
    digits in all: its value is one correctly rounded division. *)
Definition parse_decimal (s : string) : option float64 :=
  match String.index 0 "." s with
  | None =>
      match number_of_digits s with
      | Some m => if (String.length s <=? 15)%nat then Some (decimal m 0) else None
      | None => None
      end
  | Some i =>
      let int_part := substring 0 i s in
      let frac_part := substring (S i) (String.length s - S i) s in
      match number_of_digits int_part, number_of_digits frac_part with
      | Some a, Some b =>
          let k := String.length frac_part in
          if (String.length int_part + k <=? 15)%nat
          then Some (decimal (a * 10 ^ Z.of_nat k + b) k)
          else None
      | _, _ => None
      end
  end.

End Pandas.
Export Pandas.

(* ================================================================== *)
(** * The libraries outside the modelled shapes *)
(* ================================================================== *)

(** What the program calls and this development does not define: the
    network, the random generator of [numpy], and [pandas] on inputs other
    than the documented ones.  Nothing is assumed of these fields unless a
    statement says so. *)
Class Platform := {
  (** [requests.get(url)]: a response, or an exception. *)
  requests_get : string -> result Response;
  (** [pd.DataFrame(payload)] when the payload is not an array of objects. *)
  DataFrame_other : json -> result ObjectFrame;
  (** [pd.to_datetime(column)] when some cell is not an ISO date string. *)
  to_datetime_other : list (option json) -> result (list date);
  (** The numeric reading of a cell that is neither a plain decimal token
      nor the token ["."]; [None] when it has none. *)
  to_numeric_other : json -> option float64;
  (** [pd.DataFrame(dict of series)] for several series when one of the
      indexes has a repeated label and no series with a repeated label
      lacks a label of another. *)
  DataFrame_of_series_other : list (string * Series) -> result DataFrame;
  (** The state of the global generator [np.random]. *)
  RandomState : Type;
  (** [np.random.seed(n)]: the state after seeding. *)
  random_seed : Z -> RandomState;
  (** [np.random.normal(loc, scale, size)]: the samples and the next state. *)
  random_normal : float64 -> float64 -> nat -> RandomState
                  -> list float64 * RandomState
}.

(** The value of a metric.  The reductions and the two-decimal format
    are kept symbolic. *)
Inductive metric_value :=
| Value (x : float64)          (** a cell, shown with two decimals *)
| Mean (xs : list float64)     (** [xs.mean()], not evaluated *)
| Max (xs : list float64)      (** [xs.max()], not evaluated *)
| Min (xs : list float64).     (** [xs.min()], not evaluated *)

(** What a run leaves in its trace: the elements the page shows
    ([St_...]), the requests sent ([Http_get]), and a mark at the entry of
    each of the two data sources ([Call_...]), which is bookkeeping of the
    model and not an element of the page. *)
Inductive event :=
| Call_fetch_fred_data_api (series_id start_date end_date : string)
                           (api_key : option string)
| Call_create_sample_data (start_date end_date : date)
| Http_get (url : string)
| St_error (text : string)
| St_warning (text : string)
| St_subheader (text : string)
| St_markdown (text : string)
| St_columns (n : nat)
| St_plotly_chart (data : DataFrame)
| St_dataframe (data : DataFrame)
| St_metric (label : string) (value : metric_value)
| St_write_trend (column : string) (recent previous : list float64).

Section Program.

Context {P : Platform}.

(* ---------------------------------------------------------------- *)
(** ** pandas, completed by the platform *)

(** [pd.DataFrame(payload)] for a decoded JSON payload. *)
Definition DataFrame_of_json (payload : json) : result ObjectFrame :=
  match payload with
  | JArray items =>
      match as_records items with
      | Some records => inr (ObjectFrame_of_records records)
      | None => DataFrame_other payload
      end
  | _ => DataFrame_other payload
  end.

(** [pd.to_datetime(column)] *)
Definition to_datetime (cells : list (option json)) : result (list date) :=
  match iso_dates cells with
  | Some ds => inr ds
  | None => to_datetime_other cells
  end.

(** The number a cell denotes, [None] when it does not parse. *)
Definition parse_numeric (j : json) : option float64 :=
  match j with
  | JString s =>
      match parse_decimal s with
      | Some x => Some x
      | None => if String.eqb s "." then None else to_numeric_other j
      end
  | _ => to_numeric_other j
  end.

Definition to_numeric_cell (c : option json) : float64 :=
  match c with
  | None => nan
  | Some j =>
      match parse_numeric j with
      | Some x => x
      | None => nan
      end
  end.

(** [pd.to_numeric(column, errors='coerce')] *)
Definition to_numeric_coerce (cells : list (option json)) : list float64 :=
  map to_numeric_cell cells.

(** [pd.DataFrame(all_series)] for a dict of series: the columns are
    aligned on the union of their indexes.  One series keeps its index.
    Several series whose labels are unique keep their common index when
    the indexes are equal, and otherwise get the sorted union of the
    indexes, every column reindexed on it.  A series that repeats a label
    and lacks a label of another series cannot be reindexed: [ValueError]. *)
Definition DataFrame_of_series (all_series : list (string * Series))
  : result DataFrame :=
  match all_series with
  | [] => inr DataFrame_empty
  | [(name, first)] =>
      inr (frame_of_columns (series_index first) [(name, series_values first)])
  | (_, first) :: others =>
      let idx := series_index first in
      if forallb (fun c => is_unique (series_index (snd c))) all_series then
        if forallb (fun c => index_equals (series_index (snd c)) idx) others then
          inr (frame_of_columns idx
                 (map (fun c => (fst c, series_values (snd c))) all_series))
        else
          let union := union_sorted (map (fun c => series_index (snd c)) all_series) in
          inr (frame_of_columns union
                 (map (fun c => (fst c, reindex union (snd c))) all_series))
      else
        let indexes := map (fun c => series_index (snd c)) all_series in
        if existsb (fun i => reindexes_repeated i indexes) indexes then
          inl (ValueError "cannot reindex on an axis with duplicate labels")
        else DataFrame_of_series_other all_series
  end.

(* ---------------------------------------------------------------- *)
(** ** The monad of a run *)

Record World := { np_random : RandomState; trace : list event }.

Definition M (A : Type) : Type := World -> result A * World.

Definition ret {A : Type} (a : A) : M A := fun w => (inr a, w).

Definition bind {A B : Type} (m : M A) (k : A -> M B) : M B :=
  fun w =>
    match m w with
    | (inr a, w') => k a w'
    | (inl e, w') => (inl e, w')
    end.

(** A pure step that may raise. *)
Definition lift {A : Type} (r : result A) : M A := fun w => (r, w).

(** [try: body  except Exception as e: handler(e)] *)
Definition try_except {A : Type} (body : M A) (handler : exn -> M A) : M A :=
  fun w =>
    match body w with
    | (inr a, w') => (inr a, w')
    | (inl e, w') => handler e w'
    end.

Definition emit (e : event) : M unit :=
  fun w => (inr tt, {| np_random := np_random w; trace := trace w ++ [e] |}).

(** [np.random.seed(n)] *)
Definition np_random_seed (n : Z) : M unit :=
  fun w => (inr tt, {| np_random := random_seed n; trace := trace w |}).

(** [np.random.normal(loc, scale, size)] *)
Definition np_random_normal (loc scale : float64) (size : nat)
  : M (list float64) :=
  fun w =>
    let (xs, s) := random_normal loc scale size (np_random w) in
    (inr xs, {| np_random := s; trace := trace w |}).

(** [requests.get(url)] *)
Definition requests_get_M (url : string) : M Response :=
  bind (emit (Http_get url)) (fun _ => lift (requests_get url)).

End Program.

Declare Scope run_scope.
Delimit Scope run_scope with run.
Notation "x <- m ;; k" := (bind m (fun x => k))
  (at level 61, m at next level, right associativity) : run_scope.
Notation "m ;; k" := (bind m (fun _ => k))
  (at level 61, right associativity) : run_scope.

(* ================================================================== *)
(** * The program *)
(* ================================================================== *)

Section App.

Context {P : Platform}.
Local Open Scope run_scope.

(* ---------------------------------------------------------------- *)
(** ** [fetch_fred_data_api] (lines 27-58) *)

Definition fred_url (series_id start_date end_date : string)
           (api_key : option string) : string :=
  if truthy api_key then
    ("https://api.stlouisfed.org/fred/series/observations?series_id="
       ++ series_id ++ "&api_key=" ++ format_str api_key
       ++ "&file_type=json&observation_start=" ++ start_date
       ++ "&observation_end=" ++ end_date)%string
  else
    ("https://api.stlouisfed.org/fred/series/observations?series_id="
       ++ series_id
       ++ "&file_type=json&observation_start=" ++ start_date
       ++ "&observation_end=" ++ end_date)%string.

(** [df.set_index('date')[['value']]] once the two columns are converted. *)
Definition value_frame (dates : list date) (values : list float64) : DataFrame :=
  {| columns := ["value"%string];
     rows := map (fun dv => (fst dv, [snd dv])) (combine dates values) |}.

(** The body of the [try] block. *)
Definition fetch_fred_data_api_try (series_id start_date end_date : string)
           (api_key : option string) : M DataFrame :=
  let url := fred_url series_id start_date end_date api_key in
  response <- requests_get_M url ;;
  if status_code response =? 200 then
    data <- lift (response_json response) ;;
    found <- lift (py_contains "observations" data) ;;
    if (found : bool) then
      payload <- lift (py_getitem data "observations") ;;
      df <- lift (DataFrame_of_json payload) ;;
      date_column <- lift (getitem_object df "date") ;;
      dates <- lift (to_datetime date_column) ;;
      value_column <- lift (getitem_object df "value") ;;
      let values := to_numeric_coerce value_column in
      ret (value_frame dates values)
    else ret DataFrame_empty
  else ret DataFrame_empty.

Definition fetch_error_text (e : exn) : string :=
  ("Erro ao buscar dados via API: " ++ exn_text e)%string.

Definition fetch_fred_data_api (series_id start_date end_date : string)
           (api_key : option string) : M DataFrame :=
  emit (Call_fetch_fred_data_api series_id start_date end_date api_key) ;;
  try_except
    (fetch_fred_data_api_try series_id start_date end_date api_key)
    (fun e => emit (St_error (fetch_error_text e)) ;; ret DataFrame_empty).

(* ---------------------------------------------------------------- *)
(** ** [create_sample_data] (lines 79-113) *)

Definition name_delinquency : string := "Taxa de Inadimplência (%)".
Definition name_chargeoff : string := "Taxa de Baixa por Prejuízo (%)".

Definition base_delinquency : float64 := decimal 35 1.   (* 3.5 *)
Definition base_chargeoff : float64 := decimal 42 1.     (* 4.2 *)
Definition floor_rate : float64 := decimal 5 1.          (* 0.5 *)

(** [a[i] += c] on an array. *)
Definition array_iadd (a : list float64) (i : nat) (c : float64)
  : result (list float64) :=
  match nth_error a i with
  | Some x => inr (firstn i a ++ add x c :: skipn (S i) a)
  | None => inl (IndexError "index out of bounds")
  end.

(** One turn of the loop over [enumerate(dates)]. *)
Definition stress_step (rates : list float64 * list float64) (i : nat) (d : date)
  : result (list float64 * list float64) :=
  let (delinquency_rates, chargeoff_rates) := rates in
  if (2008 <=? year d) && (year d <=? 2010) then
    match array_iadd delinquency_rates i (decimal 25 1) with
    | inr dl =>
        match array_iadd chargeoff_rates i (decimal 30 1) with
        | inr co => inr (dl, co)
        | inl e => inl e
        end
    | inl e => inl e
    end
  else if year d =? 2020 then
    match array_iadd delinquency_rates i (decimal 15 1) with
    | inr dl =>
        match array_iadd chargeoff_rates i (decimal 20 1) with
        | inr co => inr (dl, co)
        | inl e => inl e
        end
    | inl e => inl e
    end
  else inr rates.

Fixpoint stress_loop (items : list (nat * date))
         (rates : list float64 * list float64)
  : result (list float64 * list float64) :=
  match items with
  | [] => inr rates
  | (i, d) :: rest =>
      match stress_step rates i d with
      | inr rates' => stress_loop rest rates'
      | inl e => inl e
      end
  end.

Definition create_sample_data (start_date end_date : date) : M DataFrame :=
  emit (Call_create_sample_data start_date end_date) ;;
  let dates := date_range_M start_date end_date in
  np_random_seed 42 ;;
  noise_d <- np_random_normal (of_Z 0) (decimal 15 1) (List.length dates) ;;
  let delinquency_rates := map (add base_delinquency) noise_d in
  noise_c <- np_random_normal (of_Z 0) (decimal 18 1) (List.length dates) ;;
  let chargeoff_rates := map (add base_chargeoff) noise_c in
  rates <- lift (stress_loop (enumerate dates)
                             (delinquency_rates, chargeoff_rates)) ;;
  let delinquency_rates := map (fun x => maximum x floor_rate) (fst rates) in
  let chargeoff_rates := map (fun x => maximum x floor_rate) (snd rates) in
  lift (DataFrame_of_arrays
          [(name_delinquency, delinquency_rates);
           (name_chargeoff, chargeoff_rates)]
          dates).

(* ---------------------------------------------------------------- *)
(** ** The script: fetch and show (lines 190-287) *)

Definition SERIES_IDS : list (string * string) :=
  [(name_delinquency, "DRCCLACBS"%string);
   (name_chargeoff, "CORCCACBS"%string)].

Definition warning_no_key : string :=
  "⚠️ Chave da API FRED não fornecida. Usando dados simulados para demonstração.".
Definition warning_no_data : string :=
  "Não foi possível carregar os dados. Verifique a configuração ou tente novamente.".
Definition error_date_order : string :=
  "A data de início deve ser anterior ou igual à data de fim.".

(** The loop over [SERIES_IDS.items()] (lines 198-206). *)
Fixpoint fetch_each (items : list (string * string))
         (start_date end_date : date) (fred_api_key : option string)
         (all_series : list (string * Series)) : M (list (string * Series)) :=
  match items with
  | [] => ret all_series
  | (name, series_id) :: rest =>
      series_data <- fetch_fred_data_api series_id
                       (strftime_ymd start_date) (strftime_ymd end_date)
                       fred_api_key ;;
      if negb (empty series_data) then
        column <- lift (getitem series_data "value") ;;
        fetch_each rest start_date end_date fred_api_key
                   (dict_set all_series name column)
      else
        fetch_each rest start_date end_date fred_api_key all_series
  end.

(** The table of the interaction (lines 192-215). *)
Definition load_data (start_date end_date : date) (data_source : string)
           (fred_api_key : option string) : M DataFrame :=
  let data := DataFrame_empty in
  if String.eqb data_source "FRED API" then
    if truthy fred_api_key then
      all_series <- fetch_each SERIES_IDS start_date end_date fred_api_key [] ;;
      match all_series with
      | _ :: _ => lift (DataFrame_of_series all_series)
      | [] => ret data
      end
    else
      emit (St_warning warning_no_key) ;;
      create_sample_data start_date end_date
  else
    create_sample_data start_date end_date.

(** The four metrics of one column (lines 253-258 and 262-267). *)
Definition show_metrics (data : DataFrame) (name : string) : M unit :=
  if has_column name data then
    column <- lift (getitem data name) ;;
    let col := dropna column in
    current <- lift (iloc_last col) ;;
    emit (St_metric "Atual" (Value current)) ;;
    emit (St_metric "Média" (Mean (series_values col))) ;;
    emit (St_metric "Máximo" (Max (series_values col))) ;;
    emit (St_metric "Mínimo" (Min (series_values col)))
  else ret tt.

(** The loop over [data.columns] of the trend analysis (lines 275-282). *)
Fixpoint show_trends (names : list string)
         (recent_12m previous_12m : DataFrame) : M unit :=
  match names with
  | [] => ret tt
  | col :: rest =>
      (if has_column col recent_12m && has_column col previous_12m then
         recent <- lift (getitem recent_12m col) ;;
         previous <- lift (getitem previous_12m col) ;;
         emit (St_write_trend col (series_values recent)
                              (series_values previous))
       else ret tt) ;;
      show_trends rest recent_12m previous_12m
  end.

(** What the page shows for the table (lines 217-285). *)
Definition show_data (data : DataFrame) : M unit :=
  if negb (empty data) then
    emit (St_subheader "Gráfico das Taxas de Cartão de Crédito") ;;
    emit (St_plotly_chart data) ;;
    emit (St_subheader "Dados Recentes") ;;
    emit (St_dataframe (sort_index_desc (tail 12 data))) ;;
    emit (St_subheader "Estatísticas do Período") ;;
    emit (St_columns 2) ;;
    emit (St_markdown "**Taxa de Inadimplência (%)**") ;;
    show_metrics data name_delinquency ;;
    emit (St_markdown "**Taxa de Baixa por Prejuízo (%)**") ;;
    show_metrics data name_chargeoff ;;
    emit (St_subheader "Análise de Tendência") ;;
    if (12 <=? len data)%nat then
      let recent_12m := tail 12 data in
      let previous_12m :=
        if (24 <=? len data)%nat then iloc_24_12 data else head 12 data in
      show_trends (columns data) recent_12m previous_12m
    else ret tt
  else
    emit (St_warning warning_no_data).

(** The script from line 190 on, for the values the sidebar gave. *)
Definition dashboard (start_date end_date : date) (data_source : string)
           (fred_api_key : option string) : M unit :=
  if date_leb start_date end_date then
    data <- load_data start_date end_date data_source fred_api_key ;;
    show_data data
  else
    emit (St_error error_date_order).

End App.

(* ================================================================== *)
(** * Vocabulary of the statements *)
(* ================================================================== *)

Section Vocabulary.

Context {P : Platform}.

(** The world after the events [es], the generator untouched. *)
Definition logged (w : World) (es : list event) : World :=
  {| np_random := np_random w; trace := trace w ++ es |}.

(** The world with the state [s] of the generator, the trace untouched. *)
Definition reseeded (w : World) (s : RandomState) : World :=
  {| np_random := s; trace := trace w |}.

(** The stress adjustment of a delinquency rate, as the specification
    words it: 2.5 more in 2008-2010, 1.5 more in 2020, nothing else. *)
Definition stressed_delinquency (d : date) (v : float64) : float64 :=
  if (2008 <=? year d) && (year d <=? 2010) then add v (decimal 25 1)
  else if year d =? 2020 then add v (decimal 15 1)
  else v.

(** The stress adjustment of a charge-off rate: 3.0 more in 2008-2010,
    2.0 more in 2020, nothing else. *)
Definition stressed_chargeoff (d : date) (v : float64) : float64 :=
  if (2008 <=? year d) && (year d <=? 2010) then add v (decimal 30 1)
  else if year d =? 2020 then add v (decimal 20 1)
  else v.

(** The row of the synthetic table for a month end [d] and its two
    noise samples: base plus noise, stress adjustment, floor. *)
Definition sample_row (t : date * (float64 * float64)) : date * list float64 :=
  let '(d, (x, y)) := t in
  (d, [maximum (stressed_delinquency d (add base_delinquency x)) floor_rate;
       maximum (stressed_chargeoff d (add base_chargeoff y)) floor_rate]).

(** The synthetic table for the month ends [dates] and the two noise
    arrays. *)
Definition sample_frame (dates : list date) (noise_d noise_c : list float64)
  : DataFrame :=
  {| columns := [name_delinquency; name_chargeoff];
     rows := map sample_row (combine dates (combine noise_d noise_c)) |}.

(** The columns the script keeps from the fetched frames: the [value]
    column of each non-empty frame, under its display name. *)
Definition kept_columns (fetched : list (string * DataFrame))
  : list (string * Series) :=
  flat_map (fun nf => if empty (snd nf) then []
                      else [(fst nf, column_at 0 (snd nf))]) fetched.

(** A decoded record of the documented shape: an ISO date string under
    ["date"] and some value under ["value"]. *)
Definition is_observation (r : list (string * json)) : Prop :=
  exists s d v,
    dict_get "date" r = Some (JString s) /\ parse_iso_date s = Some d /\
    dict_get "value" r = Some v.

(** The row the fetcher is to give for a record: its date, and its value
    read as a number, NaN when the value does not parse. *)
Definition row_of_observation (r : list (string * json))
           (row : date * list float64) : Prop :=
  exists s v,
    dict_get "date" r = Some (JString s) /\
    parse_iso_date s = Some (fst row) /\
    dict_get "value" r = Some v /\
    snd row = [match parse_numeric v with Some x => x | None => nan end].

(** The position of the first row labelled [d]. *)
Fixpoint position (d : date) (idx : list date) : option nat :=
  match idx with
  | [] => None
  | x :: rest =>
      if date_eqb x d then Some O else option_map S (position d rest)
  end.

(** The elements that render the table: the chart, the recent-data
    table, the statistics, the trend lines and their headings. *)
Definition is_display (e : event) : bool :=
  match e with
  | St_subheader _ | St_markdown _ | St_columns _ | St_plotly_chart _
  | St_dataframe _ | St_metric _ _ | St_write_trend _ _ _ => true
  | _ => false
  end.

(** The events of the loading phase: the calls of the two sources, the
    requests, the error messages of the fetcher and the warning of the
    missing key. *)
Definition is_loading (e : event) : bool :=
  match e with
  | Call_fetch_fred_data_api _ _ _ _ | Call_create_sample_data _ _
  | Http_get _ | St_error _ => true
  | St_warning text => String.eqb text warning_no_key
  | _ => false
  end.

(** The remote fetcher is called, or a request is sent. *)
Definition is_remote (e : event) : bool :=
  match e with
  | Call_fetch_fred_data_api _ _ _ _ | Http_get _ => true
  | _ => false
  end.

(** [m] only adds events to the trace, all of them in [Q]. *)
Definition emits {A : Type} (Q : event -> bool) (m : M A) : Prop :=
  forall w, exists es,
    trace (snd (m w)) = trace w ++ es /\ forallb Q es = true.

End Vocabulary.

(** ** Test doubles *)

Module Mock.

(** A platform whose network answers with [respond], whose generator
    returns noise equal to [loc], and whose other entries raise. *)
Definition platform (respond : string -> result Response) : Platform :=
  {| requests_get := respond;
     DataFrame_other :=
       (fun _ => inl (ValueError "DataFrame constructor not properly called!"));
     to_datetime_other :=
       (fun _ => inl (ValueError "Unknown datetime string format"));
     to_numeric_other := (fun _ => None);
     DataFrame_of_series_other :=
       (fun _ => inl (ValueError "cannot reindex on an axis with duplicate labels"));
     RandomState := nat;
     random_seed := (fun n => Z.to_nat n);
     random_normal := (fun loc scale n s => (repeat loc n, (s + n)%nat)) |}.

Definition observation (d v : string) : json :=
  JObject [("date"%string, JString d); ("value"%string, JString v)].

Definition body (observations : list json) : json :=
  JObject [("observations"%string, JArray observations)].

Definition ok (data : json) : result Response :=
  inr {| status_code := 200; response_json := inr data |}.

(** The body of the specification's example. *)
Definition example_body : json :=
  body [observation "2020-01-01" "3.5"; observation "2020-02-01" "."].

(** Every request is answered by the example body. *)
Definition example : Platform := platform (fun _ => ok example_body).

(** Every request is answered with status 503. *)
Definition unavailable : Platform :=
  platform (fun _ => inr {| status_code := 503; response_json := inr JNull |}).

(** A successful answer without observations. *)
Definition error_body : Platform :=
  platform (fun _ => ok (JObject [("error_code"%string, JInt 400)])).

(** Series A has January and February, series B February and March. *)
Definition two_series : Platform :=
  platform (fun url =>
    if str_contains "DRCCLACBS" url
    then ok (body [observation "2020-01-01" "1.5"; observation "2020-02-01" "2.5"])
    else ok (body [observation "2020-02-01" "3.5"; observation "2020-03-01" "4.5"])).

(** Series A comes with January twice, series B with February. *)
Definition repeated_date : Platform :=
  platform (fun url =>
    if str_contains "DRCCLACBS" url
    then ok (body [observation "2020-01-01" "1.5"; observation "2020-01-01" "2.5"])
    else ok (body [observation "2020-02-01" "3.5"])).

(** Series A comes with January, series B with February twice. *)
Definition repeated_second : Platform :=
  platform (fun url =>
    if str_contains "DRCCLACBS" url
    then ok (body [observation "2020-01-01" "1.5"])
    else ok (body [observation "2020-02-01" "3.5"; observation "2020-02-01" "4.5"])).

Definition start (P : Platform) (s : @RandomState P) : @World P :=
  {| np_random := s; trace := [] |}.

End Mock.

(* ================================================================== *)
(** * The sidebar: key and source (lines 125-138 and 157-171) *)
(* ================================================================== *)

(** The two values the sidebar hands to the rest of the script.  The
    elements the sidebar shows, the date pickers and the refresh button
    are not in the model. *)

Module Sidebar.

(** The key the script works with: the value of [API_FRED] when it is
    set and not empty, otherwise what the visitor typed in the text input
    (the empty string when nothing was typed). *)
Definition fred_api_key (env_key : option string) (typed : string)
  : option string :=
  if truthy env_key then env_key else Some typed.

(** The entries of the source selector, in the order of the page. *)
Definition options (key : option string) : list string :=
  if truthy key
  then ["FRED API"%string; "Dados Simulados (Demo)"%string]
  else ["Dados Simulados (Demo)"%string; "FRED API"%string].

(** [st.selectbox(label, options, index=0)]: the entry at the selected
    position, which is 0 until the visitor picks another entry. *)
Definition selectbox (entries : list string) (selected : nat) : option string :=
  nth_error entries selected.

Definition data_source (key : option string) (selected : nat) : option string :=
  selectbox (options key) selected.

End Sidebar.

(* ================================================================== *)
(** * More vocabulary *)
(* ================================================================== *)

Section MoreVocabulary.

(** A valid date that is the last day of its month. *)
Definition is_month_end (d : date) : bool :=
  valid_date d && (day d =? days_in_month (year d) (month d)).

(** The four metrics of a column, when the page shows them. *)
Definition metric_events (data : DataFrame) (name : string) : list event :=
  match getitem data name with
  | inr column =>
      match iloc_last (dropna column) with
      | inr current =>
          [St_metric "Atual" (Value current);
           St_metric "Média" (Mean (series_values (dropna column)));
           St_metric "Máximo" (Max (series_values (dropna column)));
           St_metric "Mínimo" (Min (series_values (dropna column)))]
      | inl _ => []
      end
  | inl _ => []
  end.

(** The two windows of the trend analysis: the last 12 rows, and the 12
    rows before them when the table has 24 rows, else the first 12. *)
Definition recent_window (data : DataFrame) : DataFrame := tail 12 data.
Definition previous_window (data : DataFrame) : DataFrame :=
  if (24 <=? len data)%nat then iloc_24_12 data else head 12 data.

(** The trend line of a column. *)
Definition trend_event (data : DataFrame) (col : string) : list event :=
  match getitem (recent_window data) col, getitem (previous_window data) col with
  | inr recent, inr previous =>
      [St_write_trend col (series_values recent) (series_values previous)]
  | _, _ => []
  end.

Definition trend_events (data : DataFrame) : list event :=
  if (12 <=? len data)%nat then flat_map (trend_event data) (columns data)
  else [].

(** What the page shows for a non-empty table, when nothing raises. *)
Definition page_events (data : DataFrame) : list event :=
  [St_subheader "Gráfico das Taxas de Cartão de Crédito";
   St_plotly_chart data;
   St_subheader "Dados Recentes";
   St_dataframe (sort_index_desc (tail 12 data));
   St_subheader "Estatísticas do Período";
   St_columns 2;
   St_markdown "**Taxa de Inadimplência (%)**"]
  ++ metric_events data name_delinquency
  ++ [St_markdown "**Taxa de Baixa por Prejuízo (%)**"]
  ++ metric_events data name_chargeoff
  ++ [St_subheader "Análise de Tendência"]
  ++ trend_events data.

(** The column [name] is there and has no value but NaN. *)
Definition all_missing (data : DataFrame) (name : string) : bool :=
  match getitem data name with
  | inr column => match dropna column with [] => true | _ => false end
  | inl _ => false
  end.

(** A date of the years 1678 to 2261, all of which nanosecond
    timestamps can hold: for such dates [pd.date_range] returns. *)
Definition in_timestamp_years (d : date) : bool :=
  (1678 <=? year d) && (year d <=? 2261).

Definition is_request (ev : event) : bool :=
  match ev with Http_get _ => true | _ => false end.

Definition is_error (ev : event) : bool :=
  match ev with St_error _ => true | _ => false end.

(** What a call of the fetcher that works with [url] may leave in the
    trace: its entry, a request to [url], an error message. *)
Definition is_fetch_event (url : string) (ev : event) : bool :=
  match ev with
  | Call_fetch_fred_data_api _ _ _ _ | St_error _ => true
  | Http_get u => String.eqb u url
  | _ => false
  end.

(** What the remote mode may leave in the trace for the range [[s, e]]
    and the key: the entry of the fetcher, a request for one of the two
    series over the range, an error message. *)
Definition is_series_fetch (s e : date) (key : option string) (ev : event)
  : bool :=
  match ev with
  | Call_fetch_fred_data_api _ _ _ _ | St_error _ => true
  | Http_get url =>
      String.eqb url (fred_url "DRCCLACBS" (strftime_ymd s) (strftime_ymd e) key)
      || String.eqb url (fred_url "CORCCACBS" (strftime_ymd s) (strftime_ymd e) key)
  | _ => false
  end.

(** The error message the fetcher shows when its [try] block raised. *)
Definition fetch_errors (outcome : result DataFrame) : list event :=
  match outcome with
  | inl ex => [St_error (fetch_error_text ex)]
  | inr _ => []
  end.

End MoreVocabulary.

(** ** More test doubles *)

Module Stub.

Definition dated (d : string) : json := JObject [("date"%string, JString d)].

(** A successful answer with an empty list of observations. *)
Definition no_observation : Platform :=
  Mock.platform (fun _ => Mock.ok (Mock.body [])).

(** Records with a date and no value. *)
Definition no_value : Platform :=
  Mock.platform (fun _ => Mock.ok (Mock.body [dated "2020-01-01"; dated "2020-02-01"])).

(** The second record has no value. *)
Definition one_value : Platform :=
  Mock.platform (fun _ =>
    Mock.ok (Mock.body [Mock.observation "2020-01-01" "3.5"; dated "2020-02-01"])).

(** Every value is the missing-value token. *)
Definition all_dots : Platform :=
  Mock.platform (fun _ =>
    Mock.ok (Mock.body [Mock.observation "2020-01-01" ".";
                        Mock.observation "2020-02-01" "."])).

(** The first series is unavailable, the second is served. *)
Definition second_only : Platform :=
  Mock.platform (fun url =>
    if str_contains "DRCCLACBS" url
    then inr {| status_code := 503; response_json := inr JNull |}
    else Mock.ok (Mock.body [Mock.observation "2020-02-01" "3.5";
                             Mock.observation "2020-03-01" "4.5"])).

(** A table of twelve monthly rows with the delinquency column alone. *)
Definition year_table : DataFrame :=
  {| columns := [name_delinquency];
     rows := map (fun i => (Date 2020 (Z.of_nat i + 1) 1, [of_Z (Z.of_nat i)]))
                 (seq 0 12) |}.

End Stub.

Unset Implicit Arguments.

(* ================================================================== *)
(** * Properties of binary64 arithmetic *)
(* ================================================================== *)

Section FloatFacts.

(** Shifting a non-negative mantissa keeps it non-negative. *)
Lemma shr_1_nonneg (mrs : shr_record) :
  0 <= shr_m mrs -> 0 <= shr_m (shr_1 mrs).
Proof.
  destruct mrs as [m r s]; simpl.
  destruct m as [|p|p]; simpl; intros H; try lia.
  destruct p; simpl; lia.
Qed.

Lemma iter_shr_1_nonneg (p : positive) :
  forall mrs, 0 <= shr_m mrs -> 0 <= shr_m (iter_pos shr_1 p mrs).
Proof.
  induction p as [p IH|p IH|]; simpl; intros mrs H.
  - apply IH, IH, shr_1_nonneg, H.
  - apply IH, IH, H.
  - apply shr_1_nonneg, H.
Qed.

Lemma shr_fexp_nonneg (m e : Z) (l : location) :
  0 <= m -> 0 <= shr_m (fst (shr_fexp prec emax m e l)).
Proof.
  intros H. unfold shr_fexp, shr.
  assert (H0 : 0 <= shr_m (shr_record_of_loc m l)).
  { destruct l as [|[ | | ]]; simpl; exact H. }
  destruct (fexp prec emax (Zdigits2 m + e) - e); simpl; auto.
  apply iter_shr_1_nonneg, H0.
Qed.

Lemma round_nearest_even_nonneg (m : Z) (l : location) :
  0 <= m -> 0 <= round_nearest_even m l.
Proof.
  intros H. destruct l as [|[ | | ]]; simpl; try lia.
  destruct (Z.even m); lia.
Qed.

(** Rounding a non-negative mantissa never produces a NaN. *)
Lemma binary_round_aux_not_nan (sx : bool) (mx ex : Z) (lx : location) :
  0 <= mx -> is_nan (binary_round_aux prec emax sx mx ex lx) = false.
Proof.
  intros H. unfold binary_round_aux.
  pose proof (shr_fexp_nonneg mx ex lx H) as H1.
  destruct (shr_fexp prec emax mx ex lx) as [mrs' e']; simpl in H1.
  pose proof (round_nearest_even_nonneg _ (loc_of_shr_record mrs') H1) as H2.
  pose proof (shr_fexp_nonneg _ e' loc_Exact H2) as H3.
  destruct (shr_fexp prec emax _ e' loc_Exact) as [mrs'' e'']; simpl in H3.
  destruct (shr_m mrs'') as [|p|p]; try reflexivity.
  - destruct (e'' <=? emax - prec); reflexivity.
  - lia.
Qed.

Lemma binary_normalize_not_nan (m e : Z) (szero : bool) :
  is_nan (binary_normalize prec emax m e szero) = false.
Proof.
  destruct m as [|p|p]; simpl; try reflexivity;
    unfold binary_round;
    destruct (shl_align p e _) as [mz ez];
    apply binary_round_aux_not_nan; lia.
Qed.

(** A finite term never turns a sum into a NaN. *)
Lemma add_finite_l (c x : float64) :
  is_finite c = true -> is_nan x = false -> is_nan (add c x) = false.
Proof.
  unfold add.
  destruct c as [sc| | |sc mc ec]; try discriminate;
    destruct x as [sx|sx| |sx mx ex]; try discriminate; intros _ _;
    try reflexivity.
  - destruct sc, sx; reflexivity.
  - unfold SFadd. apply binary_normalize_not_nan.
Qed.

Lemma add_finite_r (x c : float64) :
  is_finite c = true -> is_nan x = false -> is_nan (add x c) = false.
Proof.
  unfold add.
  destruct c as [sc| | |sc mc ec]; try discriminate;
    destruct x as [sx|sx| |sx mx ex]; try discriminate; intros _ _;
    try reflexivity.
  - destruct sc, sx; reflexivity.
  - unfold SFadd. apply binary_normalize_not_nan.
Qed.

(** [np.maximum(x, c)] is at least [c] unless it is a NaN. *)
Lemma maximum_ge (x c : float64) :
  is_nan x = false -> is_nan c = false -> leb c (maximum x c) = true.
Proof.
  intros Hx Hc. unfold maximum. rewrite Hx, orb_false_r.
  destruct (leb c x) eqn:E; [exact E|].
  destruct c as [sc|sc| |sc mc ec]; try discriminate.
  - reflexivity.
  - destruct sc; reflexivity.
  - unfold leb, SFleb, SFcompare.
    destruct sc; rewrite Z.compare_refl, Pos.compare_cont_refl; reflexivity.
Qed.

End FloatFacts.

(* ================================================================== *)
(** * Frames of decoded records *)
(* ================================================================== *)

Section RecordFacts.

Context {P : Platform}.

Lemma dict_get_has (k : string) (m : list (string * json)) (v : json) :
  dict_get k m = Some v -> dict_has k m = true.
Proof.
  unfold dict_get, dict_has. induction m as [|[k' v'] m IH]; simpl.
  - discriminate.
  - destruct (String.eqb k' k); simpl; auto.
Qed.

Lemma dict_get_key (k : string) (m : list (string * json)) (v : json) :
  dict_get k m = Some v -> In k (map fst m).
Proof.
  unfold dict_get. induction m as [|[k' v'] m IH]; simpl.
  - discriminate.
  - destruct (String.eqb k' k) eqn:E; simpl.
    + apply String.eqb_eq in E. auto.
    + auto.
Qed.

Lemma as_records_objects (records : list (list (string * json))) :
  as_records (map JObject records) = Some records.
Proof.
  induction records as [|r rs IH]; simpl; [reflexivity|].
  now rewrite IH.
Qed.

Lemma existsb_eqb_In (k : string) (l : list string) :
  existsb (String.eqb k) l = true <-> In k l.
Proof.
  rewrite existsb_exists. split.
  - intros [x [H E]]. apply String.eqb_eq in E. now subst.
  - intros H. exists k. split; [exact H|apply String.eqb_refl].
Qed.

Lemma add_keys_In (k : string) (keys seen : list string) :
  In k (add_keys seen keys) <-> In k seen \/ In k keys.
Proof.
  revert seen. induction keys as [|k' keys IH]; intros seen; simpl.
  - tauto.
  - destruct (existsb (String.eqb k') seen) eqn:E; rewrite IH.
    + apply existsb_eqb_In in E. split; [tauto|].
      intros [H|[H|H]]; subst; auto.
    + rewrite in_app_iff. simpl. tauto.
Qed.

Lemma record_keys_In_from (k : string) (records : list (list (string * json))) :
  forall seen,
    In k (fold_left (fun seen r => add_keys seen (map fst r)) records seen)
    <-> In k seen \/ exists r, In r records /\ In k (map fst r).
Proof.
  induction records as [|r rs IH]; intros seen; simpl.
  - split; [tauto|]. intros [H|[r [[] _]]]. exact H.
  - rewrite IH, add_keys_In. split.
    + intros [[H|H]|[r' [H1 H2]]]; eauto.
    + intros [H|[r' [[H1|H1] H2]]]; subst; eauto.
Qed.

Lemma record_keys_In (k : string) (records : list (list (string * json))) :
  In k (record_keys records) <-> exists r, In r records /\ In k (map fst r).
Proof.
  unfold record_keys. rewrite record_keys_In_from. simpl. tauto.
Qed.

(** A key of some record names a column, whose cells are the values the
    records have under the key. *)
Lemma getitem_object_records (k : string) (records : list (list (string * json))) :
  (exists r, In r records /\ In k (map fst r)) ->
  getitem_object (ObjectFrame_of_records records) k
  = inr (map (dict_get k) records).
Proof.
  intros H. apply record_keys_In in H.
  unfold getitem_object, ObjectFrame_of_records.
  induction (record_keys records) as [|k' ks IH]; simpl; [destruct H|].
  destruct (String.eqb k' k) eqn:E.
  - apply String.eqb_eq in E. now subst.
  - destruct H as [H|H]; [subst; now rewrite String.eqb_refl in E|].
    auto.
Qed.

Lemma getitem_object_no_records (k : string) :
  getitem_object (ObjectFrame_of_records []) k = inl (KeyError k).
Proof. reflexivity. Qed.

(** The dates of the records of the documented shape. *)
Lemma iso_dates_observations (records : list (list (string * json))) :
  Forall is_observation records ->
  exists ds,
    iso_dates (map (dict_get "date") records) = Some ds /\
    Forall2 (fun r d => exists s, dict_get "date" r = Some (JString s)
                                  /\ parse_iso_date s = Some d) records ds.
Proof.
  induction 1 as [|r rs [s [d [v [Hd [Hp Hv]]]]] _ [ds [IH1 IH2]]]; simpl.
  - exists []. split; [reflexivity|constructor].
  - exists (d :: ds). rewrite Hd, Hp, IH1. split; [reflexivity|].
    constructor; eauto.
Qed.

Lemma value_frame_rows (records : list (list (string * json)))
      (ds : list date) :
  Forall is_observation records ->
  Forall2 (fun r d => exists s, dict_get "date" r = Some (JString s)
                                /\ parse_iso_date s = Some d) records ds ->
  Forall2 row_of_observation records
          (rows (value_frame ds (to_numeric_coerce
                                   (map (dict_get "value") records)))).
Proof.
  intros Hobs H. induction H as [|r d rs ds [s [Hd Hp]] _ IH]; simpl.
  - constructor.
  - inversion Hobs as [|? ? [s' [d' [v [_ [_ Hv]]]]] Hrest]; subst.
    constructor; [|apply IH, Hrest].
    exists s, v. simpl. rewrite Hv. simpl. auto.
Qed.

End RecordFacts.

(* ================================================================== *)
(** * The remote fetcher *)
(* ================================================================== *)

Section FetchFacts.

Context {P : Platform}.
Local Open Scope run_scope.

Variables (series_id start_date end_date : string) (api_key : option string).

Local Abbreviation url := (fred_url series_id start_date end_date api_key).
Local Abbreviation called :=
  (Call_fetch_fred_data_api series_id start_date end_date api_key).

Lemma emit_logged (e : event) (w : World) : emit e w = (inr tt, logged w [e]).
Proof. reflexivity. Qed.

Lemma logged_logged (w : World) (es es' : list event) :
  logged (logged w es) es' = logged w (es ++ es').
Proof. unfold logged; simpl. now rewrite app_assoc. Qed.

(** The [try] block when the request itself raises. *)
Lemma try_request_raises (w : World) (ex : exn) :
  requests_get url = inl ex ->
  fetch_fred_data_api_try series_id start_date end_date api_key w
  = (inl ex, logged w [Http_get url]).
Proof.
  intros H. unfold fetch_fred_data_api_try, requests_get_M, bind, lift.
  rewrite emit_logged, H. reflexivity.
Qed.

(** The [try] block on a status other than 200. *)
Lemma try_bad_status (w : World) (r : Response) :
  requests_get url = inr r -> status_code r <> 200 ->
  fetch_fred_data_api_try series_id start_date end_date api_key w
  = (inr DataFrame_empty, logged w [Http_get url]).
Proof.
  intros H Hs. unfold fetch_fred_data_api_try, requests_get_M, bind, lift.
  rewrite emit_logged, H.
  apply Z.eqb_neq in Hs. rewrite Hs. reflexivity.
Qed.

(** The function returns what its [try] block returns, and an empty
    frame, after an error message, when the block raises. *)
Lemma fetch_of_try (w : World) :
  fetch_fred_data_api series_id start_date end_date api_key w =
  match fetch_fred_data_api_try series_id start_date end_date api_key
          (logged w [called]) with
  | (inr df, w') => (inr df, w')
  | (inl ex, w') =>
      (inr DataFrame_empty, logged w' [St_error (fetch_error_text ex)])
  end.
Proof.
  unfold fetch_fred_data_api, bind, try_except. rewrite emit_logged.
  destruct (fetch_fred_data_api_try _ _ _ _ _) as [[ex|df] w']; reflexivity.
Qed.

(** The [try] block touches the world only by its trace. *)
Lemma try_ignores_trace (w : World) (es : list event) :
  fetch_fred_data_api_try series_id start_date end_date api_key (logged w es)
  = (fst (fetch_fred_data_api_try series_id start_date end_date api_key w),
     logged w (es ++ [Http_get url])).
Proof.
  unfold fetch_fred_data_api_try, requests_get_M, bind, lift, ret.
  rewrite !emit_logged, logged_logged.
  destruct (requests_get url) as [ex|r]; [reflexivity|].
  destruct (status_code r =? 200); [|reflexivity].
  destruct (response_json r) as [ex|data]; [reflexivity|].
  destruct (py_contains "observations" data) as [ex|[|]]; try reflexivity.
  destruct (py_getitem data "observations") as [ex|payload]; [reflexivity|].
  destruct (DataFrame_of_json payload) as [ex|df]; [reflexivity|].
  destruct (getitem_object df "date") as [ex|dc]; [reflexivity|].
  destruct (to_datetime dc) as [ex|ds]; [reflexivity|].
  destruct (getitem_object df "value") as [ex|vc]; reflexivity.
Qed.

(** What the [try] block returns is the empty frame or a frame with the
    single column [value]. *)
Lemma try_result_shape (w w' : World) (df : DataFrame) :
  fetch_fred_data_api_try series_id start_date end_date api_key w = (inr df, w') ->
  df = DataFrame_empty \/ columns df = ["value"%string].
Proof.
  unfold fetch_fred_data_api_try, requests_get_M, bind, lift, ret.
  rewrite emit_logged.
  destruct (requests_get _) as [ex|r]; [discriminate|].
  destruct (status_code r =? 200); [|intros [= <- _]; now left].
  destruct (response_json r) as [ex|data]; [discriminate|].
  destruct (py_contains "observations" data) as [ex|[|]];
    [discriminate| |intros [= <- _]; now left].
  destruct (py_getitem data "observations") as [ex|payload]; [discriminate|].
  destruct (DataFrame_of_json payload) as [ex|odf]; [discriminate|].
  destruct (getitem_object odf "date") as [ex|dc]; [discriminate|].
  destruct (to_datetime dc) as [ex|ds]; [discriminate|].
  destruct (getitem_object odf "value") as [ex|vc]; [discriminate|].
  intros [= <- _]. now right.
Qed.

(** The fetcher always returns a frame: it never raises. *)
Lemma fetch_returns (w : World) :
  exists df w',
    fetch_fred_data_api series_id start_date end_date api_key w = (inr df, w')
    /\ (df = DataFrame_empty \/ columns df = ["value"%string]).
Proof.
  rewrite fetch_of_try.
  destruct (fetch_fred_data_api_try _ _ _ _ _) as [[ex|df] w'] eqn:E.
  - eexists _, _. split; [reflexivity|now left].
  - eexists _, _. split; [reflexivity|]. eapply try_result_shape, E.
Qed.

(** C1.  Soft failure of the remote fetcher: when the HTTP GET raises,
    or answers with a status other than 200, or anything else raises
    inside the [try] block, [fetch_fred_data_api] returns the empty
    frame [pd.DataFrame()], which has no column; it returns normally,
    no exception leaves the function. *)
Theorem fetch_soft_failure (w : World) :
  (exists ex, requests_get url = inl ex) \/
  (exists r, requests_get url = inr r /\ status_code r <> 200) \/
  (exists ex, fst (fetch_fred_data_api_try series_id start_date end_date
                     api_key w) = inl ex) ->
  exists w',
    fetch_fred_data_api series_id start_date end_date api_key w
    = (inr DataFrame_empty, w')
    /\ columns DataFrame_empty = [] /\ empty DataFrame_empty = true.
Proof.
  intros H. rewrite fetch_of_try.
  destruct H as [[ex H]|[[r [H Hs]]|[ex H]]].
  - rewrite (try_request_raises _ _ H). eexists. repeat split.
  - rewrite (try_bad_status _ _ H Hs). eexists. repeat split.
  - rewrite try_ignores_trace, H. eexists. repeat split.
Qed.

(** C10.  A successful answer (status 200) whose decoded body is an
    object without the key ["observations"] gives the empty frame: the
    fetcher returns normally, after the request and nothing else (no
    error message is emitted). *)
Theorem fetch_without_observations (w : World) (r : Response)
        (members : list (string * json)) :
  requests_get url = inr r ->
  status_code r = 200 ->
  response_json r = inr (JObject members) ->
  dict_has "observations" members = false ->
  fetch_fred_data_api series_id start_date end_date api_key w
  = (inr DataFrame_empty, logged w [called; Http_get url]).
Proof.
  intros H Hs Hj Hk. rewrite fetch_of_try.
  unfold fetch_fred_data_api_try, requests_get_M, bind, lift, ret.
  rewrite emit_logged, H, Hs, Hj. simpl. rewrite Hk.
  now rewrite logged_logged.
Qed.

(** The fetcher on a successful answer carrying a non-empty list of
    records of the documented shape. *)
Lemma fetch_observations (w : World) (r : Response)
      (members : list (string * json))
      (records : list (list (string * json))) :
  requests_get url = inr r ->
  status_code r = 200 ->
  response_json r = inr (JObject members) ->
  dict_get "observations" members = Some (JArray (map JObject records)) ->
  Forall is_observation records ->
  records <> [] ->
  exists ds,
    iso_dates (map (dict_get "date") records) = Some ds /\
    fetch_fred_data_api series_id start_date end_date api_key w
    = (inr (value_frame ds (to_numeric_coerce
                              (map (dict_get "value") records))),
       logged w [called; Http_get url]).
Proof.
  intros H Hs Hj Hm Hobs Hne.
  destruct (iso_dates_observations _ Hobs) as [ds [Hds _]].
  exists ds. split; [exact Hds|].
  rewrite fetch_of_try.
  unfold fetch_fred_data_api_try, requests_get_M, bind, lift, ret.
  rewrite emit_logged, H, Hs, Hj. simpl.
  rewrite (dict_get_has _ _ _ Hm), Hm. simpl.
  rewrite as_records_objects.
  destruct records as [|r0 rs]; [now destruct Hne|].
  inversion Hobs as [|? ? [s0 [d0 [v0 [Hd0 [_ Hv0]]]]] _]; subst.
  rewrite !getitem_object_records.
  - unfold to_datetime. rewrite Hds. now rewrite logged_logged.
  - exists r0. split; [now left|]. eapply dict_get_key, Hv0.
  - exists r0. split; [now left|]. eapply dict_get_key, Hd0.
Qed.

(** C2.  On a successful answer (status 200):
    - when the body holds under ["observations"] a list of records, each
      with an ISO date string under ["date"] and a value under
      ["value"], the fetcher returns one row per record, in order: the
      row of a record carries its date, parsed, and its value as a
      number, a value that does not parse giving NaN (the row is kept,
      and is not zero); the frame has the single column [value];
    - on the body of the specification's example the frame has exactly
      two rows, 2020-01-01 with 3.5 and 2020-02-01 with NaN. *)
Theorem fetch_parses_observations (w : World) (r : Response) :
  requests_get url = inr r ->
  status_code r = 200 ->
  (forall (members : list (string * json))
          (records : list (list (string * json))),
      response_json r = inr (JObject members) ->
      dict_get "observations" members = Some (JArray (map JObject records)) ->
      Forall is_observation records ->
      exists df w',
        fetch_fred_data_api series_id start_date end_date api_key w
        = (inr df, w') /\
        Forall2 row_of_observation records (rows df) /\
        (records <> [] -> columns df = ["value"%string]) /\
        (forall i rec v,
            nth_error records i = Some rec ->
            dict_get "value" rec = Some v ->
            parse_numeric v = None ->
            exists d, nth_error (rows df) i = Some (d, [nan])
                      /\ is_nan nan = true /\ nan <> of_Z 0))
  /\
  (response_json r = inr Mock.example_body ->
   fetch_fred_data_api series_id start_date end_date api_key w
   = (inr {| columns := ["value"%string];
             rows := [(Date 2020 1 1, [decimal 35 1]);
                      (Date 2020 2 1, [nan])] |},
      logged w [called; Http_get url])).
Proof.
  intros H Hs. split.
  - intros members records Hj Hm Hobs.
    assert (G : exists df w',
               fetch_fred_data_api series_id start_date end_date api_key w
               = (inr df, w') /\
               Forall2 row_of_observation records (rows df) /\
               (records <> [] -> columns df = ["value"%string])).
    { destruct records as [|r0 rs].
      - exists DataFrame_empty. eexists. split.
        + rewrite fetch_of_try.
          unfold fetch_fred_data_api_try, requests_get_M, bind, lift, ret.
          rewrite emit_logged, H, Hs, Hj. simpl.
          rewrite (dict_get_has _ _ _ Hm), Hm. reflexivity.
        + split; [constructor|]. intros F; now destruct F.
      - destruct (fetch_observations w r members _ H Hs Hj Hm Hobs) as [ds [Hds E]];
          [discriminate|].
        eexists _, _. split; [exact E|]. split; [|reflexivity].
        destruct (iso_dates_observations _ Hobs) as [ds' [Hds' F]].
        rewrite Hds in Hds'. injection Hds' as <-.
        apply value_frame_rows; assumption. }
    destruct G as [df [w' [E [F C]]]]. exists df, w'.
    split; [exact E|]. split; [exact F|]. split; [exact C|].
    intros i rec v Hi Hv Hp. clear E C Hm Hobs.
    revert i Hi. induction F as [|r1 row rs rws [s [v' [_ [_ [Hv' Hrow]]]]] _ IH];
      intros [|i] Hi; simpl in *; try discriminate.
    + injection Hi as ->. rewrite Hv in Hv'. injection Hv' as <-.
      rewrite Hp in Hrow. destruct row as [d cells]. simpl in Hrow.
      subst cells. exists d. repeat split. discriminate.
    + apply IH, Hi.
  - intros Hj.
    destruct (fetch_observations w r
                [("observations"%string,
                  JArray (map JObject
                    [[("date"%string, JString "2020-01-01");
                      ("value"%string, JString "3.5")];
                     [("date"%string, JString "2020-02-01");
                      ("value"%string, JString ".")]]))]
                [[("date"%string, JString "2020-01-01");
                  ("value"%string, JString "3.5")];
                 [("date"%string, JString "2020-02-01");
                  ("value"%string, JString ".")]] H Hs Hj eq_refl)
      as [ds [Hds E]].
    + repeat constructor.
      * exists "2020-01-01"%string, (Date 2020 1 1), (JString "3.5").
        repeat split.
      * exists "2020-02-01"%string, (Date 2020 2 1), (JString ".").
        repeat split.
    + discriminate.
    + rewrite E. vm_compute in Hds. injection Hds as <-. reflexivity.
Qed.


(** What the [try] block returns is the empty frame or the frame of a
    list of dates and a list of values. *)
Lemma try_result_value_frame (w w' : World) (df : DataFrame) :
  fetch_fred_data_api_try series_id start_date end_date api_key w = (inr df, w') ->
  df = DataFrame_empty \/ exists dates values, df = value_frame dates values.
Proof.
  unfold fetch_fred_data_api_try, requests_get_M, bind, lift, ret.
  rewrite emit_logged.
  destruct (requests_get _) as [ex|r]; [discriminate|].
  destruct (status_code r =? 200); [|intros [= <- _]; now left].
  destruct (response_json r) as [ex|data]; [discriminate|].
  destruct (py_contains "observations" data) as [ex|[|]];
    [discriminate| |intros [= <- _]; now left].
  destruct (py_getitem data "observations") as [ex|payload]; [discriminate|].
  destruct (DataFrame_of_json payload) as [ex|odf]; [discriminate|].
  destruct (getitem_object odf "date") as [ex|dc]; [discriminate|].
  destruct (to_datetime dc) as [ex|ds]; [discriminate|].
  destruct (getitem_object odf "value") as [ex|vc]; [discriminate|].
  intros [= <- _]. right. now eexists _, _.
Qed.

Lemma fetch_result_value_frame (w w' : World) (df : DataFrame) :
  fetch_fred_data_api series_id start_date end_date api_key w = (inr df, w') ->
  df = DataFrame_empty \/ exists dates values, df = value_frame dates values.
Proof.
  rewrite fetch_of_try.
  destruct (fetch_fred_data_api_try _ _ _ _ _) as [[ex|df'] w''] eqn:E.
  - intros [= <- _]. now left.
  - intros [= <- _]. eapply try_result_value_frame, E.
Qed.

End FetchFacts.

(* ================================================================== *)
(** * The synthetic generator *)
(* ================================================================== *)

Section SampleFacts.

Context {P : Platform}.

Lemma nth_error_combine {A B : Type} (a : list A) (b : list B) (i : nat) :
  nth_error (combine a b) i =
  match nth_error a i, nth_error b i with
  | Some x, Some y => Some (x, y)
  | _, _ => None
  end.
Proof.
  revert b i. induction a as [|x a IH]; intros [|y b] [|i]; simpl; try reflexivity.
  - now destruct (nth_error a i).
  - apply IH.
Qed.

Lemma nth_error_enumerate_from {A : Type} (l : list A) :
  forall k i,
    nth_error (combine (seq k (List.length l)) l) i =
    option_map (pair (k + i)%nat) (nth_error l i).
Proof.
  induction l as [|x l IH]; intros k [|i]; simpl; try reflexivity.
  - now rewrite Nat.add_0_r.
  - rewrite IH. now rewrite Nat.add_succ_r.
Qed.

Lemma nth_error_enumerate {A : Type} (l : list A) (i : nat) :
  nth_error (enumerate l) i = option_map (pair i) (nth_error l i).
Proof. unfold enumerate. now rewrite nth_error_enumerate_from. Qed.

Lemma split_at {A : Type} (l : list A) :
  forall k x, nth_error l k = Some x -> l = firstn k l ++ x :: skipn (S k) l.
Proof.
  induction l as [|y l IH]; intros [|k] x H; simpl in *; try discriminate.
  - now injection H as ->.
  - f_equal. apply IH, H.
Qed.

Lemma skipn_at {A : Type} (l : list A) :
  forall k x, nth_error l k = Some x -> skipn k l = x :: skipn (S k) l.
Proof.
  induction l as [|y l IH]; intros [|k] x H; simpl in *; try discriminate.
  - now injection H as ->.
  - apply IH, H.
Qed.

Lemma firstn_S_split {A : Type} (l : list A) :
  forall k x y, nth_error l k = Some x ->
    firstn (S k) (firstn k l ++ y :: skipn (S k) l) = firstn k l ++ [y]
    /\ skipn (S k) (firstn k l ++ y :: skipn (S k) l) = skipn (S k) l.
Proof.
  induction l as [|z l IH]; intros [|k] x y H; simpl in *; try discriminate.
  - now split.
  - destruct (IH k x y H) as [H1 H2]. simpl in H1. split.
    + f_equal. exact H1.
    + exact H2.
Qed.

Lemma array_iadd_at (a : list float64) (i : nat) (x c : float64) :
  nth_error a i = Some x ->
  array_iadd a i c = inr (firstn i a ++ add x c :: skipn (S i) a).
Proof. intros H. unfold array_iadd. now rewrite H. Qed.

(** One turn of the loop changes the two cells of its row, and only
    them. *)
Lemma stress_step_at (dl co : list float64) (i : nat) (d : date)
      (x y : float64) :
  nth_error dl i = Some x -> nth_error co i = Some y ->
  stress_step (dl, co) i d
  = inr (firstn i dl ++ stressed_delinquency d x :: skipn (S i) dl,
         firstn i co ++ stressed_chargeoff d y :: skipn (S i) co).
Proof.
  intros Hx Hy. unfold stress_step, stressed_delinquency, stressed_chargeoff.
  destruct ((2008 <=? year d) && (year d <=? 2010)).
  - now rewrite (array_iadd_at _ _ _ _ Hx), (array_iadd_at _ _ _ _ Hy).
  - destruct (year d =? 2020).
    + now rewrite (array_iadd_at _ _ _ _ Hx), (array_iadd_at _ _ _ _ Hy).
    + now rewrite <- (split_at _ _ _ Hx), <- (split_at _ _ _ Hy).
Qed.

(** The loop over [enumerate(dates)] never raises on arrays as long as
    the index, and adjusts every row by its own year. *)
Lemma stress_loop_from (ds : list date) :
  forall k dl co,
    List.length dl = (k + List.length ds)%nat ->
    List.length co = (k + List.length ds)%nat ->
    stress_loop (combine (seq k (List.length ds)) ds) (dl, co)
    = inr (firstn k dl
             ++ map (fun dv => stressed_delinquency (fst dv) (snd dv))
                    (combine ds (skipn k dl)),
           firstn k co
             ++ map (fun dv => stressed_chargeoff (fst dv) (snd dv))
                    (combine ds (skipn k co))).
Proof.
  induction ds as [|d ds IH]; intros k dl co Hl Hc; simpl in Hl, Hc;
    cbn [List.length seq combine stress_loop].
  - rewrite Nat.add_0_r in Hl, Hc.
    rewrite <- Hl at 1. rewrite <- Hc at 1.
    now rewrite !firstn_all, !app_nil_r.
  - destruct (nth_error dl k) as [x|] eqn:Ex;
      [|apply nth_error_None in Ex; lia].
    destruct (nth_error co k) as [y|] eqn:Ey;
      [|apply nth_error_None in Ey; lia].
    rewrite (stress_step_at _ _ _ d _ _ Ex Ey).
    destruct (firstn_S_split _ _ _ (stressed_delinquency d x) Ex) as [F1 S1].
    destruct (firstn_S_split _ _ _ (stressed_chargeoff d y) Ey) as [F2 S2].
    rewrite IH.
    + rewrite F1, S1, F2, S2, <- !app_assoc.
      rewrite (skipn_at _ _ _ Ex), (skipn_at _ _ _ Ey). reflexivity.
    + rewrite (split_at _ _ _ Ex) in Hl.
      rewrite !length_app in *. simpl in *. lia.
    + rewrite (split_at _ _ _ Ey) in Hc.
      rewrite !length_app in *. simpl in *. lia.
Qed.

Lemma stress_loop_enumerate (ds : list date) (dl co : list float64) :
  List.length dl = List.length ds -> List.length co = List.length ds ->
  stress_loop (enumerate ds) (dl, co)
  = inr (map (fun dv => stressed_delinquency (fst dv) (snd dv)) (combine ds dl),
         map (fun dv => stressed_chargeoff (fst dv) (snd dv)) (combine ds co)).
Proof.
  intros Hl Hc. unfold enumerate. now rewrite stress_loop_from.
Qed.

(** The frame built from the two floored arrays, row by row. *)
Lemma sample_rows (dates : list date) (noise_d noise_c : list float64) :
  List.length noise_d = List.length dates ->
  List.length noise_c = List.length dates ->
  frame_of_columns dates
    [(name_delinquency,
      map (fun x => maximum x floor_rate)
          (map (fun dv => stressed_delinquency (fst dv) (snd dv))
               (combine dates (map (add base_delinquency) noise_d))));
     (name_chargeoff,
      map (fun x => maximum x floor_rate)
          (map (fun dv => stressed_chargeoff (fst dv) (snd dv))
               (combine dates (map (add base_chargeoff) noise_c))))]
  = sample_frame dates noise_d noise_c.
Proof.
  intros Hd Hc. unfold frame_of_columns, sample_frame. simpl. f_equal.
  apply nth_error_ext. intros i.
  rewrite !nth_error_map, nth_error_enumerate, !nth_error_combine.
  destruct (nth_error dates i) as [d|] eqn:Ed; [|reflexivity].
  assert (Hi : (i < List.length dates)%nat)
    by (apply nth_error_Some; congruence).
  destruct (nth_error noise_d i) as [x|] eqn:Ex;
    [|apply nth_error_None in Ex; lia].
  destruct (nth_error noise_c i) as [y|] eqn:Ey;
    [|apply nth_error_None in Ey; lia].
  cbn [option_map fst snd map sample_row].
  match goal with
  | |- context [Some (d, [nth i ?L1 nan; nth i ?L2 nan])] =>
      assert (E1 : nth_error L1 i
                   = Some (maximum (stressed_delinquency d
                                      (add base_delinquency x)) floor_rate))
        by (rewrite !nth_error_map, nth_error_combine, nth_error_map, Ed, Ex;
            reflexivity);
      assert (E2 : nth_error L2 i
                   = Some (maximum (stressed_chargeoff d
                                      (add base_chargeoff y)) floor_rate))
        by (rewrite !nth_error_map, nth_error_combine, nth_error_map, Ed, Ey;
            reflexivity)
  end.
  rewrite (nth_error_nth _ _ nan E1), (nth_error_nth _ _ nan E2).
  reflexivity.
Qed.

(** A call of the generator, when [np.random.normal] returns as many
    samples as asked: the table is made of the month ends of the range
    and of the samples drawn after seeding with 42. *)
Lemma create_sample_data_run (s e : date) (w : World) :
  (forall loc scale n st,
      List.length (fst (random_normal loc scale n st)) = n) ->
  create_sample_data s e w =
  let dates := date_range_M s e in
  let draw_d := random_normal (of_Z 0) (decimal 15 1) (List.length dates)
                              (random_seed 42) in
  let draw_c := random_normal (of_Z 0) (decimal 18 1) (List.length dates)
                              (snd draw_d) in
  (inr (sample_frame dates (fst draw_d) (fst draw_c)),
   reseeded (logged w [Call_create_sample_data s e]) (snd draw_c)).
Proof.
  intros Hlen.
  unfold create_sample_data, bind, np_random_seed, np_random_normal, lift.
  rewrite emit_logged. cbv beta iota zeta. cbn [np_random logged trace].
  pose proof (Hlen (of_Z 0) (decimal 15 1) (List.length (date_range_M s e))
                   (random_seed 42)) as Hd.
  destruct (random_normal (of_Z 0) (decimal 15 1) _ (random_seed 42))
    as [nd s1]. cbn [fst snd np_random trace] in *.
  pose proof (Hlen (of_Z 0) (decimal 18 1) (List.length (date_range_M s e))
                   s1) as Hc.
  destruct (random_normal (of_Z 0) (decimal 18 1) _ s1) as [nc s2].
  cbn [fst snd np_random trace] in *.
  rewrite stress_loop_enumerate by (rewrite length_map; assumption).
  cbn [fst snd]. unfold DataFrame_of_arrays.
  cbn [forallb snd]. rewrite !length_map, !length_combine, !length_map.
  rewrite Hd, Hc, Nat.min_id, Nat.eqb_refl. cbn [andb].
  rewrite sample_rows by assumption. reflexivity.
Qed.

(** C6.  Two calls of [create_sample_data] with the same dates return the
    same table (or raise the same exception), whatever the state of the
    global generator and the trace when each call is made, and leave the
    generator in the same state: the generator is seeded with 42 at
    every call.  In particular a second call, made in the world the
    first call left, returns what the first returned. *)
Theorem create_sample_data_deterministic (s e : date) (w1 w2 : World) :
  fst (create_sample_data s e w1) = fst (create_sample_data s e w2)
  /\ np_random (snd (create_sample_data s e w1))
     = np_random (snd (create_sample_data s e w2))
  /\ fst (create_sample_data s e (snd (create_sample_data s e w1)))
     = fst (create_sample_data s e w1).
Proof.
  assert (G : forall w w',
             fst (create_sample_data s e w) = fst (create_sample_data s e w')
             /\ np_random (snd (create_sample_data s e w))
                = np_random (snd (create_sample_data s e w'))).
  { intros w w'.
    unfold create_sample_data, bind, np_random_seed, np_random_normal, lift.
    rewrite !emit_logged. cbv beta iota zeta. cbn [np_random logged trace].
    destruct (random_normal (of_Z 0) (decimal 15 1)
                (List.length (date_range_M s e)) (random_seed 42))
      as [nd s1]. cbn [fst snd np_random trace].
    destruct (random_normal (of_Z 0) (decimal 18 1)
                (List.length (date_range_M s e)) s1) as [nc s2].
    cbn [fst snd np_random trace].
    destruct (stress_loop _ _) as [ex|rates]; [now split|].
    now split. }
  split; [apply G|]. split; apply G.
Qed.

Lemma stressed_delinquency_not_nan (d : date) (v : float64) :
  is_nan v = false -> is_nan (stressed_delinquency d v) = false.
Proof.
  intros H. unfold stressed_delinquency.
  destruct ((2008 <=? year d) && (year d <=? 2010));
    [now apply add_finite_r|].
  destruct (year d =? 2020); [now apply add_finite_r|exact H].
Qed.

Lemma stressed_chargeoff_not_nan (d : date) (v : float64) :
  is_nan v = false -> is_nan (stressed_chargeoff d v) = false.
Proof.
  intros H. unfold stressed_chargeoff.
  destruct ((2008 <=? year d) && (year d <=? 2010));
    [now apply add_finite_r|].
  destruct (year d =? 2020); [now apply add_finite_r|exact H].
Qed.

(** A value at least 0.5 is not negative. *)
Lemma floor_not_negative (x : float64) :
  leb floor_rate x = true -> ltb x (of_Z 0) = false.
Proof.
  destruct x as [sx|sx| |sx m ex]; try discriminate.
  - destruct sx; [discriminate|reflexivity].
  - destruct sx; [discriminate|reflexivity].
Qed.

(** C7.  Every value of both columns of the table [create_sample_data]
    returns is at least 0.5, and so is not negative: the floor is the
    last step, after the noise and the stress adjustments.  The noise
    is assumed to be what [np.random.normal] gives for a finite mean and
    deviation: as many samples as asked, none of them a NaN. *)
Theorem create_sample_data_floor (s e : date) (w : World) :
  (forall loc scale n st,
      List.length (fst (random_normal loc scale n st)) = n) ->
  (forall loc scale n st,
      is_finite loc = true -> is_finite scale = true ->
      Forall (fun x => is_nan x = false) (fst (random_normal loc scale n st))) ->
  exists df,
    fst (create_sample_data s e w) = inr df /\
    columns df = [name_delinquency; name_chargeoff] /\
    Forall (fun row =>
              Forall (fun x => leb floor_rate x = true
                               /\ ltb x (of_Z 0) = false) (snd row))
           (rows df).
Proof.
  intros Hlen Hnan. rewrite (create_sample_data_run s e w Hlen).
  cbv zeta. cbn [fst]. eexists. split; [reflexivity|]. split; [reflexivity|].
  cbn [rows sample_frame]. apply Forall_forall. intros row Hrow.
  apply in_map_iff in Hrow. destruct Hrow as [[d [x y]] [<- Hin]].
  apply in_combine_r in Hin.
  pose proof (in_combine_l _ _ _ _ Hin) as Hx.
  pose proof (in_combine_r _ _ _ _ Hin) as Hy.
  assert (Nx : is_nan x = false).
  { pose proof (Hnan (of_Z 0) (decimal 15 1)
                     (List.length (date_range_M s e)) (random_seed 42)
                     eq_refl eq_refl) as F.
    rewrite Forall_forall in F. apply F, Hx. }
  assert (Ny : is_nan y = false).
  { pose proof (Hnan (of_Z 0) (decimal 18 1)
                     (List.length (date_range_M s e))
                     (snd (random_normal (of_Z 0) (decimal 15 1)
                             (List.length (date_range_M s e))
                             (random_seed 42)))
                     eq_refl eq_refl) as F.
    rewrite Forall_forall in F. apply F, Hy. }
  assert (Gd : leb floor_rate
                   (maximum (stressed_delinquency d (add base_delinquency x))
                            floor_rate) = true).
  { apply maximum_ge; [|reflexivity].
    apply stressed_delinquency_not_nan, add_finite_l; [reflexivity|exact Nx]. }
  assert (Gc : leb floor_rate
                   (maximum (stressed_chargeoff d (add base_chargeoff y))
                            floor_rate) = true).
  { apply maximum_ge; [|reflexivity].
    apply stressed_chargeoff_not_nan, add_finite_l; [reflexivity|exact Ny]. }
  cbn [sample_row snd].
  repeat constructor; try assumption; now apply floor_not_negative.
Qed.

(** C8.  In the table [create_sample_data] returns, the row of the
    month end [d] holds, floored at 0.5, the base plus the noise of the
    row, to which the loop has added 2.5 (delinquency) and 3.0
    (charge-off) when the year of [d] is in [2008, 2010], 1.5 and 2.0
    when it is 2020, and nothing in any other year. *)
Theorem create_sample_data_stress (s e : date) (w : World) :
  (forall loc scale n st,
      List.length (fst (random_normal loc scale n st)) = n) ->
  exists df,
    fst (create_sample_data s e w) = inr df /\
    index df = date_range_M s e /\
    forall i d x y,
      nth_error (date_range_M s e) i = Some d ->
      nth_error (fst (random_normal (of_Z 0) (decimal 15 1)
                        (List.length (date_range_M s e)) (random_seed 42))) i
      = Some x ->
      nth_error (fst (random_normal (of_Z 0) (decimal 18 1)
                        (List.length (date_range_M s e))
                        (snd (random_normal (of_Z 0) (decimal 15 1)
                                (List.length (date_range_M s e))
                                (random_seed 42))))) i
      = Some y ->
      exists a b,
        nth_error (rows df) i
        = Some (d, [maximum a floor_rate; maximum b floor_rate]) /\
        (2008 <= year d <= 2010 ->
         a = add (add base_delinquency x) (decimal 25 1) /\
         b = add (add base_chargeoff y) (decimal 30 1)) /\
        (year d = 2020 ->
         a = add (add base_delinquency x) (decimal 15 1) /\
         b = add (add base_chargeoff y) (decimal 20 1)) /\
        (~ 2008 <= year d <= 2010 -> year d <> 2020 ->
         a = add base_delinquency x /\ b = add base_chargeoff y).
Proof.
  intros Hlen. rewrite (create_sample_data_run s e w Hlen).
  cbv zeta. cbn [fst]. eexists. split; [reflexivity|].
  pose proof (Hlen (of_Z 0) (decimal 15 1) (List.length (date_range_M s e))
                   (random_seed 42)) as Ld.
  pose proof (Hlen (of_Z 0) (decimal 18 1) (List.length (date_range_M s e))
                   (snd (random_normal (of_Z 0) (decimal 15 1)
                           (List.length (date_range_M s e))
                           (random_seed 42)))) as Lc.
  split.
  - unfold index, sample_frame. cbn [rows]. rewrite map_map.
    set (nd := fst (random_normal (of_Z 0) (decimal 15 1) _ (random_seed 42))) in *.
    set (nc := fst (random_normal (of_Z 0) (decimal 18 1) _ _)) in *.
    clearbody nd nc. revert nd nc Ld Lc.
    induction (date_range_M s e) as [|d ds IH]; intros [|x nd] [|y nc] Ld Lc;
      simpl in *; try discriminate; [reflexivity|].
    f_equal. apply IH; congruence.
  - intros i d x y Hd Hx Hy.
    exists (stressed_delinquency d (add base_delinquency x)),
           (stressed_chargeoff d (add base_chargeoff y)).
    split.
    + cbn [rows sample_frame].
      now rewrite nth_error_map, !nth_error_combine, Hd, Hx, Hy.
    + unfold stressed_delinquency, stressed_chargeoff.
      repeat split.
      * destruct H as [H1 H2].
        apply Z.leb_le in H1, H2. now rewrite H1, H2.
      * destruct H as [H1 H2].
        apply Z.leb_le in H1, H2. now rewrite H1, H2.
      * destruct ((2008 <=? year d) && (year d <=? 2010)) eqn:E.
        -- apply andb_true_iff in E. destruct E as [E1 E2].
           apply Z.leb_le in E1, E2. lia.
        -- now rewrite H, Z.eqb_refl.
      * destruct ((2008 <=? year d) && (year d <=? 2010)) eqn:E.
        -- apply andb_true_iff in E. destruct E as [E1 E2].
           apply Z.leb_le in E1, E2. lia.
        -- now rewrite H, Z.eqb_refl.
      * destruct ((2008 <=? year d) && (year d <=? 2010)) eqn:E.
        -- apply andb_true_iff in E. destruct E as [E1 E2].
           apply Z.leb_le in E1, E2. lia.
        -- apply Z.eqb_neq in H0. now rewrite H0.
      * destruct ((2008 <=? year d) && (year d <=? 2010)) eqn:E.
        -- apply andb_true_iff in E. destruct E as [E1 E2].
           apply Z.leb_le in E1, E2. lia.
        -- apply Z.eqb_neq in H0. now rewrite H0.
Qed.

End SampleFacts.

(* ================================================================== *)
(** * Alignment of columns *)
(* ================================================================== *)

Section MergeFacts.

Context {P : Platform}.

Lemma date_compare_eq (a b : date) : date_compare a b = Eq -> a = b.
Proof.
  destruct a as [ya ma da], b as [yb mb db]. unfold date_compare. simpl.
  destruct (ya ?= yb) eqn:Ey; try discriminate.
  destruct (ma ?= mb) eqn:Em; try discriminate.
  intros Ed. apply Z.compare_eq in Ey, Em, Ed. now subst.
Qed.

Lemma date_compare_refl (a : date) : date_compare a a = Eq.
Proof. unfold date_compare. now rewrite !Z.compare_refl. Qed.

Lemma date_eqb_eq (a b : date) : date_eqb a b = true <-> a = b.
Proof.
  unfold date_eqb. split.
  - destruct (date_compare a b) eqn:E; try discriminate.
    intros _. now apply date_compare_eq.
  - intros ->. now rewrite date_compare_refl.
Qed.

Lemma index_equals_eq (a b : list date) : index_equals a b = true -> a = b.
Proof.
  revert b. induction a as [|x a IH]; intros [|y b]; simpl; try discriminate.
  - reflexivity.
  - intros H. apply andb_true_iff in H. destruct H as [H1 H2].
    apply date_eqb_eq in H1. apply IH in H2. now subst.
Qed.

Lemma insert_sorted_In (x d : date) (l : list date) :
  In x (insert_sorted d l) <-> x = d \/ In x l.
Proof.
  induction l as [|y l IH]; simpl.
  - intuition.
  - destruct (date_compare d y) eqn:E; simpl.
    + apply date_compare_eq in E. subst. intuition.
    + intuition.
    + rewrite IH. intuition.
Qed.

(** The union of two indexes holds the labels of both, and no other. *)
Lemma union_sorted_In (d : date) (a b : list date) :
  In d (union_sorted [a; b]) <-> In d a \/ In d b.
Proof.
  unfold union_sorted. simpl. rewrite app_nil_r.
  rewrite <- in_app_iff.
  induction (a ++ b) as [|x l IH]; simpl; [tauto|].
  rewrite insert_sorted_In, IH. intuition.
Qed.

Lemma position_In (d : date) (idx : list date) :
  In d idx -> exists i, position d idx = Some i /\ nth_error idx i = Some d.
Proof.
  induction idx as [|x idx IH]; simpl; [tauto|]. intros H.
  destruct (date_eqb x d) eqn:E.
  - apply date_eqb_eq in E. subst. now exists O.
  - destruct H as [->|H].
    + assert (T : date_eqb d d = true) by now apply date_eqb_eq.
      congruence.
    + destruct (IH H) as [i [Hp Hn]]. exists (S i). now rewrite Hp.
Qed.

Lemma index_frame_of_columns_from (cols : list (string * list float64))
      (idx : list date) :
  forall k,
    map fst (map (fun id : nat * date =>
                    (snd id, map (fun c => nth (fst id) (snd c) nan) cols))
                 (combine (seq k (List.length idx)) idx)) = idx.
Proof.
  induction idx as [|x idx IH]; intros k; simpl; [reflexivity|].
  now rewrite IH.
Qed.

Lemma index_frame_of_columns (idx : list date)
      (cols : list (string * list float64)) :
  index (frame_of_columns idx cols) = idx.
Proof. apply index_frame_of_columns_from. Qed.

Lemma find_row_from (cols : list (string * list float64)) (d : date)
      (idx : list date) :
  forall k,
    find (fun r : date * list float64 => date_eqb (fst r) d)
         (map (fun id : nat * date =>
                 (snd id, map (fun c => nth (fst id) (snd c) nan) cols))
              (combine (seq k (List.length idx)) idx))
    = option_map (fun i => (d, map (fun c => nth (k + i) (snd c) nan) cols))
                 (position d idx).
Proof.
  induction idx as [|x idx IH]; intros k; simpl; [reflexivity|].
  destruct (date_eqb x d) eqn:E.
  - apply date_eqb_eq in E. subst. simpl. now rewrite Nat.add_0_r.
  - rewrite IH. destruct (position d idx); simpl; [|reflexivity].
    now rewrite Nat.add_succ_r.
Qed.

(** The cells of a row of a frame of two columns. *)
Lemma cell_frame_of_two (idx : list date) (na nb : string)
      (ca cb : list float64) (d : date) (i : nat) :
  String.eqb na nb = false ->
  position d idx = Some i ->
  cell (frame_of_columns idx [(na, ca); (nb, cb)]) d na = Some (nth i ca nan)
  /\ cell (frame_of_columns idx [(na, ca); (nb, cb)]) d nb
     = Some (nth i cb nan).
Proof.
  intros Hn Hp. unfold cell, frame_of_columns, enumerate.
  cbn [columns rows].
  rewrite (find_row_from [(na, ca); (nb, cb)] d idx 0), Hp.
  cbn [map fst snd column_position option_map Nat.add].
  rewrite !String.eqb_refl, Hn. now split.
Qed.

Lemma cell_value_frame (df : DataFrame) (d : date) :
  columns df = ["value"%string] ->
  cell df d "value"
  = option_map (fun r : date * list float64 => nth 0 (snd r) nan)
               (find (fun r => date_eqb (fst r) d) (rows df)).
Proof.
  intros H. unfold cell. rewrite H. simpl.
  now destruct (find _ (rows df)).
Qed.

(** Reading a series at a label, by position. *)
Lemma lookup_label_position (d : date) (s : Series) (i : nat) :
  position d (series_index s) = Some i ->
  lookup_label d s = nth i (series_values s) nan.
Proof.
  unfold lookup_label. revert i.
  induction s as [|[x v] s IH]; intros i; simpl; [discriminate|].
  destruct (date_eqb x d); [now intros [= <-]|].
  destruct (position d (series_index s)) as [j|]; simpl; [|discriminate].
  intros [= <-]. now apply IH.
Qed.

Lemma lookup_label_absent (d : date) (s : Series) :
  ~ In d (series_index s) -> lookup_label d s = nan.
Proof.
  unfold lookup_label. induction s as [|[x v] s IH]; simpl; [reflexivity|].
  intros H. destruct (date_eqb x d) eqn:E.
  - apply date_eqb_eq in E. tauto.
  - apply IH. tauto.
Qed.

Lemma lookup_label_cell (df : DataFrame) (d : date) :
  columns df = ["value"%string] ->
  In d (index df) ->
  cell df d "value" = Some (lookup_label d (column_at 0 df)).
Proof.
  intros H Hin. rewrite (cell_value_frame df d H).
  unfold lookup_label, column_at, index in *.
  induction (rows df) as [|[x cells] rs IH]; simpl in *; [tauto|].
  destruct (date_eqb x d) eqn:E; [reflexivity|].
  apply IH. destruct Hin as [->|Hin]; [|exact Hin].
  assert (T : date_eqb d d = true) by now apply date_eqb_eq.
  congruence.
Qed.

(** [pd.DataFrame] of two named series without repeated labels is their
    outer join on the label. *)
Lemma DataFrame_of_two_series (na nb : string) (sa sb : Series) :
  String.eqb na nb = false ->
  is_unique (series_index sa) = true ->
  is_unique (series_index sb) = true ->
  exists df,
    DataFrame_of_series [(na, sa); (nb, sb)] = inr df /\
    columns df = [na; nb] /\
    (forall d, In d (index df)
               <-> In d (series_index sa) \/ In d (series_index sb)) /\
    (forall d, In d (index df) ->
               cell df d na = Some (lookup_label d sa)
               /\ cell df d nb = Some (lookup_label d sb)).
Proof.
  intros Hn Ua Ub. unfold DataFrame_of_series. cbn [forallb snd fst map andb].
  rewrite Ua, Ub, andb_true_r. cbn [andb].
  destruct (index_equals (series_index sb) (series_index sa)) eqn:E.
  - apply index_equals_eq in E.
    eexists. split; [reflexivity|]. split; [reflexivity|].
    rewrite index_frame_of_columns. split.
    + intros d. rewrite E. tauto.
    + intros d Hd. destruct (position_In d _ Hd) as [i [Hp _]].
      destruct (cell_frame_of_two (series_index sa) na nb
                  (series_values sa) (series_values sb) d i Hn Hp)
        as [Ca Cb].
      rewrite Ca, Cb. split; f_equal; symmetry;
        apply lookup_label_position; congruence.
  - eexists. split; [reflexivity|]. split; [reflexivity|].
    rewrite index_frame_of_columns. split.
    + intros d. apply union_sorted_In.
    + intros d Hd. destruct (position_In d _ Hd) as [i [Hp Hi]].
      destruct (cell_frame_of_two
                  (union_sorted [series_index sa; series_index sb]) na nb
                  (reindex (union_sorted [series_index sa; series_index sb]) sa)
                  (reindex (union_sorted [series_index sa; series_index sb]) sb)
                  d i Hn Hp) as [Ca Cb].
      rewrite Ca, Cb. unfold reindex.
      split; f_equal; apply nth_error_nth;
        now rewrite nth_error_map, Hi.
Qed.

End MergeFacts.

(* ================================================================== *)
(** * The script *)
(* ================================================================== *)

Section ScriptFacts.

Context {P : Platform}.
Local Open Scope run_scope.

(** ** What a run adds to the trace *)

Lemma emits_ret {A : Type} (Q : event -> bool) (a : A) : emits Q (ret a).
Proof. intros w. exists []. simpl. now rewrite app_nil_r. Qed.

Lemma emits_lift {A : Type} (Q : event -> bool) (r : result A) :
  emits Q (lift r).
Proof. intros w. exists []. simpl. now rewrite app_nil_r. Qed.

Lemma emits_emit (Q : event -> bool) (e : event) :
  Q e = true -> emits Q (emit e).
Proof. intros H w. exists [e]. simpl. now rewrite H. Qed.

Lemma emits_bind {A B : Type} (Q : event -> bool) (m : M A) (k : A -> M B) :
  emits Q m -> (forall a, emits Q (k a)) -> emits Q (bind m k).
Proof.
  intros Hm Hk w. unfold bind.
  destruct (Hm w) as [es [E F]].
  destruct (m w) as [[ex|a] w1]; simpl in E.
  - exists es. now split.
  - destruct (Hk a w1) as [es' [E' F']].
    exists (es ++ es'). rewrite E', E, app_assoc, forallb_app, F, F'.
    now split.
Qed.

Lemma emits_try {A : Type} (Q : event -> bool) (m : M A) (h : exn -> M A) :
  emits Q m -> (forall ex, emits Q (h ex)) -> emits Q (try_except m h).
Proof.
  intros Hm Hh w. unfold try_except.
  destruct (Hm w) as [es [E F]].
  destruct (m w) as [[ex|a] w1]; simpl in E.
  - destruct (Hh ex w1) as [es' [E' F']].
    exists (es ++ es'). rewrite E', E, app_assoc, forallb_app, F, F'.
    now split.
  - exists es. now split.
Qed.

Lemma emits_seed (Q : event -> bool) (n : Z) : emits Q (np_random_seed n).
Proof. intros w. exists []. simpl. now rewrite app_nil_r. Qed.

Lemma emits_normal (Q : event -> bool) (loc scale : float64) (n : nat) :
  emits Q (np_random_normal loc scale n).
Proof.
  intros w. exists []. unfold np_random_normal.
  destruct (random_normal loc scale n (np_random w)). simpl.
  now rewrite app_nil_r.
Qed.

Ltac emits_step :=
  first [ apply emits_ret | apply emits_lift | apply emits_seed
        | apply emits_normal
        | apply emits_emit; reflexivity
        | apply emits_bind; [|intros ?]
        | apply emits_try; [|intros ?] ].

Lemma fetch_emits (series_id start_date end_date : string)
      (api_key : option string) :
  emits is_loading (fetch_fred_data_api series_id start_date end_date api_key).
Proof.
  unfold fetch_fred_data_api, fetch_fred_data_api_try, requests_get_M.
  repeat emits_step.
  destruct (status_code _ =? 200); repeat emits_step.
  match goal with |- emits _ (if ?b then _ else _) => destruct b end;
    repeat emits_step.
Qed.

Lemma create_sample_data_emits (s e : date) :
  emits is_loading (create_sample_data s e).
Proof. unfold create_sample_data. repeat emits_step. Qed.

Lemma fetch_each_emits (items : list (string * string)) (s e : date)
      (key : option string) :
  forall all_series, emits is_loading (fetch_each items s e key all_series).
Proof.
  induction items as [|[name sid] rest IH]; intros all_series; simpl.
  - apply emits_ret.
  - apply emits_bind; [apply fetch_emits|]. intros df.
    destruct (negb (empty df)); [|apply IH].
    apply emits_bind; [apply emits_lift|]. intros col. apply IH.
Qed.

Lemma load_data_emits (s e : date) (src : string) (key : option string) :
  emits is_loading (load_data s e src key).
Proof.
  unfold load_data.
  destruct (String.eqb src "FRED API");
    [|apply create_sample_data_emits].
  destruct (truthy key).
  - apply emits_bind; [apply fetch_each_emits|].
    intros [|c cs]; [apply emits_ret|apply emits_lift].
  - apply emits_bind; [apply emits_emit; reflexivity|].
    intros _. apply create_sample_data_emits.
Qed.

Lemma show_metrics_emits (data : DataFrame) (name : string) :
  emits is_display (show_metrics data name).
Proof.
  unfold show_metrics. destruct (has_column name data); repeat emits_step.
Qed.

Lemma show_trends_emits (names : list string) (recent previous : DataFrame) :
  emits is_display (show_trends names recent previous).
Proof.
  induction names as [|col rest IH]; simpl; [apply emits_ret|].
  apply emits_bind; [|intros _; apply IH].
  destruct (has_column col recent && has_column col previous);
    repeat emits_step.
Qed.

(** ** The invalid range *)

(** C9.  When the start date is strictly after the end date the script
    shows the error message and does nothing else: the run ends
    normally, its trace grows by the message alone, so neither
    [fetch_fred_data_api] nor [create_sample_data] is called and no
    request is sent. *)
Theorem invalid_range_no_fetch (s e : date) (src : string)
        (key : option string) (w : World) :
  date_compare s e = Gt ->
  dashboard s e src key w = (inr tt, logged w [St_error error_date_order])
  /\ forallb (fun ev => negb (is_remote ev))
             [St_error error_date_order] = true
  /\ ~ In (Call_create_sample_data s e) [St_error error_date_order].
Proof.
  intros H. unfold dashboard, date_leb. rewrite H. repeat split.
  intros [F|[]]. discriminate F.
Qed.

(** ** The choice of the source *)

Lemma bind_emit {B : Type} (ev : event) (k : unit -> M B) (w : World) :
  bind (emit ev) k w = k tt (logged w [ev]).
Proof. reflexivity. Qed.

Lemma create_sample_data_trace (s e : date) (w : World) :
  trace (snd (create_sample_data s e w))
  = trace w ++ [Call_create_sample_data s e].
Proof.
  unfold create_sample_data, bind, np_random_seed, np_random_normal, lift.
  rewrite !emit_logged. cbv beta iota zeta. cbn [np_random logged trace].
  destruct (random_normal (of_Z 0) (decimal 15 1)
              (List.length (date_range_M s e)) (random_seed 42))
    as [nd s1]. cbn [fst snd np_random trace].
  destruct (random_normal (of_Z 0) (decimal 18 1)
              (List.length (date_range_M s e)) s1) as [nc s2].
  cbn [fst snd np_random trace].
  destruct (stress_loop _ _) as [ex|rates]; reflexivity.
Qed.

(** A non-empty frame of the fetcher has the column [value]. *)
Lemma fetched_value_column (df : DataFrame) :
  df = DataFrame_empty \/ columns df = ["value"%string] ->
  empty df = false ->
  getitem df "value" = inr (column_at 0 df).
Proof.
  intros [->|H] He; [discriminate He|].
  unfold getitem. now rewrite H.
Qed.

(** The loop over the two series: both are fetched, one after the
    other, and the non-empty columns are kept under their names. *)
Lemma fetch_each_series (s e : date) (key : option string) (w : World) :
  exists dfA wA dfB wB,
    fetch_fred_data_api "DRCCLACBS" (strftime_ymd s) (strftime_ymd e) key w
    = (inr dfA, wA) /\
    fetch_fred_data_api "CORCCACBS" (strftime_ymd s) (strftime_ymd e) key wA
    = (inr dfB, wB) /\
    fetch_each SERIES_IDS s e key [] w
    = (inr (kept_columns [(name_delinquency, dfA); (name_chargeoff, dfB)]),
       wB).
Proof.
  destruct (fetch_returns "DRCCLACBS" (strftime_ymd s) (strftime_ymd e) key w)
    as [dfA [wA [EA SA]]].
  destruct (fetch_returns "CORCCACBS" (strftime_ymd s) (strftime_ymd e) key wA)
    as [dfB [wB [EB SB]]].
  exists dfA, wA, dfB, wB. split; [exact EA|]. split; [exact EB|].
  unfold SERIES_IDS, fetch_each, bind, kept_columns. rewrite EA.
  cbn [flat_map fst snd app].
  destruct (empty dfA) eqn:HA; cbn [negb].
  - rewrite EB. destruct (empty dfB) eqn:HB; cbn [negb]; [reflexivity|].
    unfold lift. now rewrite (fetched_value_column dfB SB HB).
  - unfold lift at 1. rewrite (fetched_value_column dfA SA HA), EB.
    destruct (empty dfB) eqn:HB; cbn [negb]; [reflexivity|].
    unfold lift. now rewrite (fetched_value_column dfB SB HB).
Qed.

(** The loading phase with the source ["FRED API"] and a key. *)
Lemma load_data_with_key (s e : date) (key : option string) (w : World) :
  truthy key = true ->
  exists dfA wA dfB wB,
    fetch_fred_data_api "DRCCLACBS" (strftime_ymd s) (strftime_ymd e) key w
    = (inr dfA, wA) /\
    fetch_fred_data_api "CORCCACBS" (strftime_ymd s) (strftime_ymd e) key wA
    = (inr dfB, wB) /\
    load_data s e "FRED API" key w
    = (DataFrame_of_series
         (kept_columns [(name_delinquency, dfA); (name_chargeoff, dfB)]),
       wB).
Proof.
  intros Hk. unfold load_data. rewrite Hk.
  cbn [String.eqb Ascii.eqb Bool.eqb].
  destruct (fetch_each_series s e key w) as [dfA [wA [dfB [wB [EA [EB E]]]]]].
  exists dfA, wA, dfB, wB. split; [exact EA|]. split; [exact EB|].
  unfold bind. rewrite E. destruct (kept_columns _); reflexivity.
Qed.

(** The table made of one fetched column. *)
Lemma frame_of_single_column (name : string) (dates : list date)
      (values : list float64) :
  frame_of_columns (series_index (column_at 0 (value_frame dates values)))
                   [(name, series_values (column_at 0 (value_frame dates values)))]
  = {| columns := [name]; rows := rows (value_frame dates values) |}.
Proof.
  unfold frame_of_columns, value_frame, column_at, series_index, series_values.
  cbn [columns rows map fst snd]. f_equal. rewrite !map_map. cbn [fst snd nth].
  apply nth_error_ext. intros i.
  rewrite !nth_error_map, nth_error_enumerate, nth_error_map.
  destruct (nth_error (combine dates values) i) as [[d v]|] eqn:E;
    [|reflexivity].
  cbn [option_map fst snd]. f_equal. f_equal. f_equal.
  apply nth_error_nth. now rewrite nth_error_map, E.
Qed.

Lemma series_index_column_at (j : nat) (df : DataFrame) :
  series_index (column_at j df) = index df.
Proof. unfold series_index, column_at, index. now rewrite map_map. Qed.

Lemma fetch_result_shape (sid sd ed : string) (key : option string)
      (w w' : World) (df : DataFrame) :
  fetch_fred_data_api sid sd ed key w = (inr df, w') ->
  df = DataFrame_empty \/ columns df = ["value"%string].
Proof.
  intros H. destruct (fetch_returns sid sd ed key w) as [df' [w'' [E S]]].
  rewrite H in E. now injection E as <- <-.
Qed.

(** The table of two fetched columns without a repeated date: their
    outer join on the date. *)
Lemma load_data_two_columns (s e : date) (key : option string)
      (w wA wB : World) (dfA dfB : DataFrame) :
  truthy key = true ->
  fetch_fred_data_api "DRCCLACBS" (strftime_ymd s) (strftime_ymd e) key w
  = (inr dfA, wA) ->
  fetch_fred_data_api "CORCCACBS" (strftime_ymd s) (strftime_ymd e) key wA
  = (inr dfB, wB) ->
  empty dfA = false -> empty dfB = false ->
  is_unique (index dfA) = true -> is_unique (index dfB) = true ->
  exists data,
    load_data s e "FRED API" key w = (inr data, wB) /\
    columns data = [name_delinquency; name_chargeoff] /\
    (forall d, In d (index data)
               <-> In d (index dfA) \/ In d (index dfB)) /\
    (forall d, In d (index dfA) ->
               cell data d name_delinquency = cell dfA d "value") /\
    (forall d, In d (index dfB) ->
               cell data d name_chargeoff = cell dfB d "value") /\
    (forall d, In d (index dfA) -> ~ In d (index dfB) ->
               cell data d name_chargeoff = Some nan) /\
    (forall d, In d (index dfB) -> ~ In d (index dfA) ->
               cell data d name_delinquency = Some nan).
Proof.
  intros Hk EA EB HA HB UA UB.
  destruct (load_data_with_key s e key w Hk)
    as [dfA' [wA' [dfB' [wB' [EA' [EB' L]]]]]].
  rewrite EA in EA'. injection EA' as <- <-.
  rewrite EB in EB'. injection EB' as <- <-.
  pose proof (fetch_result_shape _ _ _ _ _ _ _ EA) as [->|CA];
    [discriminate HA|].
  pose proof (fetch_result_shape _ _ _ _ _ _ _ EB) as [->|CB];
    [discriminate HB|].
  unfold kept_columns in L. cbn [flat_map fst snd app] in L.
  rewrite HA, HB in L. cbn [app] in L.
  destruct (DataFrame_of_two_series name_delinquency name_chargeoff
              (column_at 0 dfA) (column_at 0 dfB) eq_refl)
    as [data [E [C [I V]]]];
    [now rewrite series_index_column_at..|].
  rewrite !series_index_column_at in I.
  exists data. rewrite L, E. split; [reflexivity|]. split; [exact C|].
  split; [exact I|].
  split; [|split; [|split]].
  - intros d Hd. rewrite (lookup_label_cell dfA d CA Hd).
    apply V, I. now left.
  - intros d Hd. rewrite (lookup_label_cell dfB d CB Hd).
    apply V, I. now right.
  - intros d Hd Hn. destruct (V d) as [_ Vb]; [apply I; now left|].
    rewrite Vb. f_equal. apply lookup_label_absent.
    now rewrite series_index_column_at.
  - intros d Hd Hn. destruct (V d) as [Va _]; [apply I; now right|].
    rewrite Va. f_equal. apply lookup_label_absent.
    now rewrite series_index_column_at.
Qed.

(** C4.  With the source ["FRED API"] selected:
    - without a key ([None] or the empty string) the script shows the
      warning and takes its table from [create_sample_data]; the
      loading phase adds to the trace the warning and the call of the
      generator only, so the remote fetcher is not called and no request
      is sent;
    - with a key, the two series are fetched one after the other, the
      second whatever the first returned, and the columns handed to
      [pd.DataFrame] are those of the non-empty results, each under its
      display name.  When no fetched column repeats a date, the table
      that comes out holds them: it is the empty table when both results
      are empty; when one result is empty it is the column of the other,
      alone, under its display name, row for row as fetched; when both
      have rows it has the two display names as columns, and under each,
      on every date of the fetched column, the fetched value.  (A column
      with a repeated date is still the whole table when the other
      result is empty; next to another column [pd.DataFrame] can raise,
      and then there is no table.)
    For a valid range this loading phase is what the script runs before
    it shows the table. *)
Theorem remote_mode_source (s e : date) (key : option string) (w : World) :
  (truthy key = false ->
   load_data s e "FRED API" key w
   = create_sample_data s e (logged w [St_warning warning_no_key])
   /\ trace (snd (load_data s e "FRED API" key w))
      = trace w ++ [St_warning warning_no_key; Call_create_sample_data s e]
   /\ forallb (fun ev => negb (is_remote ev))
              [St_warning warning_no_key; Call_create_sample_data s e] = true)
  /\
  (truthy key = true ->
   exists dfA wA dfB wB,
     fetch_fred_data_api "DRCCLACBS" (strftime_ymd s) (strftime_ymd e) key w
     = (inr dfA, wA) /\
     fetch_fred_data_api "CORCCACBS" (strftime_ymd s) (strftime_ymd e) key wA
     = (inr dfB, wB) /\
     load_data s e "FRED API" key w
     = (DataFrame_of_series
          (kept_columns [(name_delinquency, dfA); (name_chargeoff, dfB)]),
        wB) /\
     (empty dfA = true -> empty dfB = true ->
      load_data s e "FRED API" key w = (inr DataFrame_empty, wB)) /\
     (empty dfA = false -> empty dfB = true ->
      load_data s e "FRED API" key w
      = (inr {| columns := [name_delinquency]; rows := rows dfA |}, wB)) /\
     (empty dfA = true -> empty dfB = false ->
      load_data s e "FRED API" key w
      = (inr {| columns := [name_chargeoff]; rows := rows dfB |}, wB)) /\
     (empty dfA = false -> empty dfB = false ->
      is_unique (index dfA) = true -> is_unique (index dfB) = true ->
      exists data,
        load_data s e "FRED API" key w = (inr data, wB) /\
        columns data = [name_delinquency; name_chargeoff] /\
        (forall d, In d (index dfA) ->
                   cell data d name_delinquency = cell dfA d "value") /\
        (forall d, In d (index dfB) ->
                   cell data d name_chargeoff = cell dfB d "value")))
  /\
  (date_leb s e = true ->
   dashboard s e "FRED API" key w
   = bind (load_data s e "FRED API" key) show_data w).
Proof.
  split; [|split];
    [intros Hk|intros Hk|intros Hd; unfold dashboard; now rewrite Hd].
  - unfold load_data. rewrite Hk. cbn [String.eqb Ascii.eqb Bool.eqb].
    rewrite !bind_emit. split; [reflexivity|].
    split; [|reflexivity].
    rewrite create_sample_data_trace. cbn [logged trace].
    now rewrite <- app_assoc.
  - destruct (load_data_with_key s e key w Hk)
      as [dfA [wA [dfB [wB [EA [EB L]]]]]].
    exists dfA, wA, dfB, wB. split; [exact EA|]. split; [exact EB|].
    split; [exact L|].
    split; [|split; [|split]].
    + intros HA HB. rewrite L. unfold kept_columns. cbn [flat_map fst snd].
      now rewrite HA, HB.
    + intros HA HB. rewrite L. unfold kept_columns. cbn [flat_map fst snd].
      rewrite HA, HB. cbn [app DataFrame_of_series].
      destruct (fetch_result_value_frame _ _ _ _ _ _ _ EA)
        as [->|[dates [values ->]]]; [discriminate HA|].
      now rewrite frame_of_single_column.
    + intros HA HB. rewrite L. unfold kept_columns. cbn [flat_map fst snd].
      rewrite HA, HB. cbn [app DataFrame_of_series].
      destruct (fetch_result_value_frame _ _ _ _ _ _ _ EB)
        as [->|[dates [values ->]]]; [discriminate HB|].
      now rewrite frame_of_single_column.
    + intros HA HB UA UB.
      destruct (load_data_two_columns s e key w wA wB dfA dfB
                  Hk EA EB HA HB UA UB) as [data [E [C [_ [VA [VB _]]]]]].
      exists data. split; [exact E|]. split; [exact C|].
      split; [exact VA|exact VB].
Qed.

(** ** The merged table *)

(** C3.  The merged table of two fetched columns in which no date is
    repeated is their outer join on the date.  When both fetches return
    a non-empty column without a repeated date, the table the script
    builds has the two display names as columns; its dates are
    the dates of either column; on every date of a column it carries
    the value of that column; and on a date one column has and the
    other lacks, the row is there and its cell for the other column is
    NaN.  On the example of the specification, A on {Jan, Feb} and B on
    {Feb, Mar}, the table has the rows Jan, Feb, Mar, with B missing in
    January and A missing in March.  (The fetcher keeps a date the
    service repeats; for such a column that lacks a date of the other,
    [pd.DataFrame] raises and there is no table.) *)
Theorem merge_outer_join :
  (forall (s e : date) (key : option string) (w wA wB : World)
          (dfA dfB : DataFrame),
      truthy key = true ->
      fetch_fred_data_api "DRCCLACBS" (strftime_ymd s) (strftime_ymd e) key w
      = (inr dfA, wA) ->
      fetch_fred_data_api "CORCCACBS" (strftime_ymd s) (strftime_ymd e) key wA
      = (inr dfB, wB) ->
      empty dfA = false -> empty dfB = false ->
      is_unique (index dfA) = true -> is_unique (index dfB) = true ->
      exists data,
        load_data s e "FRED API" key w = (inr data, wB) /\
        columns data = [name_delinquency; name_chargeoff] /\
        (forall d, In d (index data)
                   <-> In d (index dfA) \/ In d (index dfB)) /\
        (forall d, In d (index dfA) ->
                   cell data d name_delinquency = cell dfA d "value") /\
        (forall d, In d (index dfB) ->
                   cell data d name_chargeoff = cell dfB d "value") /\
        (forall d, In d (index dfA) -> ~ In d (index dfB) ->
                   cell data d name_chargeoff = Some nan) /\
        (forall d, In d (index dfB) -> ~ In d (index dfA) ->
                   cell data d name_delinquency = Some nan))
  /\
  (forall (A B : string) (a1 a2 b2 b3 : float64),
      DataFrame_of_series
        [(A, [(Date 2020 1 1, a1); (Date 2020 2 1, a2)]);
         (B, [(Date 2020 2 1, b2); (Date 2020 3 1, b3)])]
      = inr {| columns := [A; B];
               rows := [(Date 2020 1 1, [a1; nan]);
                        (Date 2020 2 1, [a2; b2]);
                        (Date 2020 3 1, [nan; b3])] |}).
Proof.
  split; [|reflexivity].
  intros s e key w wA wB dfA dfB Hk EA EB HA HB UA UB.
  exact (load_data_two_columns s e key w wA wB dfA dfB Hk EA EB HA HB UA UB).
Qed.

(** ** The table on the page *)

(** What the page shows for a non-empty table starts with the chart,
    the recent rows and the heading of the statistics; everything it
    shows renders the table. *)
Lemma show_data_non_empty (data : DataFrame) (w : World) :
  empty data = false ->
  exists rest,
    trace (snd (show_data data w))
    = trace w
        ++ [St_subheader "Gráfico das Taxas de Cartão de Crédito";
            St_plotly_chart data;
            St_subheader "Dados Recentes";
            St_dataframe (sort_index_desc (tail 12 data));
            St_subheader "Estatísticas do Período"]
        ++ rest
    /\ forallb is_display rest = true.
Proof.
  intros He. unfold show_data. rewrite He. cbn [negb].
  rewrite !bind_emit, !logged_logged. cbn [app].
  match goal with
  | |- context [snd (bind ?m ?k ?w0)] =>
      assert (Hrest : emits is_display (bind m k))
  end.
  { apply emits_bind; [apply show_metrics_emits|]. intros _.
    apply emits_bind; [apply emits_emit; reflexivity|]. intros _.
    apply emits_bind; [apply show_metrics_emits|]. intros _.
    apply emits_bind; [apply emits_emit; reflexivity|]. intros _.
    destruct (12 <=? len data)%nat; [apply show_trends_emits|apply emits_ret]. }
  match goal with
  | |- context [snd (bind ?m ?k ?w0)] =>
      destruct (Hrest w0) as [es [E F]]
  end.
  exists (St_columns 2 :: St_markdown "**Taxa de Inadimplência (%)**" :: es).
  rewrite E. cbn [logged trace]. rewrite <- !app_assoc. cbn [app].
  split; [reflexivity|]. cbn [forallb is_display andb]. exact F.
Qed.

Lemma not_in_forallb (Q : event -> bool) (ev : event) (es : list event) :
  forallb Q es = true -> Q ev = false -> ~ In ev es.
Proof.
  intros F H Hin. rewrite forallb_forall in F.
  apply F in Hin. congruence.
Qed.

(** C5.  In an interaction with a valid range whose loading phase
    returns the table [data]:
    - when [data] is empty the run ends normally after the warning that
      the data could not be loaded; nothing the run has added to the
      trace renders a table (no chart, no recent-data table, no
      statistics);
    - when [data] is not empty the chart of [data], the recent-data
      table and the statistics heading are shown, everything shown
      renders the table, and the warning is not shown.
    So the chart and the statistics are shown only for a non-empty
    table. *)
Theorem empty_table_shows_warning (s e : date) (src : string)
        (key : option string) (w w1 : World) (data : DataFrame) :
  date_leb s e = true ->
  load_data s e src key w = (inr data, w1) ->
  (empty data = true ->
   exists loading,
     dashboard s e src key w
     = (inr tt, logged w1 [St_warning warning_no_data]) /\
     trace w1 = trace w ++ loading /\
     forallb (fun ev => negb (is_display ev))
             (loading ++ [St_warning warning_no_data]) = true)
  /\
  (empty data = false ->
   exists loading shown,
     trace w1 = trace w ++ loading /\
     trace (snd (dashboard s e src key w)) = trace w1 ++ shown /\
     In (St_plotly_chart data) shown /\
     In (St_dataframe (sort_index_desc (tail 12 data))) shown /\
     In (St_subheader "Estatísticas do Período") shown /\
     forallb is_display shown = true /\
     ~ In (St_warning warning_no_data) (loading ++ shown)).
Proof.
  intros Hd Hl.
  destruct (load_data_emits s e src key w) as [loading [Et Fl]].
  rewrite Hl in Et. cbn [snd] in Et.
  assert (Dashboard : dashboard s e src key w = show_data data w1).
  { unfold dashboard, bind. now rewrite Hd, Hl. }
  split; intros He.
  - exists loading. split; [|split; [exact Et|]].
    + rewrite Dashboard. unfold show_data. now rewrite He.
    + rewrite forallb_app. apply andb_true_iff. split; [|reflexivity].
      rewrite forallb_forall in Fl. apply forallb_forall. intros ev Hin.
      apply Fl in Hin. destruct ev; try reflexivity; discriminate Hin.
  - destruct (show_data_non_empty data w1 He) as [rest [Es Fr]].
    eexists loading, _. split; [exact Et|].
    split; [rewrite Dashboard; exact Es|].
    split; [cbn; tauto|]. split; [cbn; tauto|]. split; [cbn; tauto|].
    split; [cbn [app forallb is_display andb]; exact Fr|].
    intros Hin. apply in_app_or in Hin. destruct Hin as [Hin|Hin].
    + revert Hin. apply (not_in_forallb is_loading); [exact Fl|reflexivity].
    + revert Hin. apply (not_in_forallb is_display);
        [cbn [app forallb is_display andb]; exact Fr|reflexivity].
Qed.

End ScriptFacts.

(* ================================================================== *)
(** * Runs on the test doubles *)
(* ================================================================== *)

Local Open Scope string_scope.

Lemma mock_normal_length (respond : string -> result Response) :
  forall loc scale n st,
    List.length (fst (@random_normal (Mock.platform respond) loc scale n st)) = n.
Proof. intros loc scale n st. simpl. apply repeat_length. Qed.

Lemma mock_normal_not_nan (respond : string -> result Response) :
  forall loc scale n st,
    is_finite loc = true -> is_finite scale = true ->
    Forall (fun x => is_nan x = false)
           (fst (@random_normal (Mock.platform respond) loc scale n st)).
Proof.
  intros loc scale n st Hl _. simpl. apply Forall_forall. intros x Hx.
  apply repeat_spec in Hx. subst x. now destruct loc.
Qed.

(** A status 503 gives the empty frame. *)
Lemma fetch_soft_failure_witness :
  exists w',
    @fetch_fred_data_api Mock.unavailable "DRCCLACBS" "2020-01-01"
                         "2020-12-31" None (Mock.start Mock.unavailable 0%nat)
    = (inr DataFrame_empty, w')
    /\ columns DataFrame_empty = [] /\ empty DataFrame_empty = true.
Proof.
  apply (@fetch_soft_failure Mock.unavailable "DRCCLACBS" "2020-01-01"
                             "2020-12-31" None).
  right; left. eexists. split; [reflexivity|simpl; lia].
Defined.

(** A successful answer that only carries an error code. *)
Lemma fetch_without_observations_witness :
  @fetch_fred_data_api Mock.error_body "DRCCLACBS" "2020-01-01" "2020-12-31"
                       (Some "k") (Mock.start Mock.error_body 0%nat)
  = (inr DataFrame_empty,
     logged (Mock.start Mock.error_body 0%nat)
            [Call_fetch_fred_data_api "DRCCLACBS" "2020-01-01" "2020-12-31"
                                      (Some "k");
             Http_get (fred_url "DRCCLACBS" "2020-01-01" "2020-12-31"
                                (Some "k"))]).
Proof.
  apply (@fetch_without_observations Mock.error_body "DRCCLACBS" "2020-01-01"
           "2020-12-31" (Some "k") (Mock.start Mock.error_body 0%nat)
           {| status_code := 200;
              response_json := inr (JObject [("error_code", JInt 400)]) |}
           [("error_code", JInt 400)]); reflexivity.
Defined.

(** The example of the specification: two rows, 3.5 and NaN. *)
Lemma fetch_parses_observations_witness :
  @fetch_fred_data_api Mock.example "DRCCLACBS" "2020-01-01" "2020-03-01"
                       (Some "k") (Mock.start Mock.example 0%nat)
  = (inr {| columns := ["value"];
            rows := [(Date 2020 1 1, [decimal 35 1]);
                     (Date 2020 2 1, [nan])] |},
     logged (Mock.start Mock.example 0%nat)
            [Call_fetch_fred_data_api "DRCCLACBS" "2020-01-01" "2020-03-01"
                                      (Some "k");
             Http_get (fred_url "DRCCLACBS" "2020-01-01" "2020-03-01"
                                (Some "k"))])
  /\
  exists df w',
    @fetch_fred_data_api Mock.example "DRCCLACBS" "2020-01-01" "2020-03-01"
                         (Some "k") (Mock.start Mock.example 0%nat)
    = (inr df, w') /\
    exists d, nth_error (rows df) 1 = Some (d, [nan]).
Proof.
  pose proof (@fetch_parses_observations Mock.example "DRCCLACBS"
                "2020-01-01" "2020-03-01" (Some "k")
                (Mock.start Mock.example 0%nat)
                {| status_code := 200;
                   response_json := inr Mock.example_body |}
                eq_refl eq_refl) as [General Example].
  split; [apply Example; reflexivity|].
  destruct (General
              [("observations", JArray (map JObject
                  [[("date", JString "2020-01-01"); ("value", JString "3.5")];
                   [("date", JString "2020-02-01"); ("value", JString ".")]]))]
              [[("date", JString "2020-01-01"); ("value", JString "3.5")];
               [("date", JString "2020-02-01"); ("value", JString ".")]]
              eq_refl eq_refl)
    as [df [w' [E [_ [_ Missing]]]]].
  - repeat constructor.
    + exists "2020-01-01", (Date 2020 1 1), (JString "3.5"). repeat split.
    + exists "2020-02-01", (Date 2020 2 1), (JString "."). repeat split.
  - exists df, w'. split; [exact E|].
    destruct (Missing 1%nat
                [("date", JString "2020-02-01"); ("value", JString ".")]
                (JString ".") eq_refl eq_refl eq_refl) as [d [Hd _]].
    exists d. exact Hd.
Defined.

(** Three months of 2008: every cell is at least 0.5. *)
Lemma create_sample_data_floor_witness :
  exists df,
    fst (@create_sample_data Mock.example (Date 2008 1 1) (Date 2008 3 31)
                             (Mock.start Mock.example 7%nat)) = inr df /\
    columns df = [name_delinquency; name_chargeoff] /\
    Forall (fun row =>
              Forall (fun x => leb floor_rate x = true
                               /\ ltb x (of_Z 0) = false) (snd row))
           (rows df).
Proof.
  apply (@create_sample_data_floor Mock.example (Date 2008 1 1) (Date 2008 3 31)
           (Mock.start Mock.example 7%nat)
           (mock_normal_length _) (mock_normal_not_nan _)).
Defined.

(** December 2007 to January 2008: the second row is adjusted, the first
    is not. *)
Lemma create_sample_data_stress_witness :
  exists df,
    fst (@create_sample_data Mock.example (Date 2007 12 1) (Date 2008 1 31)
                             (Mock.start Mock.example 7%nat)) = inr df /\
    rows df
    = [(Date 2007 12 31,
        [maximum (add base_delinquency (of_Z 0)) floor_rate;
         maximum (add base_chargeoff (of_Z 0)) floor_rate]);
       (Date 2008 1 31,
        [maximum (add (add base_delinquency (of_Z 0)) (decimal 25 1)) floor_rate;
         maximum (add (add base_chargeoff (of_Z 0)) (decimal 30 1)) floor_rate])].
Proof.
  destruct (@create_sample_data_stress Mock.example (Date 2007 12 1)
              (Date 2008 1 31) (Mock.start Mock.example 7%nat)
              (mock_normal_length _)) as [df [E [I R]]].
  exists df. split; [exact E|].
  destruct (R 0%nat (Date 2007 12 31) (of_Z 0) (of_Z 0) eq_refl eq_refl eq_refl)
    as [a0 [b0 [R0 [_ [_ N0]]]]].
  destruct (R 1%nat (Date 2008 1 31) (of_Z 0) (of_Z 0) eq_refl eq_refl eq_refl)
    as [a1 [b1 [R1 [S1 _]]]].
  destruct N0 as [-> ->]; [simpl; lia|simpl; lia|].
  destruct S1 as [-> ->]; [simpl; lia|].
  assert (L : List.length (rows df) = 2%nat).
  { unfold index in I. rewrite <- (length_map fst (rows df)), I.
    reflexivity. }
  destruct (rows df) as [|r0 [|r1 [|r2 rs]]]; try discriminate L.
  simpl in R0, R1. injection R0 as ->. injection R1 as ->. reflexivity.
Defined.

(** The example of the specification: 2020-03-01 to 2020-01-01. *)
Lemma invalid_range_no_fetch_witness :
  date_compare (Date 2020 3 1) (Date 2020 1 1) = Gt /\
  @dashboard Mock.example (Date 2020 3 1) (Date 2020 1 1) "FRED API" (Some "k")
             (Mock.start Mock.example 0%nat)
  = (inr tt, logged (Mock.start Mock.example 0%nat)
                    [St_error error_date_order]).
Proof.
  split; [reflexivity|].
  apply (@invalid_range_no_fetch Mock.example (Date 2020 3 1) (Date 2020 1 1)
           "FRED API" (Some "k") (Mock.start Mock.example 0%nat)).
  reflexivity.
Defined.

(** Remote mode without a key; with a key while the service is down,
    while it serves the second series only, and while it serves both. *)
Lemma remote_mode_source_witness :
  (truthy (Some "") = false /\
   trace (snd (@load_data Mock.example (Date 2020 1 1) (Date 2020 3 31)
                          "FRED API" (Some "")
                          (Mock.start Mock.example 0%nat)))
   = [St_warning warning_no_key;
      Call_create_sample_data (Date 2020 1 1) (Date 2020 3 31)])
  /\
  (truthy (Some "k") = true /\
   @load_data Mock.unavailable (Date 2020 1 1) (Date 2020 3 31)
              "FRED API" (Some "k") (Mock.start Mock.unavailable 0%nat)
   = (inr DataFrame_empty,
      logged (Mock.start Mock.unavailable 0%nat)
        [Call_fetch_fred_data_api "DRCCLACBS" "2020-01-01" "2020-03-31"
                                  (Some "k");
         Http_get (fred_url "DRCCLACBS" "2020-01-01" "2020-03-31" (Some "k"));
         Call_fetch_fred_data_api "CORCCACBS" "2020-01-01" "2020-03-31"
                                  (Some "k");
         Http_get (fred_url "CORCCACBS" "2020-01-01" "2020-03-31" (Some "k"))]))
  /\
  (exists wB,
      @load_data Stub.second_only (Date 2020 1 1) (Date 2020 3 31)
                 "FRED API" (Some "k") (Mock.start Stub.second_only 0%nat)
      = (inr {| columns := [name_chargeoff];
                rows := [(Date 2020 2 1, [decimal 35 1]);
                         (Date 2020 3 1, [decimal 45 1])] |}, wB))
  /\
  (exists data wB,
      @load_data Mock.two_series (Date 2020 1 1) (Date 2020 3 31)
                 "FRED API" (Some "k") (Mock.start Mock.two_series 0%nat)
      = (inr data, wB) /\
      columns data = [name_delinquency; name_chargeoff] /\
      cell data (Date 2020 1 1) name_delinquency = Some (decimal 15 1) /\
      cell data (Date 2020 2 1) name_delinquency = Some (decimal 25 1) /\
      cell data (Date 2020 2 1) name_chargeoff = Some (decimal 35 1) /\
      cell data (Date 2020 3 1) name_chargeoff = Some (decimal 45 1)).
Proof.
  split; [|split; [|split]].
  - split; [reflexivity|].
    apply (proj1 (@remote_mode_source Mock.example (Date 2020 1 1)
                    (Date 2020 3 31) (Some "")
                    (Mock.start Mock.example 0%nat)) eq_refl).
  - split; [reflexivity|].
    destruct (proj1 (proj2 (@remote_mode_source Mock.unavailable
                              (Date 2020 1 1) (Date 2020 3 31) (Some "k")
                              (Mock.start Mock.unavailable 0%nat))) eq_refl)
      as [dfA [wA [dfB [wB [EA [EB [_ [L _]]]]]]]].
    injection EA as <- <-. injection EB as <- <-.
    apply L; reflexivity.
  - destruct (proj1 (proj2 (@remote_mode_source Stub.second_only
                              (Date 2020 1 1) (Date 2020 3 31) (Some "k")
                              (Mock.start Stub.second_only 0%nat))) eq_refl)
      as [dfA [wA [dfB [wB [EA [EB [_ [_ [_ [L _]]]]]]]]]].
    vm_compute in EA. injection EA as <- <-.
    vm_compute in EB. injection EB as <- <-.
    eexists. rewrite L; reflexivity.
  - destruct (proj1 (proj2 (@remote_mode_source Mock.two_series
                              (Date 2020 1 1) (Date 2020 3 31) (Some "k")
                              (Mock.start Mock.two_series 0%nat))) eq_refl)
      as [dfA [wA [dfB [wB [EA [EB [_ [_ [_ [_ L]]]]]]]]]].
    vm_compute in EA. injection EA as <- <-.
    vm_compute in EB. injection EB as <- <-.
    destruct (L eq_refl eq_refl eq_refl eq_refl) as [data [E [C [VA VB]]]].
    exists data. eexists. split; [exact E|]. split; [exact C|].
    split; [|split; [|split]].
    + rewrite (VA (Date 2020 1 1)); [reflexivity|simpl; tauto].
    + rewrite (VA (Date 2020 2 1)); [reflexivity|simpl; tauto].
    + rewrite (VB (Date 2020 2 1)); [reflexivity|simpl; tauto].
    + rewrite (VB (Date 2020 3 1)); [reflexivity|simpl; tauto].
Defined.

(** An interaction whose fetches all fail, and one that shows the example. *)
Lemma empty_table_shows_warning_witness :
  (exists loading,
      @dashboard Mock.unavailable (Date 2020 1 1) (Date 2020 3 31) "FRED API"
                 (Some "k") (Mock.start Mock.unavailable 0%nat)
      = (inr tt,
         logged (snd (@load_data Mock.unavailable (Date 2020 1 1)
                                 (Date 2020 3 31) "FRED API" (Some "k")
                                 (Mock.start Mock.unavailable 0%nat)))
                [St_warning warning_no_data]) /\
      trace (snd (@load_data Mock.unavailable (Date 2020 1 1)
                             (Date 2020 3 31) "FRED API" (Some "k")
                             (Mock.start Mock.unavailable 0%nat)))
      = (trace (Mock.start Mock.unavailable 0%nat) ++ loading)%list /\
      forallb (fun ev => negb (is_display ev))
              (loading ++ [St_warning warning_no_data])%list = true)
  /\
  (exists data loading shown,
      fst (@load_data Mock.example (Date 2020 1 1) (Date 2020 3 31) "FRED API"
                      (Some "k") (Mock.start Mock.example 0%nat))
      = inr data /\
      empty data = false /\
      trace (snd (@dashboard Mock.example (Date 2020 1 1) (Date 2020 3 31)
                             "FRED API" (Some "k")
                             (Mock.start Mock.example 0%nat)))
      = ((trace (Mock.start Mock.example 0%nat) ++ loading) ++ shown)%list /\
      In (St_plotly_chart data) shown /\
      ~ In (St_warning warning_no_data) (loading ++ shown)%list).
Proof.
  split.
  - apply (proj1 (@empty_table_shows_warning Mock.unavailable (Date 2020 1 1)
                    (Date 2020 3 31) "FRED API" (Some "k")
                    (Mock.start Mock.unavailable 0%nat) _ DataFrame_empty
                    eq_refl eq_refl) eq_refl).
  - destruct (@load_data Mock.example (Date 2020 1 1) (Date 2020 3 31)
                "FRED API" (Some "k") (Mock.start Mock.example 0%nat))
      as [[ex|data] w1] eqn:E; [discriminate E|].
    assert (He : empty data = false).
    { injection E as <- _. reflexivity. }
    destruct (proj2 (@empty_table_shows_warning Mock.example (Date 2020 1 1)
                       (Date 2020 3 31) "FRED API" (Some "k")
                       (Mock.start Mock.example 0%nat) w1 data eq_refl E) He)
      as [loading [shown [T1 [T2 [C [_ [_ [_ N]]]]]]]].
    exists data, loading, shown. split; [reflexivity|]. split; [exact He|].
    split; [now rewrite T2, T1|]. split; [exact C|exact N].
Defined.

(** The example of the specification, through the whole loading phase:
    series A on January and February, series B on February and March. *)
Lemma merge_outer_join_witness :
  exists wB,
    @load_data Mock.two_series (Date 2020 1 1) (Date 2020 3 31) "FRED API"
               (Some "k") (Mock.start Mock.two_series 0%nat)
    = (inr {| columns := [name_delinquency; name_chargeoff];
              rows := [(Date 2020 1 1, [decimal 15 1; nan]);
                       (Date 2020 2 1, [decimal 25 1; decimal 35 1]);
                       (Date 2020 3 1, [nan; decimal 45 1])] |}, wB).
Proof.
  destruct (@fetch_fred_data_api Mock.two_series "DRCCLACBS"
              (strftime_ymd (Date 2020 1 1)) (strftime_ymd (Date 2020 3 31))
              (Some "k") (Mock.start Mock.two_series 0%nat))
    as [rA wA] eqn:EA.
  destruct (@fetch_fred_data_api Mock.two_series "CORCCACBS"
              (strftime_ymd (Date 2020 1 1)) (strftime_ymd (Date 2020 3 31))
              (Some "k") wA)
    as [rB wB] eqn:EB.
  assert (HA : rA = inr (value_frame [Date 2020 1 1; Date 2020 2 1]
                                     [decimal 15 1; decimal 25 1])).
  { vm_compute in EA. injection EA as <- _. reflexivity. }
  assert (HB : rB = inr (value_frame [Date 2020 2 1; Date 2020 3 1]
                                     [decimal 35 1; decimal 45 1])).
  { vm_compute in EA. injection EA as _ <-. vm_compute in EB.
    injection EB as <- _. reflexivity. }
  subst rA rB.
  destruct (proj1 (@merge_outer_join Mock.two_series) (Date 2020 1 1)
              (Date 2020 3 31) (Some "k") (Mock.start Mock.two_series 0%nat)
              wA wB _ _ eq_refl EA EB eq_refl eq_refl eq_refl eq_refl)
    as [data [L _]].
  exists wB. rewrite L. f_equal. f_equal.
  unfold load_data in L. cbn [truthy String.eqb Ascii.eqb Bool.eqb] in L.
  unfold bind in L. cbn [SERIES_IDS fetch_each] in L. unfold bind in L.
  rewrite EA in L. cbn [negb empty value_frame columns rows map combine] in L.
  unfold lift at 1 in L. cbn [getitem] in L.
  vm_compute in L. injection L as <- _. reflexivity.
Defined.

(** C4 as the specification words it, for each fetch that returns a
    non-empty column, fails when a column repeats a date.  With a key,
    the service answers the first series with January and the second
    with February twice: both fetches return a non-empty column, and the
    loading phase raises instead of returning a table with the two
    columns; the exception ends the script. *)
Lemma remote_repeated_date_no_table :
  truthy (Some "k") = true /\
  exists dfA wA dfB wB,
    @fetch_fred_data_api Mock.repeated_second "DRCCLACBS" "2020-01-01"
                         "2020-03-31" (Some "k")
                         (Mock.start Mock.repeated_second 0%nat)
    = (inr dfA, wA) /\
    @fetch_fred_data_api Mock.repeated_second "CORCCACBS" "2020-01-01"
                         "2020-03-31" (Some "k") wA
    = (inr dfB, wB) /\
    empty dfA = false /\ empty dfB = false /\
    rows dfB = [(Date 2020 2 1, [decimal 35 1]); (Date 2020 2 1, [decimal 45 1])] /\
    @load_data Mock.repeated_second (Date 2020 1 1) (Date 2020 3 31) "FRED API"
               (Some "k") (Mock.start Mock.repeated_second 0%nat)
    = (inl (ValueError "cannot reindex on an axis with duplicate labels"), wB) /\
    fst (@dashboard Mock.repeated_second (Date 2020 1 1) (Date 2020 3 31)
                    "FRED API" (Some "k")
                    (Mock.start Mock.repeated_second 0%nat))
    = inl (ValueError "cannot reindex on an axis with duplicate labels") /\
    ~ (exists data,
          fst (@load_data Mock.repeated_second (Date 2020 1 1) (Date 2020 3 31)
                          "FRED API" (Some "k")
                          (Mock.start Mock.repeated_second 0%nat))
          = inr data /\
          has_column name_delinquency data = true /\
          has_column name_chargeoff data = true).
Proof.
  split; [reflexivity|].
  do 4 eexists.
  split; [vm_compute; reflexivity|].
  split; [vm_compute; reflexivity|].
  split; [reflexivity|].
  split; [reflexivity|].
  split; [vm_compute; reflexivity|].
  split; [vm_compute; reflexivity|].
  split; [vm_compute; reflexivity|].
  intros [data [E _]]. vm_compute in E. discriminate E.
Qed.

(** C3 as the specification words it, for every pair of fetched columns,
    fails on a column with a repeated date.  The service answers the
    first series with January twice and the second with February: both
    fetches return a non-empty column, the first with its two January
    rows, and [pd.DataFrame] raises instead of giving a table on
    {January, February}; the exception ends the script. *)
Lemma merge_repeated_date_raises :
  exists dfA wA dfB wB,
    @fetch_fred_data_api Mock.repeated_date "DRCCLACBS" "2020-01-01"
                         "2020-03-31" (Some "k")
                         (Mock.start Mock.repeated_date 0%nat)
    = (inr dfA, wA) /\
    @fetch_fred_data_api Mock.repeated_date "CORCCACBS" "2020-01-01"
                         "2020-03-31" (Some "k") wA
    = (inr dfB, wB) /\
    rows dfA = [(Date 2020 1 1, [decimal 15 1]); (Date 2020 1 1, [decimal 25 1])] /\
    rows dfB = [(Date 2020 2 1, [decimal 35 1])] /\
    @load_data Mock.repeated_date (Date 2020 1 1) (Date 2020 3 31) "FRED API"
               (Some "k") (Mock.start Mock.repeated_date 0%nat)
    = (inl (ValueError "cannot reindex on an axis with duplicate labels"), wB) /\
    fst (@dashboard Mock.repeated_date (Date 2020 1 1) (Date 2020 3 31)
                    "FRED API" (Some "k") (Mock.start Mock.repeated_date 0%nat))
    = inl (ValueError "cannot reindex on an axis with duplicate labels") /\
    ~ (exists data,
          fst (@load_data Mock.repeated_date (Date 2020 1 1) (Date 2020 3 31)
                          "FRED API" (Some "k")
                          (Mock.start Mock.repeated_date 0%nat))
          = inr data /\
          forall d, In d (index data) <-> In d (index dfA) \/ In d (index dfB)).
Proof.
  do 4 eexists.
  split; [vm_compute; reflexivity|].
  split; [vm_compute; reflexivity|].
  split; [vm_compute; reflexivity|].
  split; [vm_compute; reflexivity|].
  split; [vm_compute; reflexivity|].
  split; [vm_compute; reflexivity|].
  intros [data [E _]]. vm_compute in E. discriminate E.
Qed.

Local Close Scope string_scope.

(* ================================================================== *)
(** * More on the remote fetcher *)
(* ================================================================== *)

Section FetchMore.

Context {P : Platform}.
Local Open Scope run_scope.

Variables (series_id start_date end_date : string) (api_key : option string).

Local Abbreviation url := (fred_url series_id start_date end_date api_key).
Local Abbreviation called :=
  (Call_fetch_fred_data_api series_id start_date end_date api_key).

Lemma dict_get_absent (k : string) (m : list (string * json)) :
  dict_get k m = None -> ~ In k (map fst m).
Proof.
  unfold dict_get. induction m as [|[k' v'] m IH]; simpl; [tauto|].
  destruct (String.eqb k' k) eqn:E; simpl; [discriminate|].
  intros H [F|F]; [|now apply IH].
  subst. now rewrite String.eqb_refl in E.
Qed.

(** A key no record has names no column. *)
Lemma getitem_object_absent (k : string) (records : list (list (string * json))) :
  (forall rec, In rec records -> dict_get k rec = None) ->
  getitem_object (ObjectFrame_of_records records) k = inl (KeyError k).
Proof.
  intros H.
  assert (N : ~ In k (record_keys records)).
  { intros F. apply record_keys_In in F. destruct F as [rec [F1 F2]].
    exact (dict_get_absent k rec (H rec F1) F2). }
  unfold getitem_object, ObjectFrame_of_records.
  induction (record_keys records) as [|k' ks IH]; simpl; [reflexivity|].
  destruct (String.eqb k' k) eqn:E.
  - apply String.eqb_eq in E. subst. exfalso. apply N. now left.
  - apply IH. intros F. apply N. now right.
Qed.

(** The [try] block on a successful answer that carries a list of
    records under ["observations"]. *)
Lemma try_on_records (w : World) (r : Response)
      (members : list (string * json))
      (records : list (list (string * json))) :
  requests_get url = inr r ->
  status_code r = 200 ->
  response_json r = inr (JObject members) ->
  dict_get "observations" members = Some (JArray (map JObject records)) ->
  fetch_fred_data_api_try series_id start_date end_date api_key w
  = (match getitem_object (ObjectFrame_of_records records) "date" with
     | inl ex => inl ex
     | inr date_column =>
         match to_datetime date_column with
         | inl ex => inl ex
         | inr dates =>
             match getitem_object (ObjectFrame_of_records records) "value" with
             | inl ex => inl ex
             | inr value_column =>
                 inr (value_frame dates (to_numeric_coerce value_column))
             end
         end
     end, logged w [Http_get url]).
Proof.
  intros H Hs Hj Hm.
  unfold fetch_fred_data_api_try, requests_get_M, bind, lift, ret.
  rewrite emit_logged, H, Hs, Hj. simpl.
  rewrite (dict_get_has _ _ _ Hm), Hm. simpl.
  rewrite as_records_objects.
  destruct (getitem_object _ "date") as [ex|dc]; [reflexivity|].
  destruct (to_datetime dc) as [ex|ds]; [reflexivity|].
  destruct (getitem_object _ "value") as [ex|vc]; reflexivity.
Qed.

(** A call of the fetcher, from the outcome of its [try] block. *)
Lemma fetch_run (w : World) :
  fetch_fred_data_api series_id start_date end_date api_key w =
  (match fst (fetch_fred_data_api_try series_id start_date end_date api_key w) with
   | inl _ => inr DataFrame_empty
   | inr df => inr df
   end,
   logged w ([called; Http_get url]
               ++ fetch_errors (fst (fetch_fred_data_api_try
                                       series_id start_date end_date api_key w)))).
Proof.
  rewrite fetch_of_try, try_ignores_trace.
  destruct (fst (fetch_fred_data_api_try _ _ _ _ w)) as [ex|df].
  - now rewrite logged_logged.
  - reflexivity.
Qed.

(** X1.  The fetcher never raises, whatever the service answers and
    whatever the libraries do with the answer: it returns a frame, which is
    empty or has the single column [value].  It contacts nothing but the
    URL built from its arguments, and that at most once; it leaves the
    global generator as it was; and it shows at most one element, an error
    message, and only when it returns the empty frame. *)
Theorem fetch_never_raises (w : World) :
  exists df es,
    fetch_fred_data_api series_id start_date end_date api_key w
    = (inr df, logged w es) /\
    (df = DataFrame_empty \/ exists dates values, df = value_frame dates values) /\
    forallb (is_fetch_event url) es = true /\
    (List.length (filter is_request es) <= 1)%nat /\
    (List.length (filter is_error es) <= 1)%nat /\
    (forall text, In (St_error text) es -> df = DataFrame_empty).
Proof.
  rewrite fetch_run.
  destruct (fetch_fred_data_api_try series_id start_date end_date api_key w)
    as [[ex|df] w'] eqn:E; cbn [fst fetch_errors app].
  - exists DataFrame_empty. eexists. split; [reflexivity|].
    split; [now left|].
    cbn [forallb is_fetch_event filter is_request is_error List.length andb].
    rewrite String.eqb_refl. repeat split; try lia. 
  - exists df. eexists. split; [reflexivity|].
    split; [exact (try_result_value_frame series_id start_date end_date api_key
                     w w' df E)|].
    cbn [forallb is_fetch_event filter is_request is_error List.length andb].
    rewrite String.eqb_refl. repeat split; try lia.
    intros text [F|[F|[]]]; discriminate F.
Qed.

(** X2.  The fetcher returns rows only for an answer with status 200 whose
    decoded body is an object with the key ["observations"]: after any
    other answer (another status, a body that does not decode, a list, a
    string or a scalar as body, an object without the key) the frame is
    empty. *)
Theorem fetch_rows_need_observations (w w' : World) (df : DataFrame) :
  fetch_fred_data_api series_id start_date end_date api_key w = (inr df, w') ->
  empty df = false ->
  exists r members payload,
    requests_get url = inr r /\ status_code r = 200 /\
    response_json r = inr (JObject members) /\
    dict_get "observations" members = Some payload.
Proof.
  rewrite fetch_of_try.
  unfold fetch_fred_data_api_try, requests_get_M, bind, lift, ret.
  rewrite emit_logged.
  destruct (requests_get url) as [ex|r] eqn:Hr;
    [intros [= <- _]; discriminate|].
  destruct (status_code r =? 200) eqn:Hs; [|intros [= <- _]; discriminate].
  apply Z.eqb_eq in Hs.
  destruct (response_json r) as [ex|data] eqn:Hj;
    [intros [= <- _]; discriminate|].
  destruct data as [| b | n | x | s | items | members]; simpl;
    try (intros [= <- _]; discriminate).
  - destruct (str_contains "observations" s); intros [= <- _]; discriminate.
  - destruct (existsb _ items); intros [= <- _]; discriminate.
  - destruct (dict_has "observations" members);
      [|intros [= <- _]; discriminate].
    destruct (dict_get "observations" members) as [payload|] eqn:Hm;
      [|intros [= <- _]; discriminate].
    intros _ _. now exists r, members, payload.
Qed.

(** X3.  A successful answer whose records carry no ["date"] key, the
    empty list of observations among them, gives the empty frame, and the
    page shows the error message of the missing column ['date']. *)
Theorem fetch_records_without_date (w : World) (r : Response)
        (members : list (string * json))
        (records : list (list (string * json))) :
  requests_get url = inr r ->
  status_code r = 200 ->
  response_json r = inr (JObject members) ->
  dict_get "observations" members = Some (JArray (map JObject records)) ->
  (forall rec, In rec records -> dict_get "date" rec = None) ->
  fetch_fred_data_api series_id start_date end_date api_key w
  = (inr DataFrame_empty,
     logged w [called; Http_get url;
               St_error "Erro ao buscar dados via API: 'date'"]).
Proof.
  intros H Hs Hj Hm Hd. rewrite fetch_of_try.
  rewrite (try_on_records _ r members records H Hs Hj Hm).
  rewrite (getitem_object_absent "date" records Hd).
  rewrite !logged_logged. reflexivity.
Qed.

(** X4.  A successful answer whose records all carry an ISO date and none
    a ["value"] key gives the empty frame, and the page shows the error
    message of the missing column ['value']. *)
Theorem fetch_records_without_value (w : World) (r : Response)
        (members : list (string * json))
        (records : list (list (string * json))) (dates : list date) :
  requests_get url = inr r ->
  status_code r = 200 ->
  response_json r = inr (JObject members) ->
  dict_get "observations" members = Some (JArray (map JObject records)) ->
  records <> [] ->
  iso_dates (map (dict_get "date") records) = Some dates ->
  (forall rec, In rec records -> dict_get "value" rec = None) ->
  fetch_fred_data_api series_id start_date end_date api_key w
  = (inr DataFrame_empty,
     logged w [called; Http_get url;
               St_error "Erro ao buscar dados via API: 'value'"]).
Proof.
  intros H Hs Hj Hm Hne Hd Hv. rewrite fetch_of_try.
  rewrite (try_on_records _ r members records H Hs Hj Hm).
  rewrite getitem_object_records.
  - unfold to_datetime. rewrite Hd.
    rewrite (getitem_object_absent "value" records Hv).
    rewrite !logged_logged. reflexivity.
  - destruct records as [|rec rs]; [now destruct Hne|].
    exists rec. split; [now left|]. simpl in Hd.
    destruct (dict_get "date" rec) as [[| | | |s| |]|] eqn:E;
      try discriminate Hd.
    eapply dict_get_key, E.
Qed.

(** X5.  On a successful answer whose records all carry an ISO date, and
    one of them at least a ["value"] key, the frame has one row per
    record, in order: the date of the record and its value read as a
    number.  A record without the key ["value"] keeps its row, with NaN. *)
Theorem fetch_rows_of_records (w : World) (r : Response)
        (members : list (string * json))
        (records : list (list (string * json))) (dates : list date) :
  requests_get url = inr r ->
  status_code r = 200 ->
  response_json r = inr (JObject members) ->
  dict_get "observations" members = Some (JArray (map JObject records)) ->
  iso_dates (map (dict_get "date") records) = Some dates ->
  (exists rec, In rec records /\ dict_get "value" rec <> None) ->
  fetch_fred_data_api series_id start_date end_date api_key w
  = (inr {| columns := ["value"%string];
            rows := map (fun dr => (fst dr,
                                    [to_numeric_cell (dict_get "value" (snd dr))]))
                        (combine dates records) |},
     logged w [called; Http_get url])
  /\ List.length dates = List.length records
  /\ forall i d rec,
       nth_error dates i = Some d ->
       nth_error records i = Some rec ->
       dict_get "value" rec = None ->
       nth_error (map (fun dr => (fst dr,
                                  [to_numeric_cell (dict_get "value" (snd dr))]))
                      (combine dates records)) i
       = Some (d, [nan]).
Proof.
  intros H Hs Hj Hm Hd [rec0 [Hin Hv]].
  assert (L : List.length dates = List.length records).
  { clear - Hd. revert dates Hd.
    induction records as [|rec rs IH]; intros dates Hd; simpl in Hd.
    - now injection Hd as <-.
    - destruct (dict_get "date" rec) as [[| | | |s| |]|]; try discriminate Hd.
      destruct (parse_iso_date s); [|discriminate Hd].
      destruct (iso_dates (map (dict_get "date") rs)) as [ds|];
        [|discriminate Hd].
      injection Hd as <-. simpl. f_equal. now apply IH. }
  split; [|split; [exact L|]].
  - rewrite fetch_of_try.
    rewrite (try_on_records _ r members records H Hs Hj Hm).
    rewrite !getitem_object_records.
    + unfold to_datetime. rewrite Hd, logged_logged. cbn [app].
      f_equal. f_equal. unfold value_frame. f_equal.
      unfold to_numeric_coerce. clear - L. revert dates L.
      induction records as [|rec rs IH]; intros [|d ds] L;
        simpl in *; try discriminate; [reflexivity|].
      f_equal. apply IH. now injection L.
    + exists rec0. split; [exact Hin|].
      destruct (dict_get "value" rec0) as [v|] eqn:E; [|now destruct Hv].
      eapply dict_get_key, E.
    + destruct records as [|rec rs]; [destruct Hin|].
      exists rec. split; [now left|]. simpl in Hd.
      destruct (dict_get "date" rec) as [[| | | |s| |]|] eqn:E;
        try discriminate Hd.
      eapply dict_get_key, E.
  - intros i d rec Hi Hr Hn.
    rewrite nth_error_map, nth_error_combine, Hi, Hr. simpl.
    now rewrite Hn.
Qed.

(** X6.  A non-empty frame of the fetcher has the single column [value]
    and one cell in every row, so reading [series_data['value']] never
    raises. *)
Theorem fetch_value_column (w w' : World) (df : DataFrame) :
  fetch_fred_data_api series_id start_date end_date api_key w = (inr df, w') ->
  empty df = false ->
  columns df = ["value"%string] /\
  Forall (fun row => List.length (snd row) = 1%nat) (rows df) /\
  getitem df "value" = inr (map (fun row => (fst row, hd nan (snd row))) (rows df)).
Proof.
  intros E He.
  destruct (fetch_result_value_frame series_id start_date end_date api_key w w' df E) as [->|[dates [values ->]]];
    [discriminate He|].
  split; [reflexivity|]. split.
  - unfold value_frame. cbn [rows]. apply Forall_forall. intros row Hin.
    apply in_map_iff in Hin. now destruct Hin as [dv [<- _]].
  - unfold getitem, value_frame, column_at. cbn [columns rows column_position].
    rewrite String.eqb_refl, !map_map. reflexivity.
Qed.

End FetchMore.

Local Open Scope string_scope.

(** The example body gives rows, so the answer was an object with
    observations. *)
Lemma fetch_rows_need_observations_witness :
  exists r members payload,
    @requests_get Mock.example
      (fred_url "DRCCLACBS" "2020-01-01" "2020-03-01" (Some "k")) = inr r /\
    status_code r = 200 /\
    response_json r = inr (JObject members) /\
    dict_get "observations" members = Some payload.
Proof.
  apply (@fetch_rows_need_observations Mock.example "DRCCLACBS" "2020-01-01"
           "2020-03-01" (Some "k") (Mock.start Mock.example 0%nat)
           (logged (Mock.start Mock.example 0%nat)
              [Call_fetch_fred_data_api "DRCCLACBS" "2020-01-01" "2020-03-01"
                                        (Some "k");
               Http_get (fred_url "DRCCLACBS" "2020-01-01" "2020-03-01"
                                  (Some "k"))])
           {| columns := ["value"];
              rows := [(Date 2020 1 1, [decimal 35 1]);
                       (Date 2020 2 1, [nan])] |});
    reflexivity.
Defined.

(** An empty list of observations. *)
Lemma fetch_records_without_date_witness :
  @fetch_fred_data_api Stub.no_observation "DRCCLACBS" "2020-01-01"
                       "2020-03-01" None (Mock.start Stub.no_observation 0%nat)
  = (inr DataFrame_empty,
     logged (Mock.start Stub.no_observation 0%nat)
       [Call_fetch_fred_data_api "DRCCLACBS" "2020-01-01" "2020-03-01" None;
        Http_get (fred_url "DRCCLACBS" "2020-01-01" "2020-03-01" None);
        St_error "Erro ao buscar dados via API: 'date'"]).
Proof.
  apply (@fetch_records_without_date Stub.no_observation "DRCCLACBS"
           "2020-01-01" "2020-03-01" None (Mock.start Stub.no_observation 0%nat)
           {| status_code := 200; response_json := inr (Mock.body []) |}
           [("observations", JArray [])] []
           eq_refl eq_refl eq_refl eq_refl).
  intros rec [].
Defined.

(** Two dated records without a value. *)
Lemma fetch_records_without_value_witness :
  @fetch_fred_data_api Stub.no_value "DRCCLACBS" "2020-01-01"
                       "2020-03-01" None (Mock.start Stub.no_value 0%nat)
  = (inr DataFrame_empty,
     logged (Mock.start Stub.no_value 0%nat)
       [Call_fetch_fred_data_api "DRCCLACBS" "2020-01-01" "2020-03-01" None;
        Http_get (fred_url "DRCCLACBS" "2020-01-01" "2020-03-01" None);
        St_error "Erro ao buscar dados via API: 'value'"]).
Proof.
  apply (@fetch_records_without_value Stub.no_value "DRCCLACBS"
           "2020-01-01" "2020-03-01" None (Mock.start Stub.no_value 0%nat)
           {| status_code := 200;
              response_json :=
                inr (Mock.body [Stub.dated "2020-01-01"; Stub.dated "2020-02-01"]) |}
           [("observations",
             JArray (map JObject [[("date", JString "2020-01-01")];
                                  [("date", JString "2020-02-01")]]))]
           [[("date", JString "2020-01-01")]; [("date", JString "2020-02-01")]]
           [Date 2020 1 1; Date 2020 2 1]
           eq_refl eq_refl eq_refl eq_refl).
  - discriminate.
  - reflexivity.
  - intros rec [<-|[<-|[]]]; reflexivity.
Defined.

(** The second record has no value: its row is kept, with NaN. *)
Lemma fetch_rows_of_records_witness :
  @fetch_fred_data_api Stub.one_value "DRCCLACBS" "2020-01-01"
                       "2020-03-01" None (Mock.start Stub.one_value 0%nat)
  = (inr {| columns := ["value"];
            rows := [(Date 2020 1 1, [decimal 35 1]);
                     (Date 2020 2 1, [nan])] |},
     logged (Mock.start Stub.one_value 0%nat)
       [Call_fetch_fred_data_api "DRCCLACBS" "2020-01-01" "2020-03-01" None;
        Http_get (fred_url "DRCCLACBS" "2020-01-01" "2020-03-01" None)]).
Proof.
  apply (@fetch_rows_of_records Stub.one_value "DRCCLACBS"
           "2020-01-01" "2020-03-01" None (Mock.start Stub.one_value 0%nat)
           {| status_code := 200;
              response_json :=
                inr (Mock.body [Mock.observation "2020-01-01" "3.5";
                                Stub.dated "2020-02-01"]) |}
           [("observations",
             JArray (map JObject [[("date", JString "2020-01-01");
                                   ("value", JString "3.5")];
                                  [("date", JString "2020-02-01")]]))]
           [[("date", JString "2020-01-01"); ("value", JString "3.5")];
            [("date", JString "2020-02-01")]]
           [Date 2020 1 1; Date 2020 2 1]
           eq_refl eq_refl eq_refl eq_refl eq_refl).
  exists [("date", JString "2020-01-01"); ("value", JString "3.5")].
  split; [now left|discriminate].
Defined.

(** The frame of the example has the column [value]. *)
Lemma fetch_value_column_witness :
  getitem {| columns := ["value"];
             rows := [(Date 2020 1 1, [decimal 35 1]); (Date 2020 2 1, [nan])] |}
          "value"
  = inr [(Date 2020 1 1, decimal 35 1); (Date 2020 2 1, nan)].
Proof.
  apply (@fetch_value_column Mock.example "DRCCLACBS" "2020-01-01"
           "2020-03-01" (Some "k") (Mock.start Mock.example 0%nat)
           (logged (Mock.start Mock.example 0%nat)
              [Call_fetch_fred_data_api "DRCCLACBS" "2020-01-01" "2020-03-01"
                                        (Some "k");
               Http_get (fred_url "DRCCLACBS" "2020-01-01" "2020-03-01"
                                  (Some "k"))])
           {| columns := ["value"];
              rows := [(Date 2020 1 1, [decimal 35 1]);
                       (Date 2020 2 1, [nan])] |});
    reflexivity.
Defined.

Local Close Scope string_scope.

(* ================================================================== *)
(** * The months of the synthetic table *)
(* ================================================================== *)

From Stdlib Require Import Sorting.Sorted Sorting.Permutation.

Section RangeFacts.

Context {P : Platform}.

Lemma days_in_month_bounds (y m : Z) : 28 <= days_in_month y m <= 31.
Proof.
  unfold days_in_month.
  destruct (m =? 2); [destruct (is_leap y); lia|].
  destruct ((m =? 4) || (m =? 6) || (m =? 9) || (m =? 11)); lia.
Qed.

Lemma month_end_fields (k : Z) :
  year (month_end k) = k / 12 /\
  month (month_end k) = k mod 12 + 1 /\
  1 <= month (month_end k) <= 12.
Proof.
  unfold month_end. simpl. pose proof (Z.mod_pos_bound k 12). lia.
Qed.

Lemma month_end_is_month_end (k : Z) : is_month_end (month_end k) = true.
Proof.
  unfold is_month_end, valid_date, month_end. simpl.
  pose proof (Z.mod_pos_bound k 12 ltac:(lia)).
  pose proof (days_in_month_bounds (k / 12) (k mod 12 + 1)).
  rewrite Z.eqb_refl.
  repeat (apply andb_true_iff; split); try reflexivity; apply Z.leb_le; lia.
Qed.

(** A month end is the end of its own month. *)
Lemma month_end_of_index (d : date) :
  is_month_end d = true -> month_end (month_index d) = d.
Proof.
  unfold is_month_end, valid_date, month_end, month_index.
  destruct d as [y m dd]. cbn [year month day]. intros H.
  repeat (apply andb_true_iff in H; destruct H as [H ?]).
  apply Z.leb_le in H. apply Z.leb_le in H2. apply Z.eqb_eq in H0.
  assert (E1 : (12 * y + (m - 1)) / 12 = y)
    by (symmetry; apply (Z.div_unique _ 12 y (m - 1)); lia).
  assert (E2 : (12 * y + (m - 1)) mod 12 = m - 1)
    by (symmetry; apply (Z.mod_unique _ 12 y (m - 1)); lia).
  rewrite E1, E2. replace (m - 1 + 1) with m by lia. now subst dd.
Qed.

Lemma month_end_increasing (k k' : Z) :
  k < k' -> date_ltb (month_end k) (month_end k') = true.
Proof.
  intros H. unfold date_ltb, date_compare, month_end. simpl.
  pose proof (Z.div_mod k 12 ltac:(lia)).
  pose proof (Z.div_mod k' 12 ltac:(lia)).
  pose proof (Z.mod_pos_bound k 12 ltac:(lia)).
  pose proof (Z.mod_pos_bound k' 12 ltac:(lia)).
  destruct (Z.compare_spec (k / 12) (k' / 12)) as [E|E|E];
    [|reflexivity|lia].
  destruct (Z.compare_spec (k mod 12 + 1) (k' mod 12 + 1)) as [E'|E'|E'];
    [lia|reflexivity|lia].
Qed.

(** The order of two dates with valid months follows their months. *)
Lemma date_leb_month_index (a b : date) :
  1 <= month a <= 12 -> 1 <= month b <= 12 ->
  date_leb a b = true -> month_index a <= month_index b.
Proof.
  unfold date_leb, date_compare, month_index. intros Ha Hb.
  destruct (Z.compare_spec (year a) (year b)) as [E|E|E];
    [|lia|discriminate].
  destruct (Z.compare_spec (month a) (month b)) as [E'|E'|E'];
    [lia|lia|discriminate].
Qed.

Lemma valid_date_month (d : date) :
  valid_date d = true -> 1 <= month d <= 12.
Proof.
  unfold valid_date. intros H.
  repeat (apply andb_true_iff in H; destruct H as [H ?]).
  apply Z.leb_le in H. apply Z.leb_le in H2. lia.
Qed.

Lemma is_month_end_valid (d : date) :
  is_month_end d = true -> valid_date d = true.
Proof. unfold is_month_end. intros H. now apply andb_true_iff in H. Qed.

(** The index [pd.date_range] gives holds the month ends of the range,
    and nothing else. *)
Lemma date_range_M_In (s e d : date) :
  valid_date s = true -> valid_date e = true ->
  In d (date_range_M s e)
  <-> is_month_end d = true /\ date_leb s d = true /\ date_leb d e = true.
Proof.
  intros Vs Ve. unfold date_range_M. rewrite filter_In, in_map_iff. split.
  - intros [[i [<- _]] H]. apply andb_true_iff in H.
    split; [apply month_end_is_month_end|exact H].
  - intros [Hm [Hs He]]. split; [|now rewrite Hs, He].
    pose proof (valid_date_month s Vs) as Ms.
    pose proof (valid_date_month e Ve) as Me.
    pose proof (valid_date_month d (is_month_end_valid d Hm)) as Md.
    pose proof (date_leb_month_index s d Ms Md Hs) as L1.
    pose proof (date_leb_month_index d e Md Me He) as L2.
    exists (Z.to_nat (month_index d - month_index s)). split.
    + rewrite Z2Nat.id by lia.
      replace (month_index s + (month_index d - month_index s))
        with (month_index d) by lia.
      now apply month_end_of_index.
    + apply in_seq. lia.
Qed.

Lemma StronglySorted_map_seq (g : nat -> date) (n : nat) :
  (forall i j, (i < j)%nat -> date_ltb (g i) (g j) = true) ->
  forall a, StronglySorted (fun x y => date_ltb x y = true) (map g (seq a n)).
Proof.
  intros Hg. induction n as [|n IH]; intros a; simpl; constructor.
  - apply IH.
  - apply Forall_forall. intros x Hx. apply in_map_iff in Hx.
    destruct Hx as [j [<- Hj]]. apply in_seq in Hj. apply Hg. lia.
Qed.

Lemma StronglySorted_filter (f : date -> bool) (l : list date) :
  StronglySorted (fun x y => date_ltb x y = true) l ->
  StronglySorted (fun x y => date_ltb x y = true) (filter f l).
Proof.
  induction 1 as [|x l Hl IH Hx]; simpl; [constructor|].
  destruct (f x); [|exact IH]. constructor; [exact IH|].
  rewrite Forall_forall in *. intros y Hy. apply filter_In in Hy.
  now apply Hx.
Qed.

(** The month ends come in increasing order, each once. *)
Lemma date_range_M_sorted (s e : date) :
  StronglySorted (fun x y => date_ltb x y = true) (date_range_M s e).
Proof.
  unfold date_range_M. apply StronglySorted_filter, StronglySorted_map_seq.
  intros i j Hij. apply month_end_increasing. lia.
Qed.

(** X7.  The table of [create_sample_data] has one row per month end of
    the range: for valid start and end dates of the years 1678 to 2261
    (where [pd.date_range] returns), a date labels a row exactly
    when it is the last day of a month and lies between the start and the
    end, both included; the rows come in increasing order of date, so no
    month appears twice; and every row has its two cells. *)
Theorem create_sample_data_months (s e : date) (w : World) :
  (forall loc scale n st,
      List.length (fst (random_normal loc scale n st)) = n) ->
  valid_date s = true -> valid_date e = true ->
  in_timestamp_years s = true -> in_timestamp_years e = true ->
  exists df,
    fst (create_sample_data s e w) = inr df /\
    columns df = [name_delinquency; name_chargeoff] /\
    (forall d, In d (index df)
               <-> is_month_end d = true /\ date_leb s d = true
                   /\ date_leb d e = true) /\
    StronglySorted (fun x y => date_ltb x y = true) (index df) /\
    Forall (fun row => List.length (snd row) = 2%nat) (rows df).
Proof.
  intros Hlen Vs Ve _ _. rewrite (create_sample_data_run s e w Hlen).
  cbv zeta. cbn [fst]. eexists. split; [reflexivity|]. split; [reflexivity|].
  assert (I : index (sample_frame (date_range_M s e)
                 (fst (random_normal (of_Z 0) (decimal 15 1)
                         (List.length (date_range_M s e)) (random_seed 42)))
                 (fst (random_normal (of_Z 0) (decimal 18 1)
                         (List.length (date_range_M s e))
                         (snd (random_normal (of_Z 0) (decimal 15 1)
                                 (List.length (date_range_M s e))
                                 (random_seed 42))))))
              = date_range_M s e).
  { pose proof (Hlen (of_Z 0) (decimal 15 1) (List.length (date_range_M s e))
                     (random_seed 42)) as Ld.
    pose proof (Hlen (of_Z 0) (decimal 18 1) (List.length (date_range_M s e))
                     (snd (random_normal (of_Z 0) (decimal 15 1)
                             (List.length (date_range_M s e))
                             (random_seed 42)))) as Lc.
    unfold index, sample_frame. cbn [rows]. rewrite map_map.
    set (nd := fst (random_normal (of_Z 0) (decimal 15 1) _ (random_seed 42))) in *.
    set (nc := fst (random_normal (of_Z 0) (decimal 18 1) _ _)) in *.
    clearbody nd nc. revert nd nc Ld Lc.
    induction (date_range_M s e) as [|d ds IH]; intros [|x nd] [|y nc] Ld Lc;
      simpl in *; try discriminate; [reflexivity|].
    f_equal. apply IH; congruence. }
  rewrite I. split; [intros d; now apply date_range_M_In|].
  split; [apply date_range_M_sorted|].
  unfold sample_frame. cbn [rows]. apply Forall_forall. intros row Hin.
  apply in_map_iff in Hin. destruct Hin as [[d [x y]] [<- _]]. reflexivity.
Qed.

End RangeFacts.

(** The first quarter of 2020 has three month ends. *)
Lemma create_sample_data_months_witness :
  valid_date (Date 2020 1 15) = true /\ valid_date (Date 2020 3 31) = true /\
  in_timestamp_years (Date 2020 1 15) = true /\
  in_timestamp_years (Date 2020 3 31) = true /\
  exists df,
    fst (@create_sample_data Mock.example (Date 2020 1 15) (Date 2020 3 31)
                             (Mock.start Mock.example 0%nat)) = inr df /\
    In (Date 2020 2 29) (index df) /\ ~ In (Date 2020 2 28) (index df).
Proof.
  split; [reflexivity|]. split; [reflexivity|].
  split; [reflexivity|]. split; [reflexivity|].
  destruct (@create_sample_data_months Mock.example (Date 2020 1 15)
              (Date 2020 3 31) (Mock.start Mock.example 0%nat)
              (mock_normal_length _) eq_refl eq_refl eq_refl eq_refl)
    as [df [E [_ [I _]]]].
  exists df. split; [exact E|]. split.
  - apply I. repeat split.
  - intros F. apply I in F. destruct F as [F _]. discriminate F.
Defined.

(* ================================================================== *)
(** * The page of a table *)
(* ================================================================== *)

Section PageFacts.

Context {P : Platform}.
Local Open Scope run_scope.

Lemma logged_nil (w : World) : logged w [] = w.
Proof. destruct w. unfold logged. simpl. now rewrite app_nil_r. Qed.

Lemma has_column_getitem (df : DataFrame) (name : string) :
  has_column name df = true ->
  exists j, column_position name (columns df) = Some j
            /\ getitem df name = inr (column_at j df).
Proof.
  unfold has_column, getitem.
  induction (columns df) as [|c cs IH]; simpl; [discriminate|].
  rewrite (String.eqb_sym name c).
  destruct (String.eqb c name); simpl.
  - intros _. now exists O.
  - intros H. destruct (IH H) as [j [Hj _]]. exists (S j).
    rewrite Hj. simpl. now split.
Qed.

Lemma no_column_getitem (df : DataFrame) (name : string) :
  has_column name df = false -> getitem df name = inl (KeyError name).
Proof.
  unfold has_column, getitem.
  induction (columns df) as [|c cs IH]; simpl; [reflexivity|].
  rewrite (String.eqb_sym name c).
  destruct (String.eqb c name); simpl; [discriminate|].
  intros H. specialize (IH H).
  destruct (column_position name cs); [discriminate IH|reflexivity].
Qed.

(** The metrics of a column: nothing when the column is not there, an
    [IndexError] when it has no value, the four metrics otherwise. *)
Lemma show_metrics_run (data : DataFrame) (name : string) (w : World) :
  show_metrics data name w =
  if all_missing data name
  then (inl (IndexError "single positional indexer is out-of-bounds"), w)
  else (inr tt, logged w (metric_events data name)).
Proof.
  unfold show_metrics, all_missing, metric_events.
  destruct (has_column name data) eqn:H.
  - destruct (has_column_getitem data name H) as [j [_ G]]. rewrite G.
    unfold bind, lift, iloc_last.
    destruct (dropna (column_at j data)) as [|p col] eqn:D.
    + reflexivity.
    + simpl rev.
      destruct (rev col ++ [p]) as [|q l] eqn:R;
        [now destruct (rev col)|].
      rewrite !emit_logged, !logged_logged. reflexivity.
  - rewrite (no_column_getitem data name H). unfold ret.
    now rewrite logged_nil.
Qed.

(** The trend lines never raise. *)
Lemma show_trends_run (names : list string) (data : DataFrame) (w : World) :
  show_trends names (recent_window data) (previous_window data) w
  = (inr tt, logged w (flat_map (trend_event data) names)).
Proof.
  revert w. induction names as [|col rest IH]; intros w; simpl.
  - unfold ret. now rewrite logged_nil.
  - unfold bind at 1. unfold trend_event at 1.
    destruct (has_column col (recent_window data)) eqn:Hr; simpl.
    + destruct (has_column_getitem _ _ Hr) as [j [_ Gr]]. rewrite Gr.
      destruct (has_column col (previous_window data)) eqn:Hp; simpl.
      * destruct (has_column_getitem _ _ Hp) as [j' [_ Gp]]. rewrite Gp.
        unfold bind, lift. rewrite emit_logged, IH, logged_logged.
        reflexivity.
      * rewrite (no_column_getitem _ _ Hp). unfold ret.
        now rewrite IH.
    + rewrite (no_column_getitem _ _ Hr). unfold ret. now rewrite IH.
Qed.

(** The page of a non-empty table, as far as the script gets. *)
Lemma show_data_run (data : DataFrame) (w : World) :
  empty data = false ->
  show_data data w =
  let head_events :=
    [St_subheader "Gráfico das Taxas de Cartão de Crédito";
     St_plotly_chart data;
     St_subheader "Dados Recentes";
     St_dataframe (sort_index_desc (tail 12 data));
     St_subheader "Estatísticas do Período";
     St_columns 2;
     St_markdown "**Taxa de Inadimplência (%)**"] in
  if all_missing data name_delinquency then
    (inl (IndexError "single positional indexer is out-of-bounds"),
     logged w head_events)
  else if all_missing data name_chargeoff then
    (inl (IndexError "single positional indexer is out-of-bounds"),
     logged w (head_events ++ metric_events data name_delinquency
                 ++ [St_markdown "**Taxa de Baixa por Prejuízo (%)**"]))
  else (inr tt, logged w (page_events data)).
Proof.
  intros He. unfold show_data. rewrite He. cbn [negb].
  rewrite !bind_emit, !logged_logged. cbn [app]. cbv zeta.
  unfold bind at 1. rewrite show_metrics_run.
  destruct (all_missing data name_delinquency); [reflexivity|].
  rewrite bind_emit, !logged_logged.
  unfold bind at 1. rewrite show_metrics_run.
  destruct (all_missing data name_chargeoff).
  - cbn [app]. now rewrite <- ?app_assoc.
  - rewrite bind_emit, !logged_logged. unfold page_events, trend_events.
    destruct (12 <=? len data)%nat.
    + fold (recent_window data). fold (previous_window data).
      rewrite show_trends_run, logged_logged. cbn [app].
      now rewrite <- ?app_assoc.
    + unfold ret. cbn [app]. now rewrite <- ?app_assoc, ?app_nil_r.
Qed.

End PageFacts.

Section PageProperties.

Context {P : Platform}.

Lemma metric_events_metric (data : DataFrame) (name : string) (ev : event) :
  In ev (metric_events data name) -> exists label value, ev = St_metric label value.
Proof.
  unfold metric_events.
  destruct (getitem data name) as [ex|column]; [intros []|].
  destruct (iloc_last (dropna column)) as [ex|current]; [intros []|].
  simpl. intros [<-|[<-|[<-|[<-|[]]]]]; eauto.
Qed.

(** The values of a column of a window are the window of its values. *)
Lemma getitem_rows (cols : list string) (rws : list (date * list float64))
      (col : string) (column : Series) :
  getitem {| columns := cols; rows := rws |} col = inr column ->
  exists j,
    column_position col cols = Some j /\
    series_values column = map (fun r => nth j (snd r) nan) rws.
Proof.
  unfold getitem, column_at, series_values. cbn [columns rows].
  destruct (column_position col cols) as [j|]; [|discriminate].
  intros [= <-]. exists j. split; [reflexivity|]. now rewrite map_map.
Qed.

Lemma lastn_map {A B : Type} (f : A -> B) (n : nat) (l : list A) :
  lastn n (map f l) = map f (lastn n l).
Proof. unfold lastn. now rewrite length_map, skipn_map. Qed.

Lemma lastn_12_of_24 {A : Type} (l : list A) :
  (24 <= List.length l)%nat ->
  firstn 12 (lastn 24 l) ++ lastn 12 l = lastn 24 l.
Proof.
  intros H. unfold lastn.
  replace (List.length l - 12)%nat with (12 + (List.length l - 24))%nat by lia.
  rewrite <- skipn_skipn. apply firstn_skipn.
Qed.

(** A trend line of the page compares two windows of its column. *)
Lemma trend_line_windows (data : DataFrame) (col : string)
      (r p : list float64) :
  In (St_write_trend col r p) (page_events data) ->
  (12 <= len data)%nat /\
  exists column,
    getitem data col = inr column /\
    r = lastn 12 (series_values column) /\
    p = if (24 <=? len data)%nat
        then firstn 12 (lastn 24 (series_values column))
        else firstn 12 (series_values column).
Proof.
  unfold page_events. rewrite !in_app_iff. intros H.
  destruct H as [H|[H|[H|[H|[H|H]]]]].
  - simpl in H. repeat (destruct H as [H|H]; [discriminate H|]). destruct H.
  - apply metric_events_metric in H. destruct H as [l [v H]]. discriminate H.
  - destruct H as [H|[]]. discriminate H.
  - apply metric_events_metric in H. destruct H as [l [v H]]. discriminate H.
  - destruct H as [H|[]]. discriminate H.
  - unfold trend_events in H.
    destruct (12 <=? len data)%nat eqn:L; [|destruct H].
    apply Nat.leb_le in L. split; [exact L|].
    apply in_flat_map in H. destruct H as [c [_ H]].
    unfold trend_event in H.
    destruct (getitem (recent_window data) c) as [ex|rc] eqn:Gr; [destruct H|].
    destruct (getitem (previous_window data) c) as [ex|pc] eqn:Gp; [destruct H|].
    destruct H as [H|[]]. injection H as -> <- <-.
    unfold recent_window, tail in Gr.
    destruct (getitem_rows _ _ _ _ Gr) as [j [Hj Vr]].
    exists (column_at j data). split; [unfold getitem; now rewrite Hj|].
    assert (V : series_values (column_at j data)
                = map (fun r => nth j (snd r) nan) (rows data)).
    { unfold series_values, column_at. now rewrite map_map. }
    rewrite V, Vr. split; [rewrite lastn_map; reflexivity|].
    unfold previous_window in Gp.
    destruct (24 <=? len data)%nat.
    + unfold iloc_24_12 in Gp.
      destruct (getitem_rows _ _ _ _ Gp) as [j' [Hj' Vp]].
      rewrite Hj in Hj'. injection Hj' as <-.
      now rewrite Vp, lastn_map, firstn_map.
    + unfold head in Gp.
      destruct (getitem_rows _ _ _ _ Gp) as [j' [Hj' Vp]].
      rewrite Hj in Hj'. injection Hj' as <-.
      now rewrite Vp, firstn_map.
Qed.

(** X8.  The page of a non-empty table is completed exactly when neither
    of the two named columns is there with nothing but NaN; the script
    then ends normally, after the chart, the recent rows, the metrics of
    the columns that are there and the trend lines. *)
Theorem show_data_completes (data : DataFrame) (w : World) :
  empty data = false ->
  (fst (show_data data w) = inr tt
   <-> all_missing data name_delinquency = false
       /\ all_missing data name_chargeoff = false)
  /\ (fst (show_data data w) = inr tt ->
      snd (show_data data w) = logged w (page_events data)).
Proof.
  intros He. rewrite (show_data_run data w He). cbv zeta.
  destruct (all_missing data name_delinquency);
    [split; [split; [discriminate|intros [F _]; discriminate F]|discriminate]|].
  destruct (all_missing data name_chargeoff);
    [split; [split; [discriminate|intros [_ F]; discriminate F]|discriminate]|].
  split; [split; [now split|reflexivity]|reflexivity].
Qed.

(** X9.  When one of the two named columns of a non-empty table holds
    nothing but NaN, the script raises [IndexError] while it shows the
    statistics: the chart and the recent rows are on the page, the trend
    analysis is not. *)
Theorem show_data_all_missing (data : DataFrame) (w : World) :
  empty data = false ->
  all_missing data name_delinquency = true
  \/ all_missing data name_chargeoff = true ->
  exists shown,
    show_data data w
    = (inl (IndexError "single positional indexer is out-of-bounds"),
       logged w shown) /\
    In (St_plotly_chart data) shown /\
    In (St_dataframe (sort_index_desc (tail 12 data))) shown /\
    ~ In (St_subheader "Análise de Tendência") shown.
Proof.
  intros He H. rewrite (show_data_run data w He). cbv zeta.
  destruct (all_missing data name_delinquency) eqn:Hd.
  - eexists. split; [reflexivity|]. split; [simpl; tauto|].
    split; [simpl; tauto|].
    simpl. intros F.
    repeat (destruct F as [F|F]; [discriminate F|]). exact F.
  - destruct H as [H|H]; [discriminate H|]. rewrite H.
    eexists. split; [reflexivity|]. split; [simpl; tauto|].
    split; [simpl; tauto|].
    rewrite !in_app_iff. intros [F|[F|F]].
    + simpl in F. repeat (destruct F as [F|F]; [discriminate F|]). exact F.
    + apply metric_events_metric in F. destruct F as [l [v F]]. discriminate F.
    + destruct F as [F|[]]. discriminate F.
Qed.

(** X10.  The trend analysis of a completed page.  A trend line is shown
    only for a table of 12 rows or more, and compares the last 12 values
    of its column with 12 earlier ones.  With 24 rows or more the earlier
    window is the 12 values just before the last 12.  With fewer rows it
    is the first 12 values, which overlap the last 12: on a table of
    exactly 12 rows a column is compared with itself. *)
Theorem trend_windows (data : DataFrame) (w w' : World) (col : string)
        (r p : list float64) :
  empty data = false ->
  show_data data w = (inr tt, w') ->
  In (St_write_trend col r p) (page_events data) ->
  w' = logged w (page_events data) /\
  (12 <= len data)%nat /\
  exists column,
    getitem data col = inr column /\
    r = lastn 12 (series_values column) /\
    (len data = 12%nat -> p = r) /\
    ((len data < 24)%nat -> p = firstn 12 (series_values column)) /\
    ((24 <= len data)%nat ->
     p ++ r = lastn 24 (series_values column)
     /\ List.length p = 12%nat /\ List.length r = 12%nat).
Proof.
  intros He Hrun Hin. rewrite (show_data_run data w He) in Hrun.
  cbv zeta in Hrun.
  destruct (all_missing data name_delinquency); [discriminate Hrun|].
  destruct (all_missing data name_chargeoff); [discriminate Hrun|].
  injection Hrun as <-. split; [reflexivity|].
  destruct (trend_line_windows data col r p Hin) as [L [column [G [Hr Hp]]]].
  split; [exact L|]. exists column. split; [exact G|]. split; [exact Hr|].
  assert (Len : List.length (series_values column) = len data).
  { destruct data as [cols rws].
    destruct (getitem_rows cols rws col column G) as [j [_ V]].
    rewrite V. unfold len. cbn [rows]. apply length_map. }
  unfold lastn in *. rewrite Len in *.
  split; [|split].
  - intros E. rewrite E in *. cbn [Nat.leb Nat.sub] in Hp.
    rewrite Hp, Hr. cbn [Nat.sub skipn]. apply firstn_all2. lia.
  - intros E. apply Nat.leb_gt in E. now rewrite E in Hp.
  - intros E. pose proof E as E'. apply Nat.leb_le in E'. rewrite E' in Hp.
    rewrite Hp, Hr. split; [|split].
    + replace (len data - 12)%nat with (12 + (len data - 24))%nat by lia.
      rewrite <- skipn_skipn. apply firstn_skipn.
    + rewrite length_firstn, length_skipn. lia.
    + rewrite length_skipn. lia.
Qed.

Lemma date_compare_antisym (a b : date) :
  date_compare b a = CompOpp (date_compare a b).
Proof.
  unfold date_compare.
  rewrite (Z.compare_antisym (year a) (year b)).
  rewrite (Z.compare_antisym (month a) (month b)).
  rewrite (Z.compare_antisym (day a) (day b)).
  destruct (year a ?= year b); simpl; try reflexivity.
  destruct (month a ?= month b); simpl; reflexivity.
Qed.

Lemma not_ltb_leb (a b : date) : date_ltb a b = false -> date_leb b a = true.
Proof.
  unfold date_ltb, date_leb. rewrite (date_compare_antisym a b).
  destruct (date_compare a b); simpl; congruence.
Qed.

Lemma ltb_leb (a b : date) : date_ltb a b = true -> date_leb a b = true.
Proof. unfold date_ltb, date_leb. destruct (date_compare a b); congruence. Qed.

Lemma insert_desc_perm (r : date * list float64) (l : list (date * list float64)) :
  Permutation (r :: l) (insert_desc r l).
Proof.
  induction l as [|x l IH]; simpl; [reflexivity|].
  destruct (date_ltb (fst r) (fst x)); [|reflexivity].
  rewrite perm_swap. now apply perm_skip.
Qed.

Lemma insert_desc_sorted (r : date * list float64)
      (l : list (date * list float64)) :
  Sorted (fun x y => date_leb (fst y) (fst x) = true) l ->
  Sorted (fun x y => date_leb (fst y) (fst x) = true) (insert_desc r l).
Proof.
  induction l as [|x l IH]; simpl; intros H.
  - repeat constructor.
  - apply Sorted_inv in H. destruct H as [Hs Hh].
    destruct (date_ltb (fst r) (fst x)) eqn:E.
    + constructor; [now apply IH|].
      destruct l as [|y l]; simpl.
      * constructor. now apply ltb_leb.
      * destruct (date_ltb (fst r) (fst y)).
        -- constructor. now inversion Hh.
        -- constructor. now apply ltb_leb.
    + constructor; [now constructor|]. constructor. now apply not_ltb_leb.
Qed.

(** X11.  The recent-data table of the page holds the last rows of the
    table, 12 at most, under the same columns, ordered from the newest
    date to the oldest. *)
Theorem recent_table_newest_first (data : DataFrame) (w : World) :
  empty data = false ->
  exists shown,
    snd (show_data data w) = logged w shown /\
    In (St_dataframe (sort_index_desc (tail 12 data))) shown /\
    columns (sort_index_desc (tail 12 data)) = columns data /\
    Permutation (lastn 12 (rows data)) (rows (sort_index_desc (tail 12 data))) /\
    Sorted (fun x y => date_leb (fst y) (fst x) = true)
           (rows (sort_index_desc (tail 12 data))) /\
    len (sort_index_desc (tail 12 data)) = Nat.min 12 (len data).
Proof.
  intros He.
  assert (Srt : Sorted (fun x y => date_leb (fst y) (fst x) = true)
                       (rows (sort_index_desc (tail 12 data)))).
  { unfold sort_index_desc, tail. cbn [rows].
    induction (lastn 12 (rows data)) as [|r l IH]; simpl; [constructor|].
    now apply insert_desc_sorted. }
  assert (Perm : Permutation (lastn 12 (rows data))
                             (rows (sort_index_desc (tail 12 data)))).
  { unfold sort_index_desc, tail. cbn [rows].
    induction (lastn 12 (rows data)) as [|r l IH]; simpl; [constructor|].
    eapply Permutation_trans; [apply perm_skip, IH|apply insert_desc_perm]. }
  assert (Shown : exists shown,
             snd (show_data data w) = logged w shown /\
             In (St_dataframe (sort_index_desc (tail 12 data))) shown).
  { rewrite (show_data_run data w He). cbv zeta.
    destruct (all_missing data name_delinquency);
      [eexists; split; [reflexivity|simpl; tauto]|].
    destruct (all_missing data name_chargeoff);
      [eexists; split; [reflexivity|simpl; tauto]|].
    eexists. split; [reflexivity|]. unfold page_events. simpl. tauto. }
  destruct Shown as [shown [S1 S2]]. exists shown.
  split; [exact S1|]. split; [exact S2|]. split; [reflexivity|].
  split; [exact Perm|]. split; [exact Srt|].
  unfold len. rewrite <- (Permutation_length Perm).
  unfold lastn. rewrite length_skipn. lia.
Qed.

End PageProperties.

(* ================================================================== *)
(** * More on the script *)
(* ================================================================== *)

Section ScriptMore.

Context {P : Platform}.
Local Open Scope run_scope.

Ltac quiet_step :=
  first [ apply emits_ret | apply emits_lift | apply emits_seed
        | apply emits_normal
        | apply emits_emit; reflexivity
        | apply emits_bind; [|intros ?] ].

(** The page never sends a request. *)
Lemma show_data_quiet (data : DataFrame) :
  emits (fun ev => negb (is_remote ev)) (show_data data).
Proof.
  unfold show_data. destruct (negb (empty data)); [|quiet_step].
  repeat (apply emits_bind; [apply emits_emit; reflexivity|intros _]).
  assert (M : forall name,
             emits (fun ev => negb (is_remote ev)) (show_metrics data name)).
  { intros name. unfold show_metrics.
    destruct (has_column name data); repeat quiet_step. }
  apply emits_bind; [apply M|intros _].
  apply emits_bind; [apply emits_emit; reflexivity|intros _].
  apply emits_bind; [apply M|intros _].
  apply emits_bind; [apply emits_emit; reflexivity|intros _].
  destruct (12 <=? len data)%nat; [|quiet_step].
  generalize (tail 12 data)
             (if (24 <=? len data)%nat then iloc_24_12 data else head 12 data).
  intros recent previous.
  induction (columns data) as [|col rest IH]; simpl; [quiet_step|].
  apply emits_bind; [|intros _; apply IH].
  destruct (has_column col recent && has_column col previous);
    repeat quiet_step.
Qed.

Lemma create_sample_data_quiet (s e : date) :
  emits (fun ev => negb (is_remote ev)) (create_sample_data s e).
Proof. unfold create_sample_data. repeat quiet_step. Qed.

(** X12.  In the demonstration mode, and in the remote mode without a
    key, the script never calls the remote fetcher and never sends a
    request, whatever the dates and the key. *)
Theorem no_request_offline (s e : date) (src : string) (key : option string)
        (w : World) :
  String.eqb src "FRED API" = false \/ truthy key = false ->
  exists es,
    trace (snd (dashboard s e src key w)) = trace w ++ es /\
    forallb (fun ev => negb (is_remote ev)) es = true.
Proof.
  intros H.
  assert (D : emits (fun ev => negb (is_remote ev)) (dashboard s e src key)).
  { unfold dashboard. destruct (date_leb s e); [|quiet_step].
    apply emits_bind; [|intros data; apply show_data_quiet].
    unfold load_data.
    destruct (String.eqb src "FRED API"); [|apply create_sample_data_quiet].
    destruct H as [H|H]; [discriminate H|]. rewrite H.
    apply emits_bind; [quiet_step|intros _; apply create_sample_data_quiet]. }
  exact (D w).
Qed.

(** The trace of the loading phase in the remote mode with a key, when
    both bodies of the fetcher run. *)
Lemma load_data_remote_trace (s e : date) (key : option string) (w : World) :
  truthy key = true ->
  snd (load_data s e "FRED API" key w) =
  logged w
    ([Call_fetch_fred_data_api "DRCCLACBS" (strftime_ymd s) (strftime_ymd e) key;
      Http_get (fred_url "DRCCLACBS" (strftime_ymd s) (strftime_ymd e) key)]
       ++ fetch_errors (fst (fetch_fred_data_api_try "DRCCLACBS"
                               (strftime_ymd s) (strftime_ymd e) key w))
       ++ [Call_fetch_fred_data_api "CORCCACBS" (strftime_ymd s)
                                    (strftime_ymd e) key;
           Http_get (fred_url "CORCCACBS" (strftime_ymd s) (strftime_ymd e) key)]
       ++ fetch_errors (fst (fetch_fred_data_api_try "CORCCACBS"
                               (strftime_ymd s) (strftime_ymd e) key w))).
Proof.
  intros Hk.
  destruct (load_data_with_key s e key w Hk)
    as [dfA [wA [dfB [wB [EA [EB L]]]]]].
  rewrite L. cbn [snd].
  rewrite fetch_run in EA. injection EA as _ <-.
  rewrite fetch_run, try_ignores_trace in EB. cbn [fst] in EB.
  injection EB as _ <-.
  rewrite logged_logged. reflexivity.
Qed.

(** X13.  In the remote mode with a key the loading phase contacts
    nothing but the two series and never falls back on synthetic data:
    the only requests it can send are the GETs for [DRCCLACBS] and
    [CORCCACBS] over the range, the two dates in the form [YYYY-MM-DD],
    with the key; it never calls [create_sample_data], also when both
    fetches fail, never shows the warning of the missing key, and leaves
    the global generator as it was. *)
Theorem remote_only_series_requests (s e : date) (key : option string)
        (w : World) :
  truthy key = true ->
  exists es,
    snd (load_data s e "FRED API" key w) = logged w es /\
    forallb (is_series_fetch s e key) es = true /\
    (forall s' e', ~ In (Call_create_sample_data s' e') es) /\
    ~ In (St_warning warning_no_key) es.
Proof.
  intros Hk. rewrite (load_data_remote_trace s e key w Hk).
  eexists. split; [reflexivity|].
  assert (F : forallb (is_series_fetch s e key)
                ([Call_fetch_fred_data_api "DRCCLACBS" (strftime_ymd s)
                                           (strftime_ymd e) key;
                  Http_get (fred_url "DRCCLACBS" (strftime_ymd s)
                                     (strftime_ymd e) key)]
                   ++ fetch_errors (fst (fetch_fred_data_api_try "DRCCLACBS"
                                           (strftime_ymd s) (strftime_ymd e) key w))
                   ++ [Call_fetch_fred_data_api "CORCCACBS" (strftime_ymd s)
                                                (strftime_ymd e) key;
                       Http_get (fred_url "CORCCACBS" (strftime_ymd s)
                                          (strftime_ymd e) key)]
                   ++ fetch_errors (fst (fetch_fred_data_api_try "CORCCACBS"
                                           (strftime_ymd s) (strftime_ymd e) key w)))
              = true).
  { rewrite !forallb_app. cbn [forallb is_series_fetch andb].
    rewrite !String.eqb_refl, orb_true_r. cbn [orb andb].
    destruct (fst (fetch_fred_data_api_try "DRCCLACBS" _ _ _ _));
      destruct (fst (fetch_fred_data_api_try "CORCCACBS" _ _ _ _));
      reflexivity. }
  split; [exact F|].
  split; [intros s' e' Hin|intros Hin];
    apply (proj1 (forallb_forall _ _) F) in Hin; discriminate Hin.
Qed.

(** X14.  When one of the two fetches gives nothing and the other gives
    rows, the table of the remote mode is the fetched column alone, under
    its display name, row for row as it was fetched. *)
Theorem single_series_table (s e : date) (key : option string)
        (w wA wB : World) (dfA dfB : DataFrame) :
  truthy key = true ->
  fetch_fred_data_api "DRCCLACBS" (strftime_ymd s) (strftime_ymd e) key w
  = (inr dfA, wA) ->
  fetch_fred_data_api "CORCCACBS" (strftime_ymd s) (strftime_ymd e) key wA
  = (inr dfB, wB) ->
  (empty dfA = true -> empty dfB = false ->
   load_data s e "FRED API" key w
   = (inr {| columns := [name_chargeoff]; rows := rows dfB |}, wB))
  /\
  (empty dfA = false -> empty dfB = true ->
   load_data s e "FRED API" key w
   = (inr {| columns := [name_delinquency]; rows := rows dfA |}, wB)).
Proof.
  intros Hk EA EB.
  destruct (load_data_with_key s e key w Hk)
    as [dfA' [wA' [dfB' [wB' [EA' [EB' L]]]]]].
  rewrite EA in EA'. injection EA' as <- <-.
  rewrite EB in EB'. injection EB' as <- <-.
  rewrite L. unfold kept_columns. cbn [flat_map fst snd].
  split; intros HA HB; rewrite HA, HB; cbn [app DataFrame_of_series].
  - destruct (fetch_result_value_frame _ _ _ _ _ _ _ EB)
      as [->|[dates [values ->]]]; [discriminate HB|].
    now rewrite frame_of_single_column.
  - destruct (fetch_result_value_frame _ _ _ _ _ _ _ EA)
      as [->|[dates [values ->]]]; [discriminate HA|].
    now rewrite frame_of_single_column.
Qed.

End ScriptMore.

(* ================================================================== *)
(** * The demonstration mode, end to end *)
(* ================================================================== *)

Section DemoFacts.

Context {P : Platform}.

Lemma leb_not_nan (c v : float64) : leb c v = true -> is_nan v = false.
Proof.
  destruct v; try reflexivity. unfold leb, SFleb, SFcompare.
  destruct c; discriminate.
Qed.

Lemma sample_row_not_nan (d : date) (x y : float64) :
  is_nan x = false -> is_nan y = false ->
  Forall (fun c => is_nan c = false) (snd (sample_row (d, (x, y)))).
Proof.
  intros Nx Ny. cbn [sample_row snd].
  repeat constructor; apply (leb_not_nan floor_rate);
    (apply maximum_ge; [|reflexivity]).
  - apply stressed_delinquency_not_nan, add_finite_l; [reflexivity|exact Nx].
  - apply stressed_chargeoff_not_nan, add_finite_l; [reflexivity|exact Ny].
Qed.

Lemma index_sample_frame (dates : list date) (nd nc : list float64) :
  List.length nd = List.length dates -> List.length nc = List.length dates ->
  index (sample_frame dates nd nc) = dates.
Proof.
  unfold index, sample_frame. cbn [rows]. rewrite map_map.
  revert nd nc. induction dates as [|d ds IH]; intros [|x nd] [|y nc] Ld Lc;
    simpl in *; try discriminate; [reflexivity|].
  f_equal. apply IH; congruence.
Qed.

(** A synthetic table with a row has a value in both columns. *)
Lemma sample_frame_has_values (dates : list date) (nd nc : list float64) :
  dates <> [] ->
  List.length nd = List.length dates -> List.length nc = List.length dates ->
  Forall (fun x => is_nan x = false) nd ->
  Forall (fun x => is_nan x = false) nc ->
  empty (sample_frame dates nd nc) = false /\
  all_missing (sample_frame dates nd nc) name_delinquency = false /\
  all_missing (sample_frame dates nd nc) name_chargeoff = false.
Proof.
  intros Hne Ld Lc Fd Fc.
  destruct dates as [|d ds]; [now destruct Hne|].
  destruct nd as [|x nd]; [discriminate Ld|].
  destruct nc as [|y nc]; [discriminate Lc|].
  inversion Fd as [|? ? Nx _]. inversion Fc as [|? ? Ny _]. subst.
  assert (N1 : is_nan (maximum (stressed_delinquency d (add base_delinquency x))
                               floor_rate) = false).
  { apply (leb_not_nan floor_rate), maximum_ge; [|reflexivity].
    apply stressed_delinquency_not_nan, add_finite_l; [reflexivity|exact Nx]. }
  assert (N2 : is_nan (maximum (stressed_chargeoff d (add base_chargeoff y))
                               floor_rate) = false).
  { apply (leb_not_nan floor_rate), maximum_ge; [|reflexivity].
    apply stressed_chargeoff_not_nan, add_finite_l; [reflexivity|exact Ny]. }
  split; [reflexivity|].
  unfold all_missing, getitem, sample_frame, column_at, dropna.
  cbn [columns rows column_position String.eqb Ascii.eqb Bool.eqb
       name_delinquency name_chargeoff option_map map combine sample_row
       fst snd nth filter].
  rewrite N1, N2. now split.
Qed.

(** The demonstration mode on a range that holds a month end. *)
Lemma demo_page_run (s e : date) (src : string) (key : option string)
        (w : World) :
  (forall loc scale n st,
      List.length (fst (random_normal loc scale n st)) = n) ->
  (forall loc scale n st,
      is_finite loc = true -> is_finite scale = true ->
      Forall (fun x => is_nan x = false) (fst (random_normal loc scale n st))) ->
  String.eqb src "FRED API" = false ->
  date_leb s e = true ->
  date_range_M s e <> [] ->
  exists data w1,
    create_sample_data s e w = (inr data, w1) /\
    dashboard s e src key w = (inr tt, logged w1 (page_events data)) /\
    columns data = [name_delinquency; name_chargeoff] /\
    index data = date_range_M s e /\
    In (St_plotly_chart data) (page_events data) /\
    ~ In (St_warning warning_no_data) (page_events data).
Proof.
  intros Hlen Hnan Hsrc Hd Hne.
  pose proof (create_sample_data_run s e w Hlen) as Run. cbv zeta in Run.
  set (dates := date_range_M s e) in *.
  set (draw_d := random_normal (of_Z 0) (decimal 15 1) (List.length dates)
                               (random_seed 42)) in *.
  set (draw_c := random_normal (of_Z 0) (decimal 18 1) (List.length dates)
                               (snd draw_d)) in *.
  assert (Ld : List.length (fst draw_d) = List.length dates) by apply Hlen.
  assert (Lc : List.length (fst draw_c) = List.length dates) by apply Hlen.
  assert (Fd : Forall (fun x => is_nan x = false) (fst draw_d))
    by (apply Hnan; reflexivity).
  assert (Fc : Forall (fun x => is_nan x = false) (fst draw_c))
    by (apply Hnan; reflexivity).
  destruct (sample_frame_has_values dates (fst draw_d) (fst draw_c)
              Hne Ld Lc Fd Fc) as [He [Md Mc]].
  eexists _, _. split; [exact Run|]. split.
  - unfold dashboard, load_data, bind. rewrite Hd, Hsrc, Run.
    rewrite (show_data_run _ _ He). cbv zeta. now rewrite Md, Mc.
  - split; [reflexivity|]. split; [now apply index_sample_frame|].
    split; [unfold page_events; simpl; tauto|].
    unfold page_events. rewrite !in_app_iff. intros H.
    destruct H as [H|[H|[H|[H|[H|H]]]]].
    + simpl in H. repeat (destruct H as [H|H]; [discriminate H|]). exact H.
    + apply metric_events_metric in H. destruct H as [l [v H]]. discriminate H.
    + destruct H as [H|[]]. discriminate H.
    + apply metric_events_metric in H. destruct H as [l [v H]]. discriminate H.
    + destruct H as [H|[]]. discriminate H.
    + unfold trend_events in H.
      destruct (12 <=? len _)%nat; [|exact H].
      apply in_flat_map in H. destruct H as [c [_ H]].
      unfold trend_event in H.
      destruct (getitem _ c); [exact H|].
      destruct (getitem _ c); [exact H|].
      destruct H as [H|[]]. discriminate H.
Qed.


(** X15.  The demonstration mode, end to end: for a range of dates of the
    years 1678 to 2261 that holds a month end, with noise as
    [np.random.normal] gives it, the script ends normally, does not show
    the warning, and shows the page of a table with the two named columns
    and one row per month end of the range. *)
Theorem demo_page (s e : date) (src : string) (key : option string)
        (w : World) :
  (forall loc scale n st,
      List.length (fst (random_normal loc scale n st)) = n) ->
  (forall loc scale n st,
      is_finite loc = true -> is_finite scale = true ->
      Forall (fun x => is_nan x = false) (fst (random_normal loc scale n st))) ->
  String.eqb src "FRED API" = false ->
  in_timestamp_years s = true -> in_timestamp_years e = true ->
  date_leb s e = true ->
  date_range_M s e <> [] ->
  exists data w1,
    create_sample_data s e w = (inr data, w1) /\
    dashboard s e src key w = (inr tt, logged w1 (page_events data)) /\
    columns data = [name_delinquency; name_chargeoff] /\
    index data = date_range_M s e /\
    In (St_plotly_chart data) (page_events data) /\
    ~ In (St_warning warning_no_data) (page_events data).
Proof.
  intros Hlen Hnan Hsrc _ _ Hd Hne.
  exact (demo_page_run s e src key w Hlen Hnan Hsrc Hd Hne).
Qed.

(** The demonstration mode on a range that holds no month end. *)
Lemma demo_empty_run (s e : date) (src : string) (key : option string)
      (w : World) :
  (forall loc scale n st,
      List.length (fst (random_normal loc scale n st)) = n) ->
  String.eqb src "FRED API" = false ->
  date_leb s e = true ->
  date_range_M s e = [] ->
  exists data w1,
    create_sample_data s e w = (inr data, w1) /\
    rows data = [] /\ empty data = true /\
    dashboard s e src key w
    = (inr tt, logged w1 [St_warning warning_no_data]).
Proof.
  intros Hlen Hsrc Hd Range.
  pose proof (create_sample_data_run s e w Hlen) as Run. cbv zeta in Run.
  rewrite Range in Run. cbn [List.length] in Run.
  eexists _, _. split; [exact Run|].
  split; [reflexivity|]. split; [reflexivity|].
  unfold dashboard, load_data, bind. rewrite Hd, Hsrc, Run. reflexivity.
Qed.

(** X16.  A range of dates of the years 1678 to 2261 that lies inside one
    month and stops before its last day holds no month end: in the
    demonstration mode the synthetic table then has no row, and the page
    shows the warning that the data could not be loaded instead of a
    chart. *)
Theorem demo_range_without_month_end (s e : date) (src : string)
        (key : option string) (w : World) :
  (forall loc scale n st,
      List.length (fst (random_normal loc scale n st)) = n) ->
  String.eqb src "FRED API" = false ->
  valid_date s = true -> valid_date e = true ->
  in_timestamp_years s = true -> in_timestamp_years e = true ->
  year s = year e -> month s = month e -> day s <= day e ->
  day e < days_in_month (year e) (month e) ->
  date_range_M s e = [] /\
  exists data w1,
    create_sample_data s e w = (inr data, w1) /\
    rows data = [] /\ empty data = true /\
    dashboard s e src key w
    = (inr tt, logged w1 [St_warning warning_no_data]).
Proof.
  intros Hlen Hsrc Vs Ve _ _ Hy Hm Hle Hlt.
  assert (Range : date_range_M s e = []).
  { unfold date_range_M.
    replace (month_index e - month_index s + 1) with 1
      by (unfold month_index; rewrite Hy, Hm; lia).
    change (Z.to_nat 1) with 1%nat. cbn [seq map Z.of_nat].
    rewrite Z.add_0_r.
    assert (Md : is_month_end (Date (year e) (month e)
                                    (days_in_month (year e) (month e))) = true).
    { pose proof (valid_date_month e Ve).
      pose proof (days_in_month_bounds (year e) (month e)).
      unfold is_month_end, valid_date. cbn [year month day].
      rewrite Z.eqb_refl.
      repeat (apply andb_true_iff; split); try reflexivity; apply Z.leb_le; lia. }
    pose proof (month_end_of_index _ Md) as E.
    unfold month_index in E at 1. cbn [year month] in E.
    unfold month_index. rewrite Hy, Hm, E. cbn [filter].
    assert (F : date_leb (Date (year e) (month e)
                               (days_in_month (year e) (month e))) e = false).
    { unfold date_leb, date_compare. cbn [year month day].
      rewrite !Z.compare_refl.
      destruct (Z.compare_spec (days_in_month (year e) (month e)) (day e));
        try lia; reflexivity. }
    now rewrite F, andb_false_r. }
  split; [exact Range|].
  assert (Hd : date_leb s e = true).
  { unfold date_leb, date_compare. rewrite Hy, Hm, !Z.compare_refl.
    destruct (Z.compare_spec (day s) (day e)); try lia; reflexivity. }
  exact (demo_empty_run s e src key w Hlen Hsrc Hd Range).
Qed.

(** X19.  The demonstration mode does not raise on dates of the years
    1678 to 2261: whatever the two dates there, in either order, with
    noise as [np.random.normal] gives it, the script ends normally, after
    the page of the table, the warning of the empty table, or the error
    message of the invalid range. *)
Theorem demo_never_raises (s e : date) (src : string) (key : option string)
        (w : World) :
  (forall loc scale n st,
      List.length (fst (random_normal loc scale n st)) = n) ->
  (forall loc scale n st,
      is_finite loc = true -> is_finite scale = true ->
      Forall (fun x => is_nan x = false) (fst (random_normal loc scale n st))) ->
  String.eqb src "FRED API" = false ->
  in_timestamp_years s = true -> in_timestamp_years e = true ->
  fst (dashboard s e src key w) = inr tt.
Proof.
  intros Hlen Hnan Hsrc _ _.
  destruct (date_leb s e) eqn:Hd.
  - destruct (date_range_M s e) as [|d ds] eqn:Range.
    + destruct (demo_empty_run s e src key w Hlen Hsrc Hd Range)
        as [data [w1 [_ [_ [_ D]]]]].
      now rewrite D.
    + destruct (demo_page_run s e src key w Hlen Hnan Hsrc Hd)
        as [data [w1 [_ [D _]]]]; [rewrite Range; discriminate|].
      now rewrite D.
  - unfold dashboard. now rewrite Hd.
Qed.

End DemoFacts.

(* ================================================================== *)
(** * The dates of a request *)
(* ================================================================== *)

Section DateText.

Lemma digit_value_digit_char (n : Z) : digit_value (digit_char n) = Some (n mod 10).
Proof.
  unfold digit_value, digit_char.
  pose proof (Z.mod_pos_bound n 10 ltac:(lia)) as B.
  rewrite nat_ascii_embedding by lia.
  replace (48 <=? 48 + Z.to_nat (n mod 10))%nat with true
    by (symmetry; apply Nat.leb_le; lia).
  replace (48 + Z.to_nat (n mod 10) <=? 57)%nat with true
    by (symmetry; apply Nat.leb_le; lia).
  cbn [andb]. f_equal. lia.
Qed.

Lemma four_digits (y : Z) :
  0 <= y <= 9999 ->
  number_of_digits (zero_pad 4 y) = Some y.
Proof.
  intros H. cbn [zero_pad append number_of_digits digits_value].
  rewrite !digit_value_digit_char. f_equal.
  Z.to_euclidean_division_equations. lia.
Qed.

Lemma two_digits (m : Z) :
  0 <= m <= 99 ->
  number_of_digits (zero_pad 2 m) = Some m.
Proof.
  intros H. cbn [zero_pad append number_of_digits digits_value].
  rewrite !digit_value_digit_char. f_equal.
  Z.to_euclidean_division_equations. lia.
Qed.

(** X17.  The text of a date sent to the service reads back as the same
    date: [strftime('%Y-%m-%d')] of a valid date between 1678 and 2261 is
    an ISO date string of ten characters whose parse is the date. *)
Theorem strftime_round_trip (d : date) :
  valid_date d = true ->
  1678 <= year d <= 2261 ->
  String.length (strftime_ymd d) = 10%nat /\
  parse_iso_date (strftime_ymd d) = Some d.
Proof.
  intros V Y. split; [reflexivity|].
  assert (M : 0 <= month d <= 99).
  { unfold valid_date in V.
    repeat (apply andb_true_iff in V; destruct V as [V ?]).
    apply Z.leb_le in V. apply Z.leb_le in H1. lia. }
  assert (D : 0 <= day d <= 99).
  { unfold valid_date in V.
    repeat (apply andb_true_iff in V; destruct V as [V ?]).
    pose proof (days_in_month_bounds (year d) (month d)).
    apply Z.leb_le in H. apply Z.leb_le in H0. lia. }
  pose proof (four_digits (year d) ltac:(lia)) as Ey.
  pose proof (two_digits (month d) M) as Em.
  pose proof (two_digits (day d) D) as Ed.
  unfold parse_iso_date, strftime_ymd.
  cbn [zero_pad append String.length Nat.eqb substring get] in *.
  rewrite Ey, Em, Ed.
  destruct d as [y m dd]. cbn [year month day] in *.
  rewrite V.
  replace (1678 <=? y) with true by (symmetry; apply Z.leb_le; lia).
  replace (y <=? 2261) with true by (symmetry; apply Z.leb_le; lia).
  reflexivity.
Qed.

End DateText.

(** The last day of February 2020. *)
Lemma strftime_round_trip_witness :
  strftime_ymd (Date 2020 2 29) = "2020-02-29"%string /\
  parse_iso_date (strftime_ymd (Date 2020 2 29)) = Some (Date 2020 2 29).
Proof.
  split; [reflexivity|].
  apply (proj2 (strftime_round_trip (Date 2020 2 29) eq_refl
                  (conj (Zle_bool_imp_le 1678 2020 eq_refl)
                        (Zle_bool_imp_le 2020 2261 eq_refl)))).
Defined.

(* ================================================================== *)
(** * The default source *)
(* ================================================================== *)

Section SidebarFacts.

Context {P : Platform}.

Variables (env_key : option string) (typed : string).

Local Abbreviation key := (Sidebar.fred_api_key env_key typed).

(** X18.  The source the page starts with follows the key.  The key is
    there exactly when [API_FRED] is set and not empty or the visitor
    typed one.  With a key the selector starts on the remote mode, and the
    loading phase fetches the two series; without one it starts on the
    demonstration mode, and the loading phase is the synthetic generator
    alone, with no warning.  Whatever the visitor picks, the source is one
    of the two modes, and the remote mode without a key is reached only
    by picking the second entry. *)
Theorem default_source_follows_key (s e : date) (w : World) :
  (truthy key = true <-> truthy env_key = true \/ typed <> EmptyString) /\
  (truthy key = true ->
   Sidebar.data_source key 0 = Some "FRED API"%string /\
   exists dfA wA dfB wB,
     fetch_fred_data_api "DRCCLACBS" (strftime_ymd s) (strftime_ymd e) key w
     = (inr dfA, wA) /\
     fetch_fred_data_api "CORCCACBS" (strftime_ymd s) (strftime_ymd e) key wA
     = (inr dfB, wB) /\
     load_data s e "FRED API" key w
     = (DataFrame_of_series
          (kept_columns [(name_delinquency, dfA); (name_chargeoff, dfB)]),
        wB)) /\
  (truthy key = false ->
   Sidebar.data_source key 0 = Some "Dados Simulados (Demo)"%string /\
   load_data s e "Dados Simulados (Demo)" key w = create_sample_data s e w) /\
  (forall n src,
      Sidebar.data_source key n = Some src ->
      (src = "FRED API"%string \/ src = "Dados Simulados (Demo)"%string) /\
      (truthy key = false -> src = "FRED API"%string -> n = 1%nat)).
Proof.
  split; [|split; [|split]].
  - unfold Sidebar.fred_api_key.
    destruct (truthy env_key) eqn:E.
    + rewrite E. split; [intros _; now left|reflexivity].
    + destruct typed as [|c rest]; cbn [truthy].
      * split; [discriminate|]. intros [F|F]; [discriminate F|now destruct F].
      * split; [intros _; right; discriminate|reflexivity].
  - intros Hk. split.
    + unfold Sidebar.data_source, Sidebar.options. now rewrite Hk.
    + apply load_data_with_key, Hk.
  - intros Hk. split.
    + unfold Sidebar.data_source, Sidebar.options. now rewrite Hk.
    + reflexivity.
  - intros n src. unfold Sidebar.data_source, Sidebar.options, Sidebar.selectbox.
    destruct (truthy key);
      destruct n as [|[|[|n]]]; simpl; intros E;
      try discriminate E; injection E as <-;
      (split; [tauto|]); try discriminate; try reflexivity;
      intros _ F; discriminate F.
Qed.

End SidebarFacts.

(* ================================================================== *)
(** * More runs on the test doubles *)
(* ================================================================== *)

Local Open Scope string_scope.

(** The page of a table of twelve rows is completed. *)
Lemma show_data_completes_witness :
  empty Stub.year_table = false /\
  fst (@show_data Mock.example Stub.year_table (Mock.start Mock.example 0%nat))
  = inr tt.
Proof.
  split; [reflexivity|].
  apply (proj1 (@show_data_completes Mock.example Stub.year_table
                  (Mock.start Mock.example 0%nat) eq_refl)).
  split; reflexivity.
Defined.

(** Both series are served with missing values only: the script raises. *)
Lemma show_data_all_missing_witness :
  fst (@dashboard Stub.all_dots (Date 2020 1 1) (Date 2020 3 31) "FRED API"
                  (Some "k") (Mock.start Stub.all_dots 0%nat))
  = inl (IndexError "single positional indexer is out-of-bounds").
Proof.
  change (fst (bind (@load_data Stub.all_dots (Date 2020 1 1) (Date 2020 3 31)
                                "FRED API" (Some "k"))
                    show_data (Mock.start Stub.all_dots 0%nat))
          = inl (IndexError "single positional indexer is out-of-bounds")).
  unfold bind.
  destruct (@load_data Stub.all_dots (Date 2020 1 1) (Date 2020 3 31)
                       "FRED API" (Some "k") (Mock.start Stub.all_dots 0%nat))
    as [[ex|data] w1] eqn:E; [discriminate E|].
  assert (D : data = {| columns := [name_delinquency; name_chargeoff];
                        rows := [(Date 2020 1 1, [nan; nan]);
                                 (Date 2020 2 1, [nan; nan])] |}).
  { vm_compute in E. injection E as <- _. reflexivity. }
  subst data.
  destruct (@show_data_all_missing Stub.all_dots
              {| columns := [name_delinquency; name_chargeoff];
                 rows := [(Date 2020 1 1, [nan; nan]);
                          (Date 2020 2 1, [nan; nan])] |}
              w1 eq_refl (or_introl eq_refl)) as [shown [R _]].
  now rewrite R.
Defined.

(** On a table of exactly twelve rows the column is compared with itself. *)
Lemma trend_windows_witness :
  exists column,
    getitem Stub.year_table name_delinquency = inr column /\
    map (fun i => of_Z (Z.of_nat i)) (seq 0 12) = lastn 12 (series_values column).
Proof.
  destruct (@trend_windows Mock.example Stub.year_table
              (Mock.start Mock.example 0%nat)
              (logged (Mock.start Mock.example 0%nat)
                      (page_events Stub.year_table))
              name_delinquency
              (map (fun i => of_Z (Z.of_nat i)) (seq 0 12))
              (map (fun i => of_Z (Z.of_nat i)) (seq 0 12))
              eq_refl eq_refl)
    as [_ [_ [column [G [R _]]]]].
  - vm_compute. do 13 right. left. reflexivity.
  - exists column. split; [exact G|exact R].
Defined.

(** The recent rows of the table of twelve rows. *)
Lemma recent_table_newest_first_witness :
  exists shown,
    snd (@show_data Mock.example Stub.year_table (Mock.start Mock.example 0%nat))
    = logged (Mock.start Mock.example 0%nat) shown /\
    In (St_dataframe (sort_index_desc (tail 12 Stub.year_table))) shown /\
    len (sort_index_desc (tail 12 Stub.year_table)) = 12%nat.
Proof.
  destruct (@recent_table_newest_first Mock.example Stub.year_table
              (Mock.start Mock.example 0%nat) eq_refl)
    as [shown [S1 [S2 [_ [_ [_ L]]]]]].
  exists shown. split; [exact S1|]. split; [exact S2|exact L].
Defined.

(** The demonstration mode with a key at hand. *)
Lemma no_request_offline_witness :
  exists es,
    trace (snd (@dashboard Mock.example (Date 2020 1 1) (Date 2020 3 31)
                           "Dados Simulados (Demo)" (Some "k")
                           (Mock.start Mock.example 0%nat)))
    = (trace (Mock.start Mock.example 0%nat) ++ es)%list /\
    forallb (fun ev => negb (is_remote ev)) es = true.
Proof.
  apply (@no_request_offline Mock.example (Date 2020 1 1) (Date 2020 3 31)
           "Dados Simulados (Demo)" (Some "k") (Mock.start Mock.example 0%nat)).
  left. reflexivity.
Defined.

(** A service that is down: the trace of the loading phase holds the two
    calls and the two requests, and no call of the generator. *)
Lemma remote_only_series_requests_witness :
  exists es,
    snd (@load_data Mock.unavailable (Date 2020 1 1) (Date 2020 3 31)
                    "FRED API" (Some "k") (Mock.start Mock.unavailable 0%nat))
    = logged (Mock.start Mock.unavailable 0%nat) es /\
    forallb (is_series_fetch (Date 2020 1 1) (Date 2020 3 31) (Some "k")) es
    = true /\
    ~ In (Call_create_sample_data (Date 2020 1 1) (Date 2020 3 31)) es.
Proof.
  destruct (@remote_only_series_requests Mock.unavailable (Date 2020 1 1)
              (Date 2020 3 31) (Some "k") (Mock.start Mock.unavailable 0%nat)
              eq_refl) as [es [E [F [N _]]]].
  exists es. split; [exact E|]. split; [exact F|apply N].
Defined.

(** The second series alone. *)
Lemma single_series_table_witness :
  fst (@load_data Stub.second_only (Date 2020 1 1) (Date 2020 3 31) "FRED API"
                  (Some "k") (Mock.start Stub.second_only 0%nat))
  = inr {| columns := [name_chargeoff];
           rows := [(Date 2020 2 1, [decimal 35 1]);
                    (Date 2020 3 1, [decimal 45 1])] |}.
Proof.
  destruct (@fetch_fred_data_api Stub.second_only "DRCCLACBS"
              (strftime_ymd (Date 2020 1 1)) (strftime_ymd (Date 2020 3 31))
              (Some "k") (Mock.start Stub.second_only 0%nat))
    as [rA wA] eqn:EA.
  destruct (@fetch_fred_data_api Stub.second_only "CORCCACBS"
              (strftime_ymd (Date 2020 1 1)) (strftime_ymd (Date 2020 3 31))
              (Some "k") wA)
    as [rB wB] eqn:EB.
  assert (HA : rA = inr DataFrame_empty).
  { vm_compute in EA. injection EA as <- _. reflexivity. }
  assert (HB : rB = inr (value_frame [Date 2020 2 1; Date 2020 3 1]
                                     [decimal 35 1; decimal 45 1])).
  { vm_compute in EA. injection EA as _ <-. vm_compute in EB.
    injection EB as <- _. reflexivity. }
  subst rA rB.
  rewrite (proj1 (@single_series_table Stub.second_only (Date 2020 1 1)
                    (Date 2020 3 31) (Some "k")
                    (Mock.start Stub.second_only 0%nat) wA wB _ _
                    eq_refl EA EB) eq_refl eq_refl).
  reflexivity.
Defined.

(** The first quarter of 2020 in the demonstration mode. *)
Lemma demo_page_witness :
  exists data w1,
    @create_sample_data Mock.example (Date 2020 1 1) (Date 2020 3 31)
                        (Mock.start Mock.example 0%nat) = (inr data, w1) /\
    @dashboard Mock.example (Date 2020 1 1) (Date 2020 3 31)
               "Dados Simulados (Demo)" None (Mock.start Mock.example 0%nat)
    = (inr tt, logged w1 (page_events data)) /\
    index data = [Date 2020 1 31; Date 2020 2 29; Date 2020 3 31].
Proof.
  destruct (@demo_page Mock.example (Date 2020 1 1) (Date 2020 3 31)
              "Dados Simulados (Demo)" None (Mock.start Mock.example 0%nat)
              (mock_normal_length _) (mock_normal_not_nan _)
              eq_refl eq_refl eq_refl eq_refl)
    as [data [w1 [C [D [_ [I _]]]]]].
  - discriminate.
  - exists data, w1. split; [exact C|]. split; [exact D|exact I].
Defined.

(** The first half of January 2020. *)
Lemma demo_range_without_month_end_witness :
  date_range_M (Date 2020 1 1) (Date 2020 1 15) = [] /\
  exists data w1,
    @create_sample_data Mock.example (Date 2020 1 1) (Date 2020 1 15)
                        (Mock.start Mock.example 0%nat) = (inr data, w1) /\
    rows data = [] /\ empty data = true /\
    @dashboard Mock.example (Date 2020 1 1) (Date 2020 1 15)
               "Dados Simulados (Demo)" None (Mock.start Mock.example 0%nat)
    = (inr tt, logged w1 [St_warning warning_no_data]).
Proof.
  apply (@demo_range_without_month_end Mock.example (Date 2020 1 1)
           (Date 2020 1 15) "Dados Simulados (Demo)" None
           (Mock.start Mock.example 0%nat) (mock_normal_length _));
    try reflexivity; simpl; lia.
Defined.

(** An invalid range, an empty range and a full year. *)
Lemma demo_never_raises_witness :
  fst (@dashboard Mock.example (Date 2020 3 1) (Date 2020 1 1)
                  "Dados Simulados (Demo)" None (Mock.start Mock.example 0%nat))
  = inr tt /\
  fst (@dashboard Mock.example (Date 2020 1 1) (Date 2020 1 15)
                  "Dados Simulados (Demo)" None (Mock.start Mock.example 0%nat))
  = inr tt /\
  fst (@dashboard Mock.example (Date 2019 1 1) (Date 2020 12 31)
                  "Dados Simulados (Demo)" None (Mock.start Mock.example 0%nat))
  = inr tt.
Proof.
  split; [|split].
  - apply (@demo_never_raises Mock.example (Date 2020 3 1) (Date 2020 1 1)
             "Dados Simulados (Demo)" None (Mock.start Mock.example 0%nat)
             (mock_normal_length _) (mock_normal_not_nan _)
             eq_refl eq_refl eq_refl).
  - apply (@demo_never_raises Mock.example (Date 2020 1 1) (Date 2020 1 15)
             "Dados Simulados (Demo)" None (Mock.start Mock.example 0%nat)
             (mock_normal_length _) (mock_normal_not_nan _)
             eq_refl eq_refl eq_refl).
  - apply (@demo_never_raises Mock.example (Date 2019 1 1) (Date 2020 12 31)
             "Dados Simulados (Demo)" None (Mock.start Mock.example 0%nat)
             (mock_normal_length _) (mock_normal_not_nan _)
             eq_refl eq_refl eq_refl).
Defined.

(** No key in the environment and nothing typed: the demonstration mode. *)
Lemma default_source_follows_key_witness :
  Sidebar.data_source (Sidebar.fred_api_key None "") 0
  = Some "Dados Simulados (Demo)" /\
  Sidebar.data_source (Sidebar.fred_api_key (Some "k") "") 0 = Some "FRED API".
Proof.
  split.
  - apply (proj1 (proj2 (proj2 (@default_source_follows_key Mock.example
                                  None "" (Date 2020 1 1) (Date 2020 3 31)
                                  (Mock.start Mock.example 0%nat)))) eq_refl).
  - apply (proj1 (proj2 (@default_source_follows_key Mock.example
                           (Some "k") "" (Date 2020 1 1) (Date 2020 3 31)
                           (Mock.start Mock.example 0%nat))) eq_refl).
Defined.

Local Close Scope string_scope.
